(** * endaq.batch.calc: per-recording feature tables and their aggregation

    A shallow embedding of [endaq/batch/calc.py]: the formatters
    [_make_meta], [_make_psd], [_make_pvss], [_make_metrics],
    [_make_peak_windows], [_make_vc_curves], the configuration object
    [GetDataBuilder] with its [aggregate_data], and the result object
    [OutputStruct] with its exports [to_csv_folder] and [to_html_plots].

    Conventions of the embedding:
    - a Python exception is a value [Raise e] of the error monad [result];
    - what an export does to the outside world is the list of its actions,
      kept beside the outcome;
    - [None] is [None] of an [option];
    - a finite float sample is a rational ([Q]); the only NaN the module
      ever writes is the fill value of the peak-window buffer, so a buffer
      cell is an [option Q] with [None] for NaN;
    - the configuration parameters of [GetDataBuilder] are real numbers
      ([R]), because [add_psd] raises 2 to a fractional power;
    - a pandas Series with a (multi-)index is the list of its rows, each a
      list of index labels and a value. *)

From Stdlib Require Import String ZArith QArith Qabs List Bool Lia Reals Lra.
Import ListNotations.

Set Implicit Arguments.
Open Scope Z_scope.

(** ** Exceptions *)

Inductive exn : Set :=
| ValueError
| IndexError
| KeyError
| TypeError
| AttributeError
| FileNotFoundError
| ZeroDivisionError.

Inductive result (A : Type) : Type :=
| Ok (a : A)
| Raise (e : exn).

Arguments Ok {A} a.
Arguments Raise {A} e.

Definition bind {A B : Type} (r : result A) (k : A -> result B) : result B :=
  match r with
  | Ok a => k a
  | Raise e => Raise e
  end.

Notation "x <- c ;; k" := (bind c (fun x => k))
  (at level 61, c at next level, right associativity).
Notation "' pat <- c ;; k" := (bind c (fun x => match x with pat => k end))
  (at level 61, pat pattern, c at next level, right associativity).

Fixpoint mapM {A B : Type} (f : A -> result B) (l : list A) : result (list B) :=
  match l with
  | [] => Ok []
  | x :: t => y <- f x ;; ys <- mapM f t ;; Ok (y :: ys)
  end.

(** ** Python sequence operations *)

Module PySlice.

(** One bound of [slice(start, stop).indices(len)] for step 1: a
    negative bound counts from the end, and both are clipped to
    [0 .. len]. *)
Definition clamp (i len : Z) : Z :=
  if i <? 0 then Z.max 0 (i + len) else Z.min i len.

(** The half-open range [lo, hi) selected by [start:stop] in a sequence
    of [len] items; it is empty when the clipped stop precedes the
    clipped start. *)
Definition bounds (start stop len : Z) : nat * nat :=
  let lo := clamp start len in
  let hi := Z.max lo (clamp stop len) in
  (Z.to_nat lo, Z.to_nat hi).

(** [l[start:stop]] *)
Definition get {A : Type} (l : list A) (start stop : Z) : list A :=
  let '(lo, hi) := bounds start stop (Z.of_nat (length l)) in
  firstn (hi - lo) (skipn lo l).

(** [l[start:stop] = v] on a numpy array: the shapes must agree, except
    that a one-item [v] is broadcast over the whole range. *)
Definition set {A : Type} (l : list A) (start stop : Z) (v : list A)
  : result (list A) :=
  let '(lo, hi) := bounds start stop (Z.of_nat (length l)) in
  if Nat.eqb (length v) (hi - lo) then
    Ok (firstn lo l ++ v ++ skipn hi l)
  else
    match v with
    | [x] => Ok (firstn lo l ++ repeat x (hi - lo) ++ skipn hi l)
    | _ => Raise ValueError
    end.

End PySlice.

(** [l[j] = x] for an index inside the list. *)
Fixpoint update_nth {A : Type} (j : nat) (x : A) (l : list A) : list A :=
  match l, j with
  | [], _ => []
  | _ :: t, O => x :: t
  | y :: t, S j' => y :: update_nth j' x t
  end.

(** [range(lo, hi)] *)
Definition zrange (lo hi : Z) : list Z :=
  map (fun k => lo + Z.of_nat k) (seq 0 (Z.to_nat (hi - lo))).

(** ** numpy helpers *)

(** A cell of a float array: [None] is NaN. *)
Definition cell : Type := option Q.
Definition NaN : cell := None.

(** First index of the largest item, scanning left to right: a later item
    replaces the running best only when strictly larger. *)
Fixpoint argmax_from (best : Q) (ibest : Z) (i : Z) (l : list Q) : Z :=
  match l with
  | [] => ibest
  | x :: t =>
      if Qle_bool x best then argmax_from best ibest (i + 1) t
      else argmax_from x i (i + 1) t
  end.

(** [np.argmax(row)]; an empty row raises. *)
Definition argmax (row : list Q) : result Z :=
  match row with
  | [] => Raise ValueError
  | x :: t => Ok (argmax_from x 0 1 t)
  end.

(** [np.concatenate([rows, last[None]], axis=0)]: every row must have the
    length of the appended one. *)
Definition concatenate_rows (rows : list (list Q)) (last : list Q)
  : result (list (list Q)) :=
  if forallb (fun r => Nat.eqb (length r) (length last)) rows
  then Ok (rows ++ [last])
  else Raise ValueError.

(** [np.full((rows, cols), nan)], stored column by column. *)
Definition np_full_nan (rows : Z) (cols : nat) : result (list (list cell)) :=
  if rows <? 0 then Raise ValueError
  else Ok (repeat (repeat NaN (Z.to_nat rows)) cols).

(** [t[i]] for one integer index: a negative index counts from the end. *)
Definition item {A : Type} (t : list A) (i : Z) : result A :=
  let i' := if i <? 0 then i + Z.of_nat (length t) else i in
  if i' <? 0 then Raise IndexError
  else match nth_error t (Z.to_nat i') with
       | Some x => Ok x
       | None => Raise IndexError
       end.

(** [t[idx]]: indexing an array by an array of indices. *)
Definition take {A : Type} (t : list A) (idx : list Z) : result (list A) :=
  mapM (item t) idx.

(** ** Tables *)

(** An index label or a value of a table. *)
Inductive scalar : Type :=
| SStr (s : string)
| SInt (z : Z)
| SNum (q : Q)
| SDatetimeUs (us : Z)      (* datetime64, microseconds since the epoch *)
| STimedeltaUs (us : Z)     (* timedelta64[us] *)
| STimedeltaSec (s : Q)     (* a timedelta given in seconds *)
| SNaN.                     (* a missing value *)

(** A Series in long form: the names of its index levels and one row per
    entry, the labels of the entry followed by its value. *)
Record Series : Type := {
  index_names : list string;
  rows : list (list scalar * scalar)
}.

(** ** The analyzer, as far as the formatters read it *)

(** [analyzer._channels["acc"]] *)
Record AccelChannel : Type := {
  axis_names : list string;
  (** [eventarray.arraySlice()[0]], the sample times in microseconds *)
  arraySlice_0 : list Z;
  (** [channel.dataset.sessions[0].firstTime] *)
  firstTime : Z
}.

(** One of the scalar metrics: a named Series over axes. *)
Record Metric : Type := {
  metric_name : string;
  metric_values : list (string * Q)
}.

Record Analyzer : Type := {
  (** [_channels.get("acc", None)] *)
  _channels_acc : option AccelChannel;
  MPS2_TO_G : Q;
  MPS_TO_MMPS : Q;
  MPS_TO_UMPS : Q;
  _accelerationData : list (list Q);
  _accelerationResultant : list Q;
  _accelerationFs : Q;
  _PSDData : list Q * list (list Q);
  _PVSSData : list Q * list (list Q);
  _VCCurveData : list Q * list (list Q);
  accRMSFull : option Metric;
  velRMSFull : option Metric;
  disRMSFull : option Metric;
  accPeakFull : option Metric;
  pseudoVelPeakFull : option Metric;
  gpsLocFull : option Metric;
  gpsSpeedFull : option Metric;
  gyroRMSFull : option Metric;
  micRMSFull : option Metric;
  tempFull : option Metric;
  pressFull : option Metric
}.

(** ** Peak windows *)

Module PeakWindows.

(** The body of the loop over channels [j]: copy the part of row [j]
    around its peak into column [j] of the buffer. *)
Definition loop_body (margin_len : Z) (data : list (list Q))
    (i_max i_max_neg : list Z) (result_data : list (list cell)) (j : nat)
  : result (list (list cell)) :=
  let i := nth j i_max 0 in
  let i_neg := nth j i_max_neg 0 in
  col <- PySlice.set (nth j result_data [])
           (- margin_len - 1 - i) (margin_len - i_neg)
           (map Some (PySlice.get (nth j data [])
                        (i_neg - margin_len) (i + margin_len + 1))) ;;
  Ok (update_nth j col result_data).

(** [for j in range(data.shape[0])] *)
Definition loop (margin_len : Z) (data : list (list Q))
    (i_max i_max_neg : list Z) (result_data : list (list cell))
  : result (list (list cell)) :=
  fold_left
    (fun r j => rd <- r ;; loop_body margin_len data i_max i_max_neg rd j)
    (seq 0 (length data)) (Ok result_data).

(** Lines 138 to 152: the peak index of every channel and the filled
    buffer, a column of [window_len] cells per channel. *)
Definition buffer (data : list (list Q)) (margin_len : Z)
  : result (list Z * list (list cell)) :=
  let window_len := 2 * margin_len + 1 in
  let shape_1 := Z.of_nat (length (hd [] data)) in
  result_data <- np_full_nan window_len (length data) ;;
  i_max <- mapM argmax (map (map Qabs) data) ;;
  let i_max_neg := map (fun i => i - shape_1) i_max in
  result_data <- loop margin_len data i_max i_max_neg result_data ;;
  Ok (i_max, result_data).

(** The frame [pd.DataFrame(result_data, index=..., columns=...)]: its
    row labels and its columns, each with its two labels (axis, peak
    time) and its cells. *)
Definition frame : Type := list scalar * list ((string * Z) * list cell).

(** The column with the labels [(ax, pt)], if the frame has one. *)
Definition find_column (cols : list ((string * Z) * list cell))
    (ax : string) (pt : Z) : option (list cell) :=
  match find (fun c => String.eqb (fst (fst c)) ax && Z.eqb (snd (fst c)) pt)
             cols with
  | Some c => Some (snd c)
  | None => None
  end.

Definition is_present (c : cell) : bool :=
  match c with
  | Some _ => true
  | None => false
  end.

(** [df.stack(level="axis", dropna=dropna)]: the axis moves from the
    columns into the index. The result has a row for every row label and
    every axis, and a column for every peak time; a cell is NaN where the
    frame has no column for the axis and the peak time. With [dropna] the
    rows that are NaN throughout are dropped. *)
Definition stack_axis (dropna : bool) (df : frame)
  : list ((scalar * string) * list (Z * cell)) :=
  let '(index, cols) := df in
  let axes := nodup string_dec (map (fun c => fst (fst c)) cols) in
  let times := nodup Z.eq_dec (map (fun c => snd (fst c)) cols) in
  let stacked :=
    flat_map
      (fun '(off, k) =>
         map (fun ax =>
                ((off, ax),
                 map (fun pt =>
                        (pt, match find_column cols ax pt with
                             | Some col => nth k col NaN
                             | None => NaN
                             end))
                     times))
             axes)
      (combine index (seq 0 (length index))) in
  if dropna
  then filter (fun r => existsb (fun c => is_present (snd c)) (snd r)) stacked
  else stacked.

(** [.stack(level="peak time", dropna=dropna)] on that result: a Series
    with an entry for every cell, without the NaN cells under [dropna]. *)
Definition stack_time (dropna : bool)
    (df : list ((scalar * string) * list (Z * cell)))
  : list ((scalar * string * Z) * cell) :=
  flat_map
    (fun '((off, ax), cells) =>
       flat_map
         (fun '(pt, c) =>
            if dropna && negb (is_present c) then []
            else [((off, ax, pt), c)])
         cells)
    df.

(** [.reorder_levels(["axis", "peak time", "peak offset"])] *)
Definition reorder_levels (r : (scalar * string * Z) * cell)
  : list scalar * scalar :=
  let '((off, ax, pt), c) := r in
  ([SStr ax; STimedeltaUs pt; off],
   match c with
   | Some v => SNum v
   | None => SNaN
   end).

(** The long table returned:
    [DataFrame(...).stack(level="axis").stack(level="peak time")
     .reorder_levels(...)], both stacks with the default [dropna=True].
    In which order pandas lists the entries is not modelled. *)
Definition stack (index : list scalar) (columns : list (string * Z))
    (result_data : list (list cell)) : list (list scalar * scalar) :=
  map reorder_levels
      (stack_time true
         (stack_axis true (index, combine columns result_data))).

End PeakWindows.

(** Windows of the acceleration about its peaks: [None] without an
    acceleration channel, else the stacked frame of the buffer, its rows
    labelled by the offsets [-margin_len .. margin_len] times the sampling
    interval and its columns by axis and peak time. *)
Definition _make_peak_windows (analyzer : Analyzer) (margin_len : Z)
  : result (option Series) :=
  match _channels_acc analyzer with
  | None => Ok None
  | Some accel_ch =>
      rows <- concatenate_rows (_accelerationData analyzer)
                (_accelerationResultant analyzer) ;;
      let data := map (map (Qmult (MPS2_TO_G analyzer))) rows in
      let t := map (fun x => x - firstTime accel_ch) (arraySlice_0 accel_ch) in
      dt <- (if Qeq_bool (_accelerationFs analyzer) 0
             then Raise ZeroDivisionError
             else Ok (1 / _accelerationFs analyzer)%Q) ;;
      '(i_max, result_data) <- PeakWindows.buffer data margin_len ;;
      let index :=
        map (fun k => STimedeltaSec (dt * inject_Z k)%Q)
            (zrange (- margin_len) (margin_len + 1)) in
      peak_time <- take t i_max ;;
      let axis := (axis_names accel_ch ++ ["Resultant"%string])%list in
      if Nat.eqb (length axis) (length peak_time) then
        Ok (Some {| index_names :=
                      ["axis"; "peak time"; "peak offset"]%string;
                    rows := PeakWindows.stack index (combine axis peak_time)
                              result_data |})
      else Raise ValueError
  end.

(** ** Spectra, shock spectra, VC curves and scalar metrics *)

Section Formatters.

(** The numerical helpers of [endaq.batch.utils.calc] are taken as they
    come: [psd.to_octave(f, psd, fstart, octave_bins, axis=1,
    mode="mean")] and [stats.L2_norm] along one row. *)
Variable to_octave :
  list Q -> list (list Q) -> R -> R -> list Q * list (list Q).
Variable L2_norm : list Q -> Q.

(** [pd.DataFrame(vals.T * c, index=f, columns=axis_names)]: [vals] has
    one row per axis and one column per entry of [f]; the frame has one
    row per entry of [f]. Mismatched shapes raise. *)
Definition frame_of (f : list Q) (axis_names : list string)
    (vals : list (list Q)) (c : Q) : result (list (Q * list Q)) :=
  if Nat.eqb (length vals) (length axis_names)
     && forallb (fun r => Nat.eqb (length r) (length f)) vals
  then Ok (map (fun '(x, k) => (x, map (fun r => (nth k r 0 * c)%Q) vals))
             (combine f (seq 0 (length f))))
  else Raise ValueError.

(** [df["Resultant"] = combine(df.to_numpy(), axis=1)] followed by
    [df.stack(level="axis").reorder_levels(["axis", "frequency"])]. *)
Definition stack_with_resultant (combine_row : list Q -> Q)
    (axis_names : list string) (df : list (Q * list Q)) : Series :=
  {| index_names := ["axis"; "frequency"]%string;
     rows :=
       flat_map
         (fun '(x, vs) =>
            map (fun '(ax, v) => ([SStr ax; SNum x], SNum v))
                (combine (axis_names ++ ["Resultant"%string])
                         (vs ++ [combine_row vs])))
         df |}.

(** [np.sum] along one row. *)
Definition np_sum (vs : list Q) : Q := fold_right Qplus 0%Q vs.

Definition _make_psd (analyzer : Analyzer) (fstart bins_per_octave : option R)
  : result (option Series) :=
  match _channels_acc analyzer with
  | None => Ok None
  | Some accel_ch =>
      let '(f, psd) := _PSDData analyzer in
      let '(f, psd) :=
        match bins_per_octave with
        | Some b =>
            (* fstart or 1 *)
            let fstart' :=
              match fstart with
              | Some x => if Req_dec_T x 0 then 1%R else x
              | None => 1%R
              end in
            to_octave f psd fstart' b
        | None => (f, psd)
        end in
      df_psd <- frame_of f (axis_names accel_ch) psd
                  (MPS2_TO_G analyzer ^ 2)%Q ;;
      Ok (Some (stack_with_resultant np_sum (axis_names accel_ch) df_psd))
  end.

Definition _make_pvss (analyzer : Analyzer) : result (option Series) :=
  match _channels_acc analyzer with
  | None => Ok None
  | Some accel_ch =>
      let '(f, pvss) := _PVSSData analyzer in
      df_pvss <- frame_of f (axis_names accel_ch) pvss
                   (MPS_TO_MMPS analyzer) ;;
      Ok (Some (stack_with_resultant L2_norm (axis_names accel_ch) df_pvss))
  end.

(** The frame has one row per metric the analyzer provides; [df.stack()]
    gives one entry per value present, indexed by calculation and axis
    (in which order the axes of one calculation come is not modelled).
    There is no test on the acceleration channel here. *)
Definition _make_metrics (analyzer : Analyzer) : result (option Series) :=
  let df :=
    [ accRMSFull analyzer;
      velRMSFull analyzer;
      disRMSFull analyzer;
      accPeakFull analyzer;
      pseudoVelPeakFull analyzer;
      gpsLocFull analyzer;
      gpsSpeedFull analyzer;
      gyroRMSFull analyzer;
      micRMSFull analyzer;
      tempFull analyzer;
      pressFull analyzer ] in
  let series :=
    {| index_names := ["calculation"; "axis"]%string;
       rows :=
         flat_map
           (fun m =>
              match m with
              | Some mt =>
                  map (fun '(ax, v) =>
                         ([SStr (metric_name mt); SStr ax], SNum v))
                      (metric_values mt)
              | None => []
              end)
           df |} in
  Ok (Some series).

Definition _make_vc_curves (analyzer : Analyzer) : result (option Series) :=
  match _channels_acc analyzer with
  | None => Ok None
  | Some accel_ch =>
      let '(f, vc) := _VCCurveData analyzer in
      df_vc <- frame_of f (axis_names accel_ch) vc
                 (MPS_TO_UMPS analyzer) ;;
      Ok (Some (stack_with_resultant L2_norm (axis_names accel_ch) df_vc))
  end.

End Formatters.

(** ** Recording metadata *)

(** What [_make_meta] reads from an opened recording. *)
Record Dataset : Type := {
  filename : string;
  (** [recorderInfo["RecorderSerial"]] *)
  RecorderSerial : Z;
  (** [sessions[0].utcStartTime], in seconds *)
  utcStartTime : Z;
  (** [sessions[0].firstTime], in microseconds *)
  session_firstTime : Z
}.

(** The Series is named after [dataset.filename]; aggregation keys it by
    the name the recording was asked for instead, so the name is left
    out. *)
Definition _make_meta (dataset : Dataset) : Series :=
  let serial_no := RecorderSerial dataset in
  let start_time :=
    utcStartTime dataset * 1000000 + session_firstTime dataset in
  {| index_names := [""%string];
     rows := [ ([SStr "serial number"], SInt serial_no);
               ([SStr "start time"], SDatetimeUs start_time) ] |}.

(** ** GetDataBuilder *)

(** The keys that the [add_*] methods put into [_metrics_queue]. *)
Inductive kind : Set := psd | pvss | metrics | peaks | vc_curves.

Definition kind_name (k : kind) : string :=
  match k with
  | psd => "psd"
  | pvss => "pvss"
  | metrics => "metrics"
  | peaks => "peaks"
  | vc_curves => "vc_curves"
  end.

Definition kind_eqb (a b : kind) : bool :=
  match a, b with
  | psd, psd | pvss, pvss | metrics, metrics
  | peaks, peaks | vc_curves, vc_curves => true
  | _, _ => false
  end.

(** [_metrics_queue] is a dict whose values are all [None]: its keys in
    insertion order. *)
Definition queue : Set := list kind.

(** [key in queue] *)
Definition queue_mem (k : kind) (q : queue) : bool := existsb (kind_eqb k) q.

(** [queue[key] = None]: a new key goes to the end, a key already present
    keeps its place. *)
Definition queue_set (k : kind) (q : queue) : queue :=
  if queue_mem k q then q else q ++ [k].

Record AnalyzerKwargs : Type := {
  preferred_chs : list string;
  accel_highpass_cutoff : option R;
  accel_start_time : option R;
  accel_end_time : option R;
  accel_start_margin : option R;
  accel_end_margin : option R
}.

Record GetDataBuilder : Type := {
  _metrics_queue : queue;
  _analyzer_kwargs : AnalyzerKwargs;
  _psd_freq_bin_width : option R;
  _psd_freq_start_octave : option R;
  _psd_bins_per_octave : option R;
  _psd_window : option string;
  _pvss_init_freq : option R;
  _pvss_bins_per_octave : option R;
  _peak_window_margin_len : option Z;
  _vc_init_freq : option R;
  _vc_bins_per_octave : option R
}.

(** [GetDataBuilder(preferred_chs=..., accel_highpass_cutoff=..., ...)] *)
Definition __init__ (preferred_chs : list string)
    (accel_highpass_cutoff accel_start_time accel_end_time
       accel_start_margin accel_end_margin : option R)
  : result GetDataBuilder :=
  match accel_start_time, accel_start_margin with
  | Some _, Some _ => Raise ValueError
  | _, _ =>
      match accel_end_time, accel_end_margin with
      | Some _, Some _ => Raise ValueError
      | _, _ =>
          Ok {| _metrics_queue := [];
                _analyzer_kwargs :=
                  {| preferred_chs := preferred_chs;
                     accel_highpass_cutoff := accel_highpass_cutoff;
                     accel_start_time := accel_start_time;
                     accel_end_time := accel_end_time;
                     accel_start_margin := accel_start_margin;
                     accel_end_margin := accel_end_margin |};
                _psd_freq_bin_width := None;
                _psd_freq_start_octave := None;
                _psd_bins_per_octave := None;
                _psd_window := None;
                _pvss_init_freq := None;
                _pvss_bins_per_octave := None;
                _peak_window_margin_len := None;
                _vc_init_freq := None;
                _vc_bins_per_octave := None |}
      end
  end.

(** [x / y] on numbers *)
Definition py_div (x y : R) : result R :=
  if Req_dec_T y 0 then Raise ZeroDivisionError else Ok (x / y)%R.

(** [int(x)]: the integer part, rounding towards zero. *)
Definition py_int (x : R) : Z :=
  if Rle_dec 0 x then Int_part x else - Int_part (- x).

(** The four assignments and the queue entry that end [add_psd]. *)
Definition set_psd (self : GetDataBuilder)
    (freq_bin_width : R) (freq_start_octave bins_per_octave : option R)
    (window : string) : GetDataBuilder :=
  {| _metrics_queue := queue_set psd (_metrics_queue self);
     _analyzer_kwargs := _analyzer_kwargs self;
     _psd_freq_bin_width := Some freq_bin_width;
     _psd_freq_start_octave := freq_start_octave;
     _psd_bins_per_octave := bins_per_octave;
     _psd_window := Some window;
     _pvss_init_freq := _pvss_init_freq self;
     _pvss_bins_per_octave := _pvss_bins_per_octave self;
     _peak_window_margin_len := _peak_window_margin_len self;
     _vc_init_freq := _vc_init_freq self;
     _vc_bins_per_octave := _vc_bins_per_octave self |}.

(** [2 ** (1 / (2 * b)) - 2 ** (-1 / (2 * b))] *)
Definition fstart_breadth (bins_per_octave : R) : result R :=
  e_pos <- py_div 1 (2 * bins_per_octave) ;;
  e_neg <- py_div (-1) (2 * bins_per_octave) ;;
  Ok (Rpower 2 e_pos - Rpower 2 e_neg)%R.

Definition add_psd (self : GetDataBuilder)
    (freq_bin_width freq_start_octave bins_per_octave : option R)
    (window : string) : result GetDataBuilder :=
  match freq_bin_width, bins_per_octave with
  | None, None => Raise ValueError
  | Some w, _ =>
      Ok (set_psd self w freq_start_octave bins_per_octave window)
  | None, Some b =>
      let freq_start_octave :=
        match freq_start_octave with
        | None => 1%R
        | Some f0 => f0
        end in
      breadth <- fstart_breadth b ;;
      ratio <- py_div 5 breadth ;;
      w <- py_div freq_start_octave (IZR (py_int ratio)) ;;
      Ok (set_psd self w (Some freq_start_octave) bins_per_octave window)
  end.

Definition add_pvss (self : GetDataBuilder) (init_freq bins_per_octave : R)
  : GetDataBuilder :=
  {| _metrics_queue := queue_set pvss (_metrics_queue self);
     _analyzer_kwargs := _analyzer_kwargs self;
     _psd_freq_bin_width := _psd_freq_bin_width self;
     _psd_freq_start_octave := _psd_freq_start_octave self;
     _psd_bins_per_octave := _psd_bins_per_octave self;
     _psd_window := _psd_window self;
     _pvss_init_freq := Some init_freq;
     _pvss_bins_per_octave := Some bins_per_octave;
     _peak_window_margin_len := _peak_window_margin_len self;
     _vc_init_freq := _vc_init_freq self;
     _vc_bins_per_octave := _vc_bins_per_octave self |}.

Definition add_metrics (self : GetDataBuilder) : GetDataBuilder :=
  let q := queue_set metrics (_metrics_queue self) in
  let seed := negb (queue_mem pvss q) in
  {| _metrics_queue := q;
     _analyzer_kwargs := _analyzer_kwargs self;
     _psd_freq_bin_width := _psd_freq_bin_width self;
     _psd_freq_start_octave := _psd_freq_start_octave self;
     _psd_bins_per_octave := _psd_bins_per_octave self;
     _psd_window := _psd_window self;
     _pvss_init_freq :=
       if seed then Some 1%R else _pvss_init_freq self;
     _pvss_bins_per_octave :=
       if seed then Some 12%R else _pvss_bins_per_octave self;
     _peak_window_margin_len := _peak_window_margin_len self;
     _vc_init_freq := _vc_init_freq self;
     _vc_bins_per_octave := _vc_bins_per_octave self |}.

Definition add_peaks (self : GetDataBuilder) (margin_len : Z)
  : GetDataBuilder :=
  {| _metrics_queue := queue_set peaks (_metrics_queue self);
     _analyzer_kwargs := _analyzer_kwargs self;
     _psd_freq_bin_width := _psd_freq_bin_width self;
     _psd_freq_start_octave := _psd_freq_start_octave self;
     _psd_bins_per_octave := _psd_bins_per_octave self;
     _psd_window := _psd_window self;
     _pvss_init_freq := _pvss_init_freq self;
     _pvss_bins_per_octave := _pvss_bins_per_octave self;
     _peak_window_margin_len := Some margin_len;
     _vc_init_freq := _vc_init_freq self;
     _vc_bins_per_octave := _vc_bins_per_octave self |}.

Definition add_vc_curves (self : GetDataBuilder) (init_freq bins_per_octave : R)
  : GetDataBuilder :=
  let q := queue_set vc_curves (_metrics_queue self) in
  let seed := negb (queue_mem psd q) in
  {| _metrics_queue := q;
     _analyzer_kwargs := _analyzer_kwargs self;
     _psd_freq_bin_width :=
       if seed then Some 0.2%R else _psd_freq_bin_width self;
     _psd_freq_start_octave := _psd_freq_start_octave self;
     _psd_bins_per_octave := _psd_bins_per_octave self;
     _psd_window :=
       if seed then Some "hanning"%string else _psd_window self;
     _pvss_init_freq := _pvss_init_freq self;
     _pvss_bins_per_octave := _pvss_bins_per_octave self;
     _peak_window_margin_len := _peak_window_margin_len self;
     _vc_init_freq := Some init_freq;
     _vc_bins_per_octave := Some bins_per_octave |}.

(** ** Aggregated tables *)

Definition scalar_eq_dec (a b : scalar) : {a = b} + {a <> b}.
Proof.
  repeat decide equality.
Defined.

(** Equality of two index keys. *)
Definition key_eqb (a b : list scalar) : bool :=
  if list_eq_dec scalar_eq_dec a b then true else false.

Fixpoint has_dup (keys : list (list scalar)) : bool :=
  match keys with
  | [] => false
  | k :: t => existsb (key_eqb k) t || has_dup t
  end.

(** The frame that [Series.unstack(level=1)] makes of a Series with two
    index levels: the labels of its rows and of its columns, and its
    entries, each under the key [[row label; column label]]. The order
    pandas gives the labels is not modelled; rows and columns are looked
    up by label. *)
Record Frame : Type := {
  frame_index : list scalar;
  frame_columns : list scalar;
  frame_entries : list (list scalar * scalar)
}.

(** [series.unstack(level=1)]; duplicate keys cannot be reshaped. *)
Definition unstack (series : Series) : result Frame :=
  if has_dup (map fst (rows series)) then Raise ValueError
  else
    Ok {| frame_index :=
            nodup scalar_eq_dec (map (fun r => nth 0 (fst r) SNaN) (rows series));
          frame_columns :=
            nodup scalar_eq_dec (map (fun r => nth 1 (fst r) SNaN) (rows series));
          frame_entries := rows series |}.

(** [frame.loc[i, c]] for one row label: a label that is not in the index,
    or a column that is not in the frame, raises; an empty cell reads as a
    missing value. *)
Definition loc (frame : Frame) (i c : scalar) : result scalar :=
  if in_dec scalar_eq_dec i (frame_index frame) then
    if in_dec scalar_eq_dec c (frame_columns frame) then
      match find (fun e => key_eqb (fst e) [i; c]) (frame_entries frame) with
      | Some e => Ok (snd e)
      | None => Ok SNaN
      end
    else Raise KeyError
  else Raise KeyError.

(** A row of an aggregated table: the recording and the index labels of
    the entry, its value, and the two columns joined from the metadata. *)
Record TidyRow : Type := {
  labels : list scalar;
  value : scalar;
  serial_number : scalar;
  start_time : scalar
}.

Record DataFrame : Type := {
  columns : list string;
  records : list TidyRow
}.

(** An entry of [OutputStruct.dataframes]. *)
Inductive table : Type :=
| MetaTable (meta : Frame)
| DataTable (df : option DataFrame).

(** [OutputStruct(dfs).dataframes], a dict in insertion order. *)
Definition OutputStruct : Type := list (string * table).

(** [zip] of the unpacked [rows]: the tuples of the items at equal
    positions, as many as the shortest row has; nothing at all without
    rows. *)
Fixpoint zip_star {A : Type} (rows : list (list A)) : list (list A) :=
  match rows with
  | [] => []
  | r :: rest =>
      match rest with
      | [] => map (fun x => [x]) r
      | _ :: _ => map (fun '(x, xs) => x :: xs) (combine r (zip_star rest))
      end
  end.

(** [next(s for s in series_list if s is not None)], when there is one. *)
Definition first_present (series_list : list (option Series)) : option Series :=
  match find (fun s => match s with Some _ => true | None => false end)
             series_list with
  | Some s => s
  | None => None
  end.

(** [pd.concat(series_list, keys=filenames, names=names)]: the entries of
    every Series that is not [None], each under its key. *)
Definition pd_concat (series_list : list (option Series))
    (keys : list string) (names : list string) : Series :=
  {| index_names := names;
     rows :=
       flat_map
         (fun '(k, s) =>
            match s with
            | Some s => map (fun '(idx, v) => (SStr k :: idx, v)) (rows s)
            | None => []
            end)
         (combine keys series_list) |}.

(** One item of the generator that [aggregate_data] unpacks: the
    concatenation when [series_list] is not empty and holds a Series,
    else [None]. *)
Definition concat_or_none (filenames : list string)
    (series_list : list (option Series)) : option Series :=
  match first_present series_list with
  | Some s0 =>
      Some (pd_concat series_list filenames
              ("filename"%string :: index_names s0))
  | None => None
  end.

(** The local function [reformat] of [aggregate_data]. *)
Definition reformat (meta : Frame) (series : option Series)
  : result (option DataFrame) :=
  match series with
  | None => Ok None
  | Some s =>
      (* series.to_frame().T.melt(): one record per entry *)
      let df := rows s in
      let df_filename := map (fun r => hd SNaN (fst r)) df in
      sn <- mapM (fun f => loc meta f (SStr "serial number")) df_filename ;;
      st <- mapM (fun f => loc meta f (SStr "start time")) df_filename ;;
      Ok (Some
            {| columns :=
                 index_names s ++ ["value"; "serial number"; "start time"]%string;
               records :=
                 map (fun '(r, a, b) =>
                        {| labels := fst r; value := snd r;
                           serial_number := a; start_time := b |})
                     (combine (combine df sn) st) |})
  end.

(** ** Extraction and aggregation *)

(** The arguments [_get_data] passes to [Analyzer]. *)
Record AnalyzerArgs : Type := {
  kwargs : AnalyzerKwargs;
  psd_window : option string;
  psd_freq_bin_width : option R;
  pvss_init_freq : option R;
  pvss_bins_per_octave : option R;
  vc_init_freq : option R;
  vc_bins_per_octave : option R
}.

Section Execution.

Variable to_octave :
  list Q -> list (list Q) -> R -> R -> list Q * list (list Q).
Variable L2_norm : list Q -> Q.

(** [idelib.importFile] and the constructor of
    [endaq.batch.analyzer.Analyzer]; either may raise. *)
Variable importFile : string -> result Dataset.
Variable new_Analyzer : Dataset -> AnalyzerArgs -> result Analyzer.

(** The dict [funcs] of [_get_data]. *)
Definition funcs (self : GetDataBuilder) (output_type : kind)
  : Analyzer -> result (option Series) :=
  match output_type with
  | psd =>
      fun analyzer =>
        _make_psd to_octave analyzer
          (_psd_freq_start_octave self) (_psd_bins_per_octave self)
  | pvss => _make_pvss L2_norm
  | metrics => _make_metrics
  | peaks =>
      fun analyzer =>
        match _peak_window_margin_len self with
        | Some margin_len => _make_peak_windows analyzer margin_len
        | None => Raise TypeError
        end
  | vc_curves => _make_vc_curves L2_norm
  end.

(** The result is the dict [data] in insertion order. *)
Definition _get_data (self : GetDataBuilder) (filename : string)
  : result (list (string * option Series)) :=
  ds <- importFile filename ;;
  analyzer <- new_Analyzer ds
                {| kwargs := _analyzer_kwargs self;
                   psd_window := _psd_window self;
                   psd_freq_bin_width := _psd_freq_bin_width self;
                   pvss_init_freq := _pvss_init_freq self;
                   pvss_bins_per_octave := _pvss_bins_per_octave self;
                   vc_init_freq := _vc_init_freq self;
                   vc_bins_per_octave := _vc_bins_per_octave self |} ;;
  let meta := _make_meta ds in
  data <- mapM (fun output_type =>
                  s <- funcs self output_type analyzer ;;
                  Ok (kind_name output_type, s))
               (_metrics_queue self) ;;
  Ok (("meta"%string, Some meta) :: data).

Definition aggregate_data (self : GetDataBuilder) (filenames : list string)
  : result OutputStruct :=
  datas <- mapM (_get_data self) filenames ;;
  let series_lists := zip_star (map (map snd) datas) in
  (* meta, *dfs = (... for series_list in series_lists) *)
  match map (concat_or_none filenames) series_lists with
  | [] => Raise ValueError
  | meta :: dfs =>
      meta <- match meta with
              | Some m => unstack m
              | None => Raise AttributeError
              end ;;
      dfs <- mapM (fun '(key, df) =>
                     df' <- reformat meta df ;;
                     Ok (kind_name key, DataTable df'))
                  (combine (_metrics_queue self) dfs) ;;
      Ok (("meta"%string, MetaTable meta) :: dfs)
  end.

End Execution.

(** ** OutputStruct: export and plots *)

(** The layout that [to_html_plots] gives a figure. *)
Record layout : Type := {
  x_log : bool;
  x_title : string;
  y_log : bool;
  y_title : string;
  title : string
}.

(** What the two export methods do to the outside world:
    [os.makedirs(folder, exist_ok=True)],
    [df.to_csv(os.path.join(folder, file), index=index)],
    [logging.warning(msg)], [fig.show()] and
    [fig.write_html(file=os.path.join(folder, file), ...,
    auto_open=auto_open)]. *)
Inductive action : Type :=
| MakeDirs (folder : string)
| ToCsv (folder file : string) (df : table) (index : bool)
| LogWarning (msg : string)
| FigShow (key : string) (l : layout)
| WriteHtml (key : string) (l : layout) (folder file : string) (auto_open : bool).

(** What an export method can raise: one of the exceptions above, or the
    [RuntimeError] of [to_html_plots] with its message. *)
Inductive raised : Type :=
| Exn (e : exn)
| RuntimeError (msg : string).

Inductive outcome (A : Type) : Type :=
| Returns (a : A)
| Raises (e : raised).

Arguments Returns {A} a.
Arguments Raises {A} e.

(** A computation that acts on the outside world and may raise: the
    actions done, in order, and the outcome. What was done before an
    exception stays done. *)
Definition io (A : Type) : Type := (list action * outcome A)%type.

Definition io_ret {A : Type} (a : A) : io A := ([], Returns a).

Definition io_raise {A : Type} (e : raised) : io A := ([], Raises e).

Definition io_lift {A : Type} (r : result A) : io A :=
  match r with
  | Ok a => ([], Returns a)
  | Raise e => ([], Raises (Exn e))
  end.

Definition io_do (a : action) : io unit := ([a], Returns tt).

Definition io_bind {A B : Type} (m : io A) (k : A -> io B) : io B :=
  match m with
  | (done, Returns a) => (done ++ fst (k a), snd (k a))
  | (done, Raises e) => (done, Raises e)
  end.

Notation "x <~ c ;; k" := (io_bind c (fun x => k))
  (at level 61, c at next level, right associativity).

(** [for x in items: body(x)], up to the first round that raises. *)
Fixpoint io_for {A : Type} (body : A -> io unit) (items : list A) : io unit :=
  match items with
  | [] => io_ret tt
  | x :: rest => _ <~ body x ;; io_for body rest
  end.

(** [f"{k}.csv"] *)
Definition csv_name (k : string) : string := (k ++ ".csv")%string.

(** [f"{k}.html"] *)
Definition html_name (k : string) : string := (k ++ ".html")%string.

(** [os.makedirs(folder, exist_ok=True)]: the empty path names no
    directory and raises before anything is made. (That the file system
    can refuse a path that is not empty is not modelled.) *)
Definition makedirs (folder : string) : io unit :=
  if String.eqb folder "" then io_raise (Exn FileNotFoundError)
  else io_do (MakeDirs folder).

(** [OutputStruct.to_csv_folder]: an entry that is [None] has no method
    [to_csv]. (That writing a file can fail is not modelled.) *)
Definition to_csv_folder (self : OutputStruct) (folder_path : string) : io unit :=
  _ <~ makedirs folder_path ;;
  io_for
    (fun '(k, df) =>
       match df with
       | DataTable None => io_raise (Exn AttributeError)
       | _ => io_do (ToCsv folder_path (csv_name k) df (String.eqb k "meta"))
       end)
    self.

(** The truth value of [folder_path]: [None] and the empty string are
    false. *)
Definition truthy (folder_path : option string) : bool :=
  match folder_path with
  | Some s => negb (String.eqb s "")
  | None => false
  end.

Definition is_timedelta (s : scalar) : bool :=
  match s with
  | STimedeltaUs _ | STimedeltaSec _ => true
  | _ => false
  end.

(** The position of a column name among the label columns of a table. *)
Fixpoint column_position (name : string) (cols : list string) : option nat :=
  match cols with
  | [] => None
  | c :: rest =>
      if String.eqb c name then Some O
      else match column_position name rest with
           | Some p => Some (S p)
           | None => None
           end
  end.

(** [df["peak offset"].dt.total_seconds()]: [None] cannot be indexed, the
    column must be there and must hold time deltas. *)
Definition peak_offset_seconds (df : table) : result unit :=
  match df with
  | DataTable None => Raise TypeError
  | DataTable (Some d) =>
      match column_position "peak offset" (columns d) with
      | Some p =>
          if forallb (fun r => is_timedelta (nth p (labels r) SNaN)) (records d)
          then Ok tt
          else Raise AttributeError
      | None => Raise KeyError
      end
  | MetaTable meta =>
      if in_dec scalar_eq_dec (SStr "peak offset") (frame_columns meta) then
        if forallb
             (fun e =>
                if scalar_eq_dec (nth 1 (fst e) SNaN) (SStr "peak offset")
                then is_timedelta (snd e)
                else true)
             (frame_entries meta)
        then Ok tt
        else Raise AttributeError
      else Raise KeyError
  end.

Section Plots.

(** [plotly.express.line] on the table of one kind, with the arguments
    [to_html_plots] gives it for that kind; it is taken as it comes. *)
Variable px_line : string -> table -> result unit.

(** The chain of [if k == ...] of [to_html_plots] for a key other than
    ["meta"]: the layout of the figure made, or [None] where the loop goes
    on to the next key. *)
Definition make_figure (k : string) (df : table) : io (option layout) :=
  if String.eqb k "psd" then
    _ <~ io_lift (px_line k df) ;;
    io_ret (Some {| x_log := true; x_title := "frequency (Hz)";
                    y_log := true; y_title := "Acceleration (g^2/Hz)";
                    title := "Acceleration PSD" |})
  else if String.eqb k "pvss" then
    _ <~ io_lift (px_line k df) ;;
    io_ret (Some {| x_log := true; x_title := "frequency (Hz)";
                    y_log := true; y_title := "Velocity (mm/s)";
                    title := "Pseudo Velocity Shock Spectrum (PVSS)" |})
  else if String.eqb k "metrics" then
    _ <~ io_do (LogWarning "HTML plot for metrics not currently implemented") ;;
    io_ret None
  else if String.eqb k "peaks" then
    _ <~ io_lift (peak_offset_seconds df) ;;
    _ <~ io_lift (px_line k df) ;;
    io_ret (Some {| x_log := false; x_title := "time relative to peak (s)";
                    y_log := false; y_title := "Acceleration (g)";
                    title := "Window about Acceleration Peaks" |})
  else if String.eqb k "vc_curves" then
    _ <~ io_lift (px_line k df) ;;
    io_ret (Some {| x_log := true; x_title := "frequency (Hz)";
                    y_log := true;
                    y_title := "1/3-Octave RMS Velocity (??m/s)";
                    title := "Vibration Criteria (VC) Curves" |})
  else io_raise
         (RuntimeError ("no configuration for plotting '" ++ k ++ "' data")).

(** One round of the loop of [to_html_plots]. *)
Definition plot_item (folder_path : option string) (show : bool)
    (item : string * table) : io unit :=
  let '(k, df) := item in
  if String.eqb k "meta" then io_ret tt
  else
    fig <~ make_figure k df ;;
    match fig with
    | None => io_ret tt
    | Some l =>
        if negb (truthy folder_path) && show then io_do (FigShow k l)
        else
          match folder_path with
          | Some folder => io_do (WriteHtml k l folder (html_name k) show)
          | None => io_raise (Exn TypeError)
          end
    end.

(** [OutputStruct.to_html_plots]; that [plotly.express] can be imported is
    taken for granted. *)
Definition to_html_plots (self : OutputStruct) (folder_path : option string)
    (show : bool) : io unit :=
  if negb (truthy folder_path || show) then io_ret tt
  else
    _ <~ match folder_path with
         | Some folder =>
             if truthy folder_path then makedirs folder else io_ret tt
         | None => io_ret tt
         end ;;
    io_for (plot_item folder_path show) self.

End Plots.

(** * Vocabulary of the statements *)

(** ** The bin width of the specification *)



(** ** Aggregation *)

(** The items at position [j] of every row. *)
Definition column {A : Type} (d : A) (j : nat) (rows : list (list A)) : list A :=
  map (fun r => nth j r d) rows.

(** The two entries one recording adds to the concatenated metadata. *)
Definition meta_entries (p : string * Dataset) : list (list scalar * scalar) :=
  map (fun '(idx, v) => (SStr (fst p) :: idx, v)) (rows (_make_meta (snd p))).

(** The recording opened under the name [f], if any. *)
Definition opened (l : list (string * Dataset)) (f : string) : option Dataset :=
  match find (fun p => String.eqb (fst p) f) l with
  | Some p => Some (snd p)
  | None => None
  end.

(** The serial number and the start time of the recording that the first
    label of a row names. *)
Definition serial_of (l : list (string * Dataset)) (lab : scalar) : scalar :=
  match lab with
  | SStr f =>
      match opened l f with
      | Some ds => SInt (RecorderSerial ds)
      | None => SNaN
      end
  | _ => SNaN
  end.

Definition start_of (l : list (string * Dataset)) (lab : scalar) : scalar :=
  match lab with
  | SStr f =>
      match opened l f with
      | Some ds =>
          SDatetimeUs (utcStartTime ds * 1000000 + session_firstTime ds)
      | None => SNaN
      end
  | _ => SNaN
  end.

(** The frame that unstacking the concatenated metadata gives. *)
Definition meta_frame (l : list (string * Dataset)) : Frame :=
  let entries := flat_map meta_entries l in
  {| frame_index :=
       nodup scalar_eq_dec (map (fun r => nth 0 (fst r) SNaN) entries);
     frame_columns :=
       nodup scalar_eq_dec (map (fun r => nth 1 (fst r) SNaN) entries);
     frame_entries := entries |}.

(** The table [reformat] makes of a concatenated Series. *)
Definition joined (l : list (string * Dataset)) (s : Series) : DataFrame :=
  {| columns := index_names s ++ ["value"; "serial number"; "start time"]%string;
     records :=
       map (fun r =>
              {| labels := fst r; value := snd r;
                 serial_number := serial_of l (hd SNaN (fst r));
                 start_time := start_of l (hd SNaN (fst r)) |})
           (rows s) |}.

(** The values of the per-recording dicts, and the results of all
    recordings for the kind at position [j] of the queue (position 0 of a
    dict holds the metadata). *)
Definition values (datas : list (list (string * option Series)))
  : list (list (option Series)) :=
  map (map snd) datas.

Definition kind_column (j : nat) (datas : list (list (string * option Series)))
  : list (option Series) :=
  column None (S j) (values datas).

(** The number of entries of the tables in a column. *)
Definition row_count (col : list (option Series)) : nat :=
  list_sum (map (fun s => match s with
                          | Some s => length (rows s)
                          | None => O
                          end) col).

(** The aggregated table for one column of results. *)
Definition aggregated (fs : list string) (l : list (string * Dataset))
    (col : list (option Series)) : table :=
  DataTable (option_map (joined l) (concat_or_none fs col)).

(** ** Chains of configuration calls *)

(** One call of an [add_*] method with its arguments. *)
Inductive call : Type :=
| CallPsd (freq_bin_width freq_start_octave bins_per_octave : option R)
          (window : string)
| CallPvss (init_freq bins_per_octave : R)
| CallMetrics
| CallPeaks (margin_len : Z)
| CallVcCurves (init_freq bins_per_octave : R).

Definition call_kind (c : call) : kind :=
  match c with
  | CallPsd _ _ _ _ => psd
  | CallPvss _ _ => pvss
  | CallMetrics => metrics
  | CallPeaks _ => peaks
  | CallVcCurves _ _ => vc_curves
  end.

Definition apply_call (self : GetDataBuilder) (c : call) : result GetDataBuilder :=
  match c with
  | CallPsd w f0 b win => add_psd self w f0 b win
  | CallPvss f b => Ok (add_pvss self f b)
  | CallMetrics => Ok (add_metrics self)
  | CallPeaks m => Ok (add_peaks self m)
  | CallVcCurves f b => Ok (add_vc_curves self f b)
  end.

(** A chain [builder.add_x(...).add_y(...)]: it stops at the first call
    that raises. *)
Fixpoint run_calls (self : GetDataBuilder) (cs : list call) : result GetDataBuilder :=
  match cs with
  | [] => Ok self
  | c :: t => self' <- apply_call self c ;; run_calls self' t
  end.

(** The kinds of a sequence in the order of their first occurrence, leaving
    out those already [seen]. *)
Fixpoint keep_first (seen : list kind) (ks : list kind) : list kind :=
  match ks with
  | [] => []
  | k :: t =>
      if queue_mem k seen then keep_first seen t
      else k :: keep_first (k :: seen) t
  end.

(** The parameters of the call are the ones the builder holds after it. *)
Definition call_params_stored (c : call) (b : GetDataBuilder) : Prop :=
  match c with
  | CallPsd w f0 d win =>
      _psd_bins_per_octave b = d /\ _psd_window b = Some win
      /\ forall x, w = Some x ->
           _psd_freq_bin_width b = Some x /\ _psd_freq_start_octave b = f0
  | CallPvss f d =>
      _pvss_init_freq b = Some f /\ _pvss_bins_per_octave b = Some d
  | CallMetrics => True
  | CallPeaks m => _peak_window_margin_len b = Some m
  | CallVcCurves f d =>
      _vc_init_freq b = Some f /\ _vc_bins_per_octave b = Some d
  end.

(** ** Peak windows *)

(** The sample at position [p] of a row, NaN outside the row. *)
Definition sample_at (row : list Q) (p : Z) : cell :=
  if p <? 0 then NaN else nth_error row (Z.to_nat p).

(** The window a channel should get: the samples at the offsets
    [-m .. m] from the peak [i], NaN where the offset leaves the row. *)
Definition window (m : Z) (row : list Q) (i : Z) : list cell :=
  map (fun k => sample_at row (i + k)) (zrange (- m) (m + 1)).

(** The index [np.argmax(np.abs(row))] of a row that is not empty. *)
Definition peak_index (row : list Q) : Z :=
  match argmax (map Qabs row) with
  | Ok i => i
  | Raise _ => 0
  end.

(** The signal [data] of [_make_peak_windows]: the channels of the
    accelerometer and, last, their resultant, scaled to g. *)
Definition signal (a : Analyzer) : list (list Q) :=
  map (map (Qmult (MPS2_TO_G a)))
      (_accelerationData a ++ [_accelerationResultant a]).

(** An analyzer with a usable acceleration channel [ch] of [n] samples:
    every channel and the resultant have [n >= 1] samples, each with its
    time stamp, there is one axis name per channel, the names are distinct
    and none is "Resultant", and the sampling rate is not zero. *)
Record usable (a : Analyzer) (ch : AccelChannel) (n : nat) : Prop := {
  usable_channel : _channels_acc a = Some ch;
  usable_resultant : length (_accelerationResultant a) = n;
  usable_rows : Forall (fun r => length r = n) (_accelerationData a);
  usable_samples : n <> O;
  usable_axes : length (axis_names ch) = length (_accelerationData a);
  usable_names : NoDup (axis_names ch ++ ["Resultant"%string]);
  usable_times : length (arraySlice_0 ch) = n;
  usable_rate : ~ (_accelerationFs a == 0)%Q
}.

(** The label of a window: the time of the peak of the row, counted from
    the start of the session. *)
Definition peak_time_of (ch : AccelChannel) (row : list Q) : Z :=
  nth (Z.to_nat (peak_index row)) (arraySlice_0 ch) 0 - firstTime ch.

(** The label of an offset of [k] samples. *)
Definition offset_label (a : Analyzer) (k : Z) : scalar :=
  STimedeltaSec ((1 / _accelerationFs a) * inject_Z k)%Q.

(** The rows of the table of peak windows: one for every channel [j] and
    every offset [k] within [m] of the peak at which the channel has a
    sample. *)
Definition window_row (a : Analyzer) (ch : AccelChannel) (m : Z)
    (r : list scalar * scalar) : Prop :=
  exists j row ax k x,
    nth_error (signal a) j = Some row
    /\ nth_error (axis_names ch ++ ["Resultant"%string]) j = Some ax
    /\ - m <= k <= m
    /\ 0 <= peak_index row + k
    /\ nth_error row (Z.to_nat (peak_index row + k)) = Some x
    /\ r = ([SStr ax; STimedeltaUs (peak_time_of ch row); offset_label a k],
            SNum x).

(** ** Configured kinds *)

(** The parameters that the extraction of a kind reads are set: the window
    and the bin width of the spectrum for [psd] and, because the VC curves
    are computed from the spectrum, for [vc_curves]; the two parameters of
    the shock spectrum for [pvss] and for [metrics], whose peak pseudo
    velocity is read off the shock spectrum; the margin for [peaks]. *)
Definition configured (b : GetDataBuilder) (k : kind) : Prop :=
  match k with
  | psd =>
      (exists w, _psd_freq_bin_width b = Some w)
      /\ (exists win, _psd_window b = Some win)
  | pvss | metrics =>
      (exists f, _pvss_init_freq b = Some f)
      /\ (exists d, _pvss_bins_per_octave b = Some d)
  | peaks => exists m, _peak_window_margin_len b = Some m
  | vc_curves =>
      (exists f, _vc_init_freq b = Some f)
      /\ (exists d, _vc_bins_per_octave b = Some d)
      /\ (exists w, _psd_freq_bin_width b = Some w)
      /\ (exists win, _psd_window b = Some win)
  end.

(** ** The columns of the aggregated tables *)

(** The index levels of the table of each kind. *)
Definition kind_index (k : kind) : list string :=
  match k with
  | psd | pvss | vc_curves => ["axis"; "frequency"]%string
  | metrics => ["calculation"; "axis"]%string
  | peaks => ["axis"; "peak time"; "peak offset"]%string
  end.

(** ** Spectrum tables *)

(** The spectrum that [_make_psd] tabulates: the analyzer's, or its
    rebinning to octave bins when a number of bins per octave is given; a
    start frequency that is absent or 0 then counts as 1. *)
Definition psd_spectrum
    (to_octave : list Q -> list (list Q) -> R -> R -> list Q * list (list Q))
    (a : Analyzer) (fstart bins_per_octave : option R)
  : list Q * list (list Q) :=
  match bins_per_octave with
  | None => _PSDData a
  | Some b =>
      to_octave (fst (_PSDData a)) (snd (_PSDData a))
        (match fstart with
         | Some x => if Req_dec_T x 0 then 1%R else x
         | None => 1%R
         end)
        b
  end.

(** The shapes fit: one row of values per axis, one value per frequency. *)
Definition fits (f : list Q) (axes : list string) (vals : list (list Q)) : Prop :=
  length vals = length axes /\ Forall (fun r => length r = length f) vals.

(** A table of a spectrum [vals] over the frequencies [f], scaled by [c]:
    for every frequency an entry for each axis, and one for "Resultant"
    that combines the scaled values of the axes at that frequency. *)
Definition spectrum_table (combine_row : list Q -> Q) (c : Q) (f : list Q)
    (axes : list string) (vals : list (list Q)) (tbl : Series) : Prop :=
  index_names tbl = ["axis"; "frequency"]%string
  /\ length (rows tbl) = (length f * S (length axes))%nat
  /\ forall k x,
       nth_error f k = Some x ->
       (forall i ax r,
          nth_error axes i = Some ax ->
          nth_error vals i = Some r ->
          In ([SStr ax; SNum x], SNum (nth k r 0 * c)%Q) (rows tbl))
       /\ In ([SStr "Resultant"; SNum x],
              SNum (combine_row (map (fun r => (nth k r 0 * c)%Q) vals)))
             (rows tbl).

(** ** The peak of a row *)

(** Position [i] holds the first sample of the row whose magnitude is the
    largest of the row. *)
Definition first_largest (row : list Q) (i : nat) : Prop :=
  exists peak,
    nth_error row i = Some peak
    /\ (forall x, In x row -> (Qabs x <= Qabs peak)%Q)
    /\ (forall p x, (p < i)%nat -> nth_error row p = Some x ->
                    (Qabs x < Qabs peak)%Q).

(** ** Export *)

(** An entry of the result that holds no table. *)
Definition is_absent (t : table) : bool :=
  match t with
  | DataTable None => true
  | _ => false
  end.

(** The file that [to_csv_folder] writes for an entry: named after the
    key, and with the index column only for the metadata. *)
Definition csv_file (folder : string) (e : string * table) : action :=
  ToCsv folder (csv_name (fst e)) (snd e) (String.eqb (fst e) "meta").

(** The keys for which [to_html_plots] has a branch. *)
Definition known_key (k : string) : bool :=
  existsb (String.eqb k)
    ["meta"; "psd"; "pvss"; "metrics"; "peaks"; "vc_curves"]%string.

(** What [to_html_plots] may do for the key of a queued kind when it
    writes into [folder]: a warning for the metrics, for the other kinds a
    page named after the key. *)
Definition plotted (folder : string) (show : bool) (k : kind) (a : action) : Prop :=
  match k with
  | metrics => a = LogWarning "HTML plot for metrics not currently implemented"
  | _ =>
      exists l,
        a = WriteHtml (kind_name k) l folder (html_name (kind_name k)) show
        /\ x_log l = negb (kind_eqb k peaks)
        /\ y_log l = negb (kind_eqb k peaks)
  end.

(** An entry whose round of the loop of [to_html_plots] goes through:
    the metadata and the metrics need nothing, the figure of a spectrum,
    a shock spectrum or VC curves must be drawn by [plotly.express.line],
    and for the peak windows the offsets must first be had in seconds. *)
Definition drawable (px_line : string -> table -> result unit)
    (e : string * table) : Prop :=
  fst e = "meta"%string
  \/ fst e = "metrics"%string
  \/ ((fst e = "psd"%string \/ fst e = "pvss"%string
       \/ fst e = "vc_curves"%string)
      /\ px_line (fst e) (snd e) = Ok tt)
  \/ (fst e = "peaks"%string
      /\ peak_offset_seconds (snd e) = Ok tt
      /\ px_line (fst e) (snd e) = Ok tt).

(** What [to_html_plots] does in the round of one entry, [target] being
    what it does with a figure (showing it, or writing its page): nothing
    for the metadata, a warning for the metrics, and for a figure the
    target, on logarithmic axes except for the peak windows. *)
Definition figure_step (target : string -> layout -> action)
    (e : string * table) (acts : list action) : Prop :=
  if String.eqb (fst e) "meta" then acts = []
  else if String.eqb (fst e) "metrics" then
    acts = [LogWarning "HTML plot for metrics not currently implemented"]
  else
    exists l,
      acts = [target (fst e) l]
      /\ x_log l = negb (String.eqb (fst e) "peaks")
      /\ y_log l = negb (String.eqb (fst e) "peaks").

(** ** The analyzer of a recording *)

(** The arguments with which [_get_data] constructs the analyzer of every
    recording. *)
Definition analyzer_args (self : GetDataBuilder) : AnalyzerArgs :=
  {| kwargs := _analyzer_kwargs self;
     psd_window := _psd_window self;
     psd_freq_bin_width := _psd_freq_bin_width self;
     pvss_init_freq := _pvss_init_freq self;
     pvss_bins_per_octave := _pvss_bins_per_octave self;
     vc_init_freq := _vc_init_freq self;
     vc_bins_per_octave := _vc_bins_per_octave self |}.

(** * Examples *)

(** A three-axis accelerometer with five samples, 100 microseconds apart.
    X peaks at its first sample, Y in the middle, Z at its last sample and
    the resultant in the middle. *)
Definition ex_channel : AccelChannel :=
  {| axis_names := ["X"; "Y"; "Z"]%string;
     arraySlice_0 := [1000; 1100; 1200; 1300; 1400];
     firstTime := 1000 |}.

Definition ex_analyzer : Analyzer :=
  {| _channels_acc := Some ex_channel;
     MPS2_TO_G := 1;
     MPS_TO_MMPS := 1000;
     MPS_TO_UMPS := 1000000;
     _accelerationData :=
       [ [7; 1; -2; 0; 1]; [0; 1; -9; 2; 1]; [1; 2; 0; 3; -8] ]%Q;
     _accelerationResultant := [7; 2; 9; 4; 8]%Q;
     _accelerationFs := 10000;
     _PSDData := ([1; 2]%Q, [ [4; 5]; [6; 7]; [8; 9] ]%Q);
     _PVSSData := ([1; 2]%Q, [ [1; 2]; [3; 4]; [5; 6] ]%Q);
     _VCCurveData := ([1; 2]%Q, [ [1; 1]; [2; 2]; [3; 3] ]%Q);
     accRMSFull :=
       Some {| metric_name := "RMS Acceleration";
               metric_values := [("X", 3); ("Y", 4); ("Z", 4)]%string%Q |};
     velRMSFull := None;
     disRMSFull := None;
     accPeakFull :=
       Some {| metric_name := "Peak Absolute Acceleration";
               metric_values := [("X", 7); ("Y", 9); ("Z", 8)]%string%Q |};
     pseudoVelPeakFull := None;
     gpsLocFull := None;
     gpsSpeedFull := None;
     gyroRMSFull := None;
     micRMSFull := None;
     tempFull :=
       Some {| metric_name := "Average Temperature";
               metric_values := [("Control", 22)]%string%Q |};
     pressFull := None |}.

(** A recording with a GPS and a thermometer and no accelerometer. *)
Definition ex_gps_analyzer : Analyzer :=
  {| _channels_acc := None;
     MPS2_TO_G := 1;
     MPS_TO_MMPS := 1000;
     MPS_TO_UMPS := 1000000;
     _accelerationData := [];
     _accelerationResultant := [];
     _accelerationFs := 0;
     _PSDData := ([], []);
     _PVSSData := ([], []);
     _VCCurveData := ([], []);
     accRMSFull := None;
     velRMSFull := None;
     disRMSFull := None;
     accPeakFull := None;
     pseudoVelPeakFull := None;
     gpsLocFull := None;
     gpsSpeedFull :=
       Some {| metric_name := "Average GPS Speed";
               metric_values := [("Ground", 12)]%string%Q |};
     gyroRMSFull := None;
     micRMSFull := None;
     tempFull :=
       Some {| metric_name := "Average Temperature";
               metric_values := [("Control", 21)]%string%Q |};
     pressFull := None |}.

(** The rows of a table of peak windows that belong to one axis. *)
Definition rows_of_axis (ax : string) (tbl : Series)
  : list (list scalar * scalar) :=
  filter (fun r => match fst r with
                   | SStr a :: _ => String.eqb a ax
                   | _ => false
                   end)
         (rows tbl).

(** Three recordings on disk; the third has no accelerometer. *)
Definition ex_importFile (f : string) : result Dataset :=
  if String.eqb f "test1.IDE" then
    Ok {| filename := "test1.IDE"; RecorderSerial := 10118;
          utcStartTime := 1600283149; session_firstTime := 771728 |}
  else if String.eqb f "test2.IDE" then
    Ok {| filename := "test2.IDE"; RecorderSerial := 10309;
          utcStartTime := 1600283062; session_firstTime := 475738 |}
  else if String.eqb f "gps.IDE" then
    Ok {| filename := "gps.IDE"; RecorderSerial := 9680;
          utcStartTime := 1605720687; session_firstTime := 0 |}
  else Raise FileNotFoundError.

Definition ex_new_Analyzer (ds : Dataset) (args : AnalyzerArgs) : result Analyzer :=
  if RecorderSerial ds =? 9680 then Ok ex_gps_analyzer else Ok ex_analyzer.

(** Stand-ins for the numerical helpers: no rebinning, and the sum of the
    absolute values for the norm. *)
Definition ex_to_octave (f : list Q) (psd : list (list Q)) (fstart bins : R)
  : list Q * list (list Q) :=
  (f, psd).

Definition ex_L2_norm (vs : list Q) : Q := np_sum (map Qabs vs).

Definition ex_files : list string := ["test1.IDE"; "gps.IDE"; "test2.IDE"]%string.

(** [GetDataBuilder(accel_highpass_cutoff=1)] *)
Definition ex_fresh : GetDataBuilder :=
  {| _metrics_queue := [];
     _analyzer_kwargs :=
       {| preferred_chs := [];
          accel_highpass_cutoff := Some 1%R;
          accel_start_time := None;
          accel_end_time := None;
          accel_start_margin := None;
          accel_end_margin := None |};
     _psd_freq_bin_width := None;
     _psd_freq_start_octave := None;
     _psd_bins_per_octave := None;
     _psd_window := None;
     _pvss_init_freq := None;
     _pvss_bins_per_octave := None;
     _peak_window_margin_len := None;
     _vc_init_freq := None;
     _vc_bins_per_octave := None |}.

(** [.add_psd(freq_bin_width=1).add_metrics().add_peaks(margin_len=1)
     .add_psd(freq_bin_width=2).add_metrics()] *)
Definition ex_calls : list call :=
  [ CallPsd (Some 1%R) None None "hanning";
    CallMetrics;
    CallPeaks 1;
    CallPsd (Some 2%R) None None "hanning";
    CallMetrics ].

Definition ex_builder : GetDataBuilder :=
  {| _metrics_queue := [psd; metrics; peaks];
     _analyzer_kwargs := _analyzer_kwargs ex_fresh;
     _psd_freq_bin_width := Some 2%R;
     _psd_freq_start_octave := None;
     _psd_bins_per_octave := None;
     _psd_window := Some "hanning"%string;
     _pvss_init_freq := Some 1%R;
     _pvss_bins_per_octave := Some 12%R;
     _peak_window_margin_len := Some 1;
     _vc_init_freq := None;
     _vc_bins_per_octave := None |}.

(** What the three recordings give, one dict each, and their aggregation. *)
Definition ex_datas : list (list (string * option Series)) :=
  Eval vm_compute in
    match mapM (_get_data ex_to_octave ex_L2_norm ex_importFile ex_new_Analyzer
                  ex_builder) ex_files with
    | Ok datas => datas
    | Raise _ => []
    end.

Definition ex_out : OutputStruct :=
  Eval vm_compute in
    match aggregate_data ex_to_octave ex_L2_norm ex_importFile ex_new_Analyzer
            ex_builder ex_files with
    | Ok out => out
    | Raise _ => []
    end.

(** One axis whose second and third samples have the same, largest
    magnitude. *)
Definition ex_tie_channel : AccelChannel :=
  {| axis_names := ["X"]%string;
     arraySlice_0 := [0; 100; 200; 300];
     firstTime := 0 |}.

Definition ex_tie_analyzer : Analyzer :=
  {| _channels_acc := Some ex_tie_channel;
     MPS2_TO_G := 1;
     MPS_TO_MMPS := 1000;
     MPS_TO_UMPS := 1000000;
     _accelerationData := [ [3; -7; 7; 1] ]%Q;
     _accelerationResultant := [3; 7; 7; 1]%Q;
     _accelerationFs := 10000;
     _PSDData := ([], [ [] ]);
     _PVSSData := ([], [ [] ]);
     _VCCurveData := ([], [ [] ]);
     accRMSFull := None;
     velRMSFull := None;
     disRMSFull := None;
     accPeakFull := None;
     pseudoVelPeakFull := None;
     gpsLocFull := None;
     gpsSpeedFull := None;
     gyroRMSFull := None;
     micRMSFull := None;
     tempFull := None;
     pressFull := None |}.

(** An accelerometer that recorded no sample. *)
Definition ex_empty_analyzer : Analyzer :=
  {| _channels_acc :=
       Some {| axis_names := ["X"]%string; arraySlice_0 := []; firstTime := 0 |};
     MPS2_TO_G := 1;
     MPS_TO_MMPS := 1000;
     MPS_TO_UMPS := 1000000;
     _accelerationData := [ [] ];
     _accelerationResultant := [];
     _accelerationFs := 10000;
     _PSDData := ([], [ [] ]);
     _PVSSData := ([], [ [] ]);
     _VCCurveData := ([], [ [] ]);
     accRMSFull := None;
     velRMSFull := None;
     disRMSFull := None;
     accPeakFull := None;
     pseudoVelPeakFull := None;
     gpsLocFull := None;
     gpsSpeedFull := None;
     gyroRMSFull := None;
     micRMSFull := None;
     tempFull := None;
     pressFull := None |}.

(** The recording without an accelerometer on its own. *)
Definition ex_gps_datas : list (list (string * option Series)) :=
  Eval vm_compute in
    match mapM (_get_data ex_to_octave ex_L2_norm ex_importFile ex_new_Analyzer
                  ex_builder) ["gps.IDE"%string] with
    | Ok datas => datas
    | Raise _ => []
    end.

(** A plotting function that draws every figure. *)
Definition ex_px_line (k : string) (df : table) : result unit := Ok tt.

Definition ex_gps_out : OutputStruct :=
  Eval vm_compute in
    match aggregate_data ex_to_octave ex_L2_norm ex_importFile ex_new_Analyzer
            ex_builder ["gps.IDE"%string] with
    | Ok out => out
    | Raise _ => []
    end.

(** * Properties *)

(** ** General facts about the error monad *)

Lemma bind_ok_inv (A B : Type) (r : result A) (k : A -> result B) (b : B) :
  bind r k = Ok b -> exists a, r = Ok a /\ k a = Ok b.
Proof.
  destruct r as [a|e]; simpl; intro H.
  - exists a. split; [reflexivity | exact H].
  - discriminate H.
Qed.

(** Inverts [H : (x <- c ;; k) = Ok b] into [Hx : c = Ok x] and
    [H : k x = Ok b]. *)
Ltac bind_inv H x Hx := apply bind_ok_inv in H as (x & Hx & H).

Lemma mapM_ok_Forall2 (A B : Type) (f : A -> result B) (l : list A) (l' : list B) :
  mapM f l = Ok l' -> Forall2 (fun x y => f x = Ok y) l l'.
Proof.
  revert l'. induction l as [|x t IH]; simpl; intros l' H.
  - injection H as <-. constructor.
  - bind_inv H y Hy.
    bind_inv H ys Hys.
    injection H as <-. constructor; auto.
Qed.

Lemma Forall2_mapM_ok (A B : Type) (f : A -> result B) (l : list A) (l' : list B) :
  Forall2 (fun x y => f x = Ok y) l l' -> mapM f l = Ok l'.
Proof.
  induction 1 as [|x y t t' Hxy _ IH]; simpl.
  - reflexivity.
  - rewrite Hxy. simpl. rewrite IH. reflexivity.
Qed.

Lemma mapM_ok_length (A B : Type) (f : A -> result B) (l : list A) (l' : list B) :
  mapM f l = Ok l' -> length l' = length l.
Proof.
  intro H. apply mapM_ok_Forall2 in H.
  symmetry. eapply Forall2_length; eassumption.
Qed.

Lemma mapM_total (A B : Type) (f : A -> result B) (g : A -> B) (l : list A) :
  (forall x, In x l -> f x = Ok (g x)) -> mapM f l = Ok (map g l).
Proof.
  induction l as [|x t IH]; simpl; intro H.
  - reflexivity.
  - rewrite (H x (or_introl eq_refl)). simpl.
    rewrite IH by (intros y Hy; apply H; right; exact Hy).
    reflexivity.
Qed.

(** ** The constructor *)

(** C7. The constructor raises [ValueError] exactly when a time and a
    margin are both given for the start, or both for the end, of the
    acceleration window; it raises nothing else; a time on one edge with a
    margin on the other is accepted. The constructor reads no recording, so
    the error comes before any is opened. *)
Theorem init_conflict_iff_ValueError
    (chs : list string) (cutoff st et sm em : option R) :
  (__init__ chs cutoff st et sm em = Raise ValueError
   <-> (st <> None /\ sm <> None) \/ (et <> None /\ em <> None))
  /\ (forall e, __init__ chs cutoff st et sm em = Raise e -> e = ValueError)
  /\ (forall t m : R,
        (exists b, __init__ chs cutoff (Some t) None None (Some m) = Ok b
                   /\ _metrics_queue b = [])
        /\ (exists b, __init__ chs cutoff None (Some t) (Some m) None = Ok b
                      /\ _metrics_queue b = [])).
Proof.
  split; [|split].
  - unfold __init__. split.
    + destruct st, sm, et, em; intro H; try discriminate H;
        solve [ left; split; discriminate | right; split; discriminate ].
    + intros [[Hs Hm] | [He Hm]].
      * destruct st; [|contradiction]. destruct sm; [|contradiction].
        reflexivity.
      * destruct et; [|contradiction]. destruct em; [|contradiction].
        destruct st, sm; reflexivity.
  - intros e. unfold __init__.
    destruct st, sm, et, em; intro H; try discriminate H;
      injection H as <-; reflexivity.
  - intros t m. split; eexists; simpl; split; reflexivity.
Qed.

(** ** Seeded defaults *)

Lemma kind_eqb_eq (a b : kind) : kind_eqb a b = true <-> a = b.
Proof.
  destruct a, b; simpl; split; intro H; try reflexivity; discriminate H.
Qed.

Lemma queue_mem_In (k : kind) (q : queue) : queue_mem k q = true <-> In k q.
Proof.
  unfold queue_mem. rewrite existsb_exists. split.
  - intros (x & Hx & Hk). apply kind_eqb_eq in Hk. subst x. exact Hx.
  - intro H. exists k. split; [exact H | apply kind_eqb_eq; reflexivity].
Qed.

Lemma queue_mem_set_other (k k' : kind) (q : queue) :
  k <> k' -> queue_mem k (queue_set k' q) = queue_mem k q.
Proof.
  intro Hne. unfold queue_set.
  destruct (queue_mem k' q); [reflexivity|].
  unfold queue_mem. rewrite existsb_app. simpl.
  destruct (kind_eqb k k') eqn:E.
  - apply kind_eqb_eq in E. contradiction.
  - rewrite !orb_false_r. reflexivity.
Qed.

(** C3. [add_metrics] without [pvss] in the queue sets the pvss parameters
    to 1 and 12, and [add_vc_curves] without [psd] in the queue sets the psd
    bin width to 0.2; neither puts the seeded kind into the queue; a kind
    that is in the queue keeps its parameters, and so do the kinds the call
    is not about. *)
Theorem seeded_defaults (self : GetDataBuilder) (f b : R) :
  let m := add_metrics self in
  let v := add_vc_curves self f b in
  (queue_mem pvss (_metrics_queue self) = false ->
     _pvss_init_freq m = Some 1%R
     /\ _pvss_bins_per_octave m = Some 12%R
     /\ queue_mem pvss (_metrics_queue m) = false)
  /\ (queue_mem pvss (_metrics_queue self) = true ->
        _pvss_init_freq m = _pvss_init_freq self
        /\ _pvss_bins_per_octave m = _pvss_bins_per_octave self)
  /\ (_psd_freq_bin_width m = _psd_freq_bin_width self
      /\ _psd_freq_start_octave m = _psd_freq_start_octave self
      /\ _psd_bins_per_octave m = _psd_bins_per_octave self
      /\ _psd_window m = _psd_window self
      /\ _peak_window_margin_len m = _peak_window_margin_len self
      /\ _vc_init_freq m = _vc_init_freq self
      /\ _vc_bins_per_octave m = _vc_bins_per_octave self)
  /\ (queue_mem psd (_metrics_queue self) = false ->
        _psd_freq_bin_width v = Some 0.2%R
        /\ queue_mem psd (_metrics_queue v) = false)
  /\ (queue_mem psd (_metrics_queue self) = true ->
        _psd_freq_bin_width v = _psd_freq_bin_width self
        /\ _psd_window v = _psd_window self)
  /\ (_psd_freq_start_octave v = _psd_freq_start_octave self
      /\ _psd_bins_per_octave v = _psd_bins_per_octave self
      /\ _pvss_init_freq v = _pvss_init_freq self
      /\ _pvss_bins_per_octave v = _pvss_bins_per_octave self
      /\ _peak_window_margin_len v = _peak_window_margin_len self).
Proof.
  assert (Hm : queue_mem pvss (queue_set metrics (_metrics_queue self))
               = queue_mem pvss (_metrics_queue self))
    by (apply queue_mem_set_other; discriminate).
  assert (Hv : queue_mem psd (queue_set vc_curves (_metrics_queue self))
               = queue_mem psd (_metrics_queue self))
    by (apply queue_mem_set_other; discriminate).
  cbv zeta. unfold add_metrics, add_vc_curves. simpl.
  rewrite Hm, Hv.
  repeat split; try reflexivity;
    match goal with
    | Hq : queue_mem _ (_metrics_queue self) = _ |- _ =>
        rewrite Hq; reflexivity
    end.
Qed.

(** The defaults are really seeded on a fresh builder, and a queued kind
    really keeps what the caller set. *)
Lemma seeded_defaults_witness :
  exists b0,
    __init__ [] (Some 1%R) None None None None = Ok b0
    /\ _pvss_init_freq (add_metrics b0) = Some 1%R
    /\ _pvss_bins_per_octave (add_metrics b0) = Some 12%R
    /\ _metrics_queue (add_metrics b0) = [metrics]
    /\ _psd_freq_bin_width (add_vc_curves b0 1 3) = Some 0.2%R
    /\ _metrics_queue (add_vc_curves b0 1 3) = [vc_curves]
    /\ _pvss_init_freq (add_metrics (add_pvss b0 5 6)) = Some 5%R
    /\ _pvss_bins_per_octave (add_metrics (add_pvss b0 5 6)) = Some 6%R.
Proof.
  eexists. split; [reflexivity|].
  pose proof (seeded_defaults
                {| _metrics_queue := [];
                   _analyzer_kwargs :=
                     {| preferred_chs := [];
                        accel_highpass_cutoff := Some 1%R;
                        accel_start_time := None; accel_end_time := None;
                        accel_start_margin := None; accel_end_margin := None |};
                   _psd_freq_bin_width := None;
                   _psd_freq_start_octave := None;
                   _psd_bins_per_octave := None;
                   _psd_window := None;
                   _pvss_init_freq := None;
                   _pvss_bins_per_octave := None;
                   _peak_window_margin_len := None;
                   _vc_init_freq := None;
                   _vc_bins_per_octave := None |} 1 3) as H.
  cbv zeta in H.
  destruct H as (Hseed & _ & _ & Hvc & _).
  destruct (Hseed eq_refl) as (H1 & H2 & _).
  destruct (Hvc eq_refl) as (H3 & _).
  repeat split; try assumption; reflexivity.
Defined.

(** ** The bin width derived by [add_psd] *)

















(** ** Transposing the per-recording dicts *)

Lemma combine_map_seq (A B : Type) (d : A) (g : nat -> B) (r : list A) (s : nat) :
  combine r (map g (seq s (length r)))
  = map (fun j => (nth (j - s) r d, g j)) (seq s (length r)).
Proof.
  revert s. induction r as [|x t IH]; intro s; simpl.
  - reflexivity.
  - rewrite Nat.sub_diag. f_equal.
    rewrite IH. apply map_ext_in. intros j Hj.
    apply in_seq in Hj.
    replace (j - s)%nat with (S (j - S s)) by lia. reflexivity.
Qed.

Lemma map_nth_seq (A B : Type) (d : A) (g : A -> B) (r : list A) :
  map g r = map (fun j => g (nth j r d)) (seq 0 (length r)).
Proof.
  induction r as [|x t IH]; simpl.
  - reflexivity.
  - f_equal. rewrite <- seq_shift, map_map. exact IH.
Qed.

(** [zip] of unpacked rows of one length [n] is the list of their [n]
    columns. *)
Lemma zip_star_columns (A : Type) (d : A) (rows : list (list A)) (n : nat) :
  rows <> [] ->
  Forall (fun r => length r = n) rows ->
  zip_star rows = map (fun j => column d j rows) (seq 0 n).
Proof.
  induction rows as [|r rest IH]; intros Hne Hall.
  - contradiction.
  - inversion Hall as [|r' rest' Hr Hrest]; subst r' rest'.
    destruct rest as [|r2 rest2].
    + simpl. subst n. apply (map_nth_seq d (fun x => [x])).
    + change (zip_star (r :: r2 :: rest2))
        with (map (fun '(x, xs) => x :: xs)
                  (combine r (zip_star (r2 :: rest2)))).
      rewrite IH by (try discriminate; exact Hrest).
      subst n. rewrite (combine_map_seq d), map_map.
      apply map_ext. intro j. rewrite Nat.sub_0_r. reflexivity.
Qed.

(** ** Keys, duplicates and lookups *)

Lemma key_eqb_eq (a b : list scalar) : key_eqb a b = true <-> a = b.
Proof.
  unfold key_eqb. destruct (list_eq_dec scalar_eq_dec a b); split;
    intro H; try reflexivity; try assumption; try discriminate H.
  contradiction.
Qed.

Lemma key_eqb_refl (k : list scalar) : key_eqb k k = true.
Proof.
  apply key_eqb_eq. reflexivity.
Qed.

Lemma key_eqb_neq (a b : list scalar) : a <> b -> key_eqb a b = false.
Proof.
  intro H. destruct (key_eqb a b) eqn:E; [|reflexivity].
  apply key_eqb_eq in E. contradiction.
Qed.

Lemma has_dup_false_NoDup (keys : list (list scalar)) :
  has_dup keys = false <-> NoDup keys.
Proof.
  induction keys as [|k t IH]; simpl.
  - split; [constructor | reflexivity].
  - rewrite orb_false_iff, IH. split.
    + intros [Hk Ht]. constructor; [|exact Ht].
      intro Hin.
      assert (E : existsb (key_eqb k) t = true).
      { apply existsb_exists. exists k. split; [exact Hin|].
        apply key_eqb_eq. reflexivity. }
      rewrite E in Hk. discriminate Hk.
    + intro H. inversion H as [|k' t' Hk Ht]; subst. split; [|exact Ht].
      destruct (existsb (key_eqb k) t) eqn:E; [|reflexivity].
      apply existsb_exists in E as (x & Hx & Hkx).
      apply key_eqb_eq in Hkx. subst x. contradiction.
Qed.

Lemma combine_map_self (A B : Type) (h : A -> B) (l : list A) :
  combine l (map h l) = map (fun x => (x, h x)) l.
Proof.
  induction l as [|x t IH]; simpl; [reflexivity | rewrite IH; reflexivity].
Qed.

Lemma Forall2_combine_fst (A B : Type) (P : A -> B -> Prop) (l : list A) (l' : list B) :
  Forall2 P l l' -> map fst (combine l l') = l.
Proof.
  induction 1; simpl; [reflexivity | f_equal; assumption].
Qed.

(** ** The metadata of the aggregated recordings *)

Lemma find_meta_entries (l : list (string * Dataset)) (f : string) (c : string) :
  In f (map fst l) ->
  c = "serial number"%string \/ c = "start time"%string ->
  find (fun e => key_eqb (fst e) [SStr f; SStr c]) (flat_map meta_entries l)
  = match opened l f with
    | Some ds =>
        Some ([SStr f; SStr c],
              if String.eqb c "serial number"
              then SInt (RecorderSerial ds)
              else SDatetimeUs (utcStartTime ds * 1000000 + session_firstTime ds))
    | None => None
    end.
Proof.
  intros Hin Hc. unfold opened.
  induction l as [|[f' ds'] t IH]; [destruct Hin|].
  simpl flat_map. simpl find at 2. simpl fst.
  destruct (String.eqb_spec f' f) as [->|Hne].
  - unfold meta_entries. simpl.
    destruct Hc as [-> | ->].
    + rewrite key_eqb_refl. reflexivity.
    + rewrite key_eqb_neq by discriminate.
      rewrite key_eqb_refl. reflexivity.
  - unfold meta_entries at 1. simpl.
    rewrite !key_eqb_neq by (intro E; injection E as E _; contradiction).
    apply IH. destruct Hin as [E|Hin]; [simpl in E; contradiction | exact Hin].
Qed.

Lemma opened_In (l : list (string * Dataset)) (f : string) :
  In f (map fst l) -> exists ds, opened l f = Some ds /\ In (f, ds) l.
Proof.
  unfold opened. induction l as [|[f' ds'] t IH]; intro Hin; [destruct Hin|].
  simpl. destruct (String.eqb_spec f' f) as [->|Hne].
  - exists ds'. split; [reflexivity | left; reflexivity].
  - destruct Hin as [E|Hin]; [simpl in E; contradiction|].
    destruct (IH Hin) as (ds & Hds & Hl).
    exists ds. split; [exact Hds | right; exact Hl].
Qed.

Lemma in_meta_keys (l : list (string * Dataset)) (k : list scalar) :
  In k (map fst (flat_map meta_entries l))
  <-> exists f, In f (map fst l)
                /\ (k = [SStr f; SStr "serial number"]
                    \/ k = [SStr f; SStr "start time"]).
Proof.
  induction l as [|[f ds] t IH]; simpl.
  - split; [intros [] | intros (f & [] & _)].
  - unfold meta_entries at 1. simpl. rewrite IH. split.
    + intros [E | [E | (f' & Hf' & Hk)]].
      * exists f. split; [left; reflexivity | left; symmetry; exact E].
      * exists f. split; [left; reflexivity | right; symmetry; exact E].
      * exists f'. split; [right; exact Hf' | exact Hk].
    + intros (f' & [E | Hf'] & Hk).
      * subst f'. destruct Hk as [-> | ->]; [left | right; left]; reflexivity.
      * right. right. exists f'. split; assumption.
Qed.

Lemma NoDup_meta_keys (l : list (string * Dataset)) :
  NoDup (map fst l) <-> NoDup (map fst (flat_map meta_entries l)).
Proof.
  induction l as [|[f ds] t IH]; simpl.
  - split; constructor.
  - unfold meta_entries at 1. simpl. split.
    + intro H. inversion H as [|f' t' Hf Ht]; subst.
      constructor; [|constructor].
      * intros [E | Hin]; [discriminate E|].
        apply in_meta_keys in Hin as (f' & Hf' & [E | E]);
          injection E as ->; contradiction.
      * intro Hin.
        apply in_meta_keys in Hin as (f' & Hf' & [E | E]);
          try discriminate E; injection E as ->; contradiction.
      * apply IH. exact Ht.
    + intro H. inversion H as [|k1 t1 Hk1 H1]; subst.
      inversion H1 as [|k2 t2 Hk2 H2]; subst.
      constructor; [|apply IH; exact H2].
      intro Hin. apply Hk2. apply in_meta_keys.
      exists f. split; [exact Hin | right; reflexivity].
Qed.

Lemma unstack_meta (names : list string) (l : list (string * Dataset)) :
  unstack {| index_names := names; rows := flat_map meta_entries l |}
  = if has_dup (map fst (flat_map meta_entries l))
    then Raise ValueError else Ok (meta_frame l).
Proof.
  reflexivity.
Qed.

Lemma in_meta_entries (l : list (string * Dataset)) (f : string) :
  In f (map fst l) ->
  exists ds,
    In ([SStr f; SStr "serial number"], SInt (RecorderSerial ds))
       (flat_map meta_entries l)
    /\ In ([SStr f; SStr "start time"],
           SDatetimeUs (utcStartTime ds * 1000000 + session_firstTime ds))
          (flat_map meta_entries l).
Proof.
  intro Hin. apply in_map_iff in Hin as ([f' ds] & E & Hin).
  simpl in E. subst f'. exists ds.
  split; apply in_flat_map; exists (f, ds); (split; [exact Hin|]);
    unfold meta_entries; simpl; [left | right; left]; reflexivity.
Qed.

(** Looking a recording up in the metadata frame gives the serial number
    and the start time of the recording opened under that name. *)
Lemma loc_meta_frame (l : list (string * Dataset)) (f : string) :
  In f (map fst l) ->
  loc (meta_frame l) (SStr f) (SStr "serial number") = Ok (serial_of l (SStr f))
  /\ loc (meta_frame l) (SStr f) (SStr "start time") = Ok (start_of l (SStr f)).
Proof.
  intro Hin.
  destruct (in_meta_entries l f Hin) as (ds0 & Hsn & Hst).
  destruct (opened_In l f Hin) as (ds & Hds & _).
  unfold loc, serial_of, start_of. simpl frame_index. simpl frame_columns.
  simpl frame_entries.
  destruct (in_dec scalar_eq_dec (SStr f) _) as [_|Hn].
  2:{ exfalso. apply Hn. apply nodup_In.
      apply in_map_iff. eexists. split; [|exact Hsn]. reflexivity. }
  split.
  - destruct (in_dec scalar_eq_dec (SStr "serial number") _) as [_|Hn].
    2:{ exfalso. apply Hn. apply nodup_In.
        apply in_map_iff. eexists. split; [|exact Hsn]. reflexivity. }
    rewrite (find_meta_entries l f Hin (or_introl eq_refl)), Hds.
    reflexivity.
  - destruct (in_dec scalar_eq_dec (SStr "start time") _) as [_|Hn].
    2:{ exfalso. apply Hn. apply nodup_In.
        apply in_map_iff. eexists. split; [|exact Hst]. reflexivity. }
    rewrite (find_meta_entries l f Hin (or_intror eq_refl)), Hds.
    reflexivity.
Qed.

(** ** Joining the metadata onto a concatenated table *)

Lemma combine_map_map (A B C : Type) (g : A -> B) (h : A -> C) (l : list A) :
  combine (map g l) (map h l) = map (fun x => (g x, h x)) l.
Proof.
  induction l as [|x t IH]; simpl; [reflexivity | rewrite IH; reflexivity].
Qed.

Lemma reformat_joined (l : list (string * Dataset)) (s : Series) :
  (forall r, In r (rows s) ->
     exists f, In f (map fst l) /\ hd SNaN (fst r) = SStr f) ->
  reformat (meta_frame l) (Some s) = Ok (Some (joined l s)).
Proof.
  intro Hrows. unfold reformat.
  rewrite (mapM_total _ (serial_of l)).
  2:{ intros x Hx. apply in_map_iff in Hx as (r & <- & Hr).
      destruct (Hrows r Hr) as (f & Hf & ->).
      apply (loc_meta_frame l f Hf). }
  simpl bind.
  rewrite (mapM_total _ (start_of l)).
  2:{ intros x Hx. apply in_map_iff in Hx as (r & <- & Hr).
      destruct (Hrows r Hr) as (f & Hf & ->).
      apply (loc_meta_frame l f Hf). }
  simpl bind. unfold joined. do 3 f_equal.
  rewrite !map_map, combine_map_self, combine_map_map, map_map.
  reflexivity.
Qed.

(** The rows of a concatenation carry the key of their recording first. *)
Lemma pd_concat_rows (col : list (option Series)) (fs names : list string)
    (r : list scalar * scalar) :
  In r (rows (pd_concat col fs names)) <->
  exists f s idx,
    In (f, Some s) (combine fs col) /\ In (idx, snd r) (rows s)
    /\ fst r = SStr f :: idx.
Proof.
  unfold pd_concat. simpl. rewrite in_flat_map. split.
  - intros ([f [s|]] & Hin & Hr); [|destruct Hr].
    apply in_map_iff in Hr as ([idx v] & <- & Hiv).
    exists f, s, idx. simpl. auto.
  - intros (f & s & idx & Hin & Hiv & E).
    exists (f, Some s). split; [exact Hin|].
    apply in_map_iff. exists (idx, snd r). split; [|exact Hiv].
    destruct r as [k v]. simpl in *. subst k. reflexivity.
Qed.

(** ** What [aggregate_data] returns *)

Section AggregateProps.

Variable to_octave :
  list Q -> list (list Q) -> R -> R -> list Q * list (list Q).
Variable L2_norm : list Q -> Q.
Variable importFile : string -> result Dataset.
Variable new_Analyzer : Dataset -> AnalyzerArgs -> result Analyzer.

Local Abbreviation get_data :=
  (_get_data to_octave L2_norm importFile new_Analyzer).
Local Abbreviation aggregate :=
  (aggregate_data to_octave L2_norm importFile new_Analyzer).

Lemma get_data_inv (self : GetDataBuilder) (f : string)
    (d : list (string * option Series)) :
  get_data self f = Ok d ->
  exists ds rest,
    importFile f = Ok ds
    /\ d = ("meta"%string, Some (_make_meta ds)) :: rest
    /\ map fst rest = map kind_name (_metrics_queue self).
Proof.
  unfold _get_data. intro H.
  bind_inv H ds Hds.
  bind_inv H an Han.
  bind_inv H rest Hrest.
  injection H as <-. exists ds, rest. repeat split; try assumption.
  apply mapM_ok_Forall2 in Hrest.
  induction Hrest as [|k e q t Hke _ IH]; simpl; [reflexivity|].
  apply bind_ok_inv in Hke as (s & _ & Hke). injection Hke as <-.
  simpl. f_equal. exact IH.
Qed.

(** The recordings behind the extracted dicts. *)
Lemma datas_shape (self : GetDataBuilder) (fs : list string)
    (datas : list (list (string * option Series))) :
  mapM (get_data self) fs = Ok datas ->
  exists dss,
    Forall2 (fun f ds => importFile f = Ok ds) fs dss
    /\ column None 0 (values datas) = map (fun ds => Some (_make_meta ds)) dss
    /\ Forall (fun r => length r = S (length (_metrics_queue self)))
              (values datas)
    /\ length datas = length fs.
Proof.
  intro H. apply mapM_ok_Forall2 in H.
  induction H as [|f d fs' datas' Hfd _ IH].
  - exists []. repeat split; constructor.
  - destruct IH as (dss & Hdss & Hcol & Hlen & Hn).
    apply get_data_inv in Hfd as (ds & rest & Hds & -> & Hrest).
    exists (ds :: dss). repeat split.
    + constructor; assumption.
    + simpl. f_equal. exact Hcol.
    + constructor; [|exact Hlen]. simpl. f_equal.
      rewrite length_map.
      rewrite <- (length_map fst), Hrest, length_map. reflexivity.
    + simpl. f_equal. exact Hn.
Qed.

Lemma concat_meta (fs : list string) (dss : list Dataset) :
  Forall2 (fun f ds => importFile f = Ok ds) fs dss ->
  fs <> [] ->
  concat_or_none fs (map (fun ds => Some (_make_meta ds)) dss)
  = Some {| index_names := ["filename"; ""]%string;
            rows := flat_map meta_entries (combine fs dss) |}.
Proof.
  intros H Hne. destruct H as [|f ds fs' dss' _ H]; [contradiction|].
  unfold concat_or_none, first_present. simpl find.
  unfold pd_concat. do 2 f_equal.
  assert (G : forall (l1 : list string) (l2 : list Dataset),
             flat_map
               (fun '(k, s) =>
                  match s with
                  | Some s0 => map (fun '(idx, v) => (SStr k :: idx, v)) (rows s0)
                  | None => []
                  end)
               (combine l1 (map (fun ds0 => Some (_make_meta ds0)) l2))
             = flat_map meta_entries (combine l1 l2)).
  { induction l1 as [|x t IH]; intros [|y u]; simpl; try reflexivity.
    rewrite IH. reflexivity. }
  apply (G (f :: fs') (ds :: dss')).
Qed.

(** [aggregate_data] up to the point where the metadata is unstacked. *)
Lemma aggregate_data_unfold (self : GetDataBuilder) (fs : list string)
    (datas : list (list (string * option Series))) (dss : list Dataset) :
  mapM (get_data self) fs = Ok datas ->
  Forall2 (fun f ds => importFile f = Ok ds) fs dss ->
  fs <> [] ->
  aggregate self fs
  = (meta <- (if has_dup (map fst (flat_map meta_entries (combine fs dss)))
              then Raise ValueError
              else Ok (meta_frame (combine fs dss))) ;;
     dfs <- mapM (fun '(key, df) =>
                    df' <- reformat meta df ;;
                    Ok (kind_name key, DataTable df'))
                 (map (fun j => (nth j (_metrics_queue self) psd,
                                 concat_or_none fs (kind_column j datas)))
                      (seq 0 (length (_metrics_queue self)))) ;;
     Ok (("meta"%string, MetaTable meta) :: dfs)).
Proof.
  intros Hdatas Hdss Hne.
  destruct (datas_shape self fs Hdatas) as (dss' & Hdss' & Hcol & Hlen & Hn).
  assert (dss' = dss) as ->.
  { clear - Hdss Hdss'. revert dss' Hdss'.
    induction Hdss as [|f ds t u Hf _ IH]; intros dss' H;
      inversion H as [|f' ds' t' u' Hf' Ht']; subst; [reflexivity|].
    rewrite Hf in Hf'. injection Hf' as <-. f_equal. apply IH. exact Ht'. }
  unfold aggregate_data. rewrite Hdatas. simpl bind.
  fold (values datas).
  rewrite (zip_star_columns None (n := S (length (_metrics_queue self)))).
  2:{ destruct datas; [|discriminate].
      destruct fs; [contradiction | discriminate Hn]. }
  2:{ exact Hlen. }
  rewrite <- cons_seq, <- seq_shift. simpl map at 1.
  rewrite Hcol, (concat_meta Hdss Hne), unstack_meta.
  rewrite !map_map.
  set (q := _metrics_queue self).
  assert (Hq : combine q
                 (map (fun j => concat_or_none fs (column None (S j) (values datas)))
                      (seq 0 (length q)))
               = map (fun j => (nth j q psd,
                                concat_or_none fs (kind_column j datas)))
                     (seq 0 (length q))).
  { rewrite (combine_map_seq psd). apply map_ext. intro j.
    rewrite Nat.sub_0_r. reflexivity. }
  rewrite Hq. reflexivity.
Qed.

(** The aggregation of recordings with distinct names, none failing to
    extract: the metadata frame, then one table per queued kind. *)
Lemma aggregate_data_ok (self : GetDataBuilder) (fs : list string)
    (datas : list (list (string * option Series))) (dss : list Dataset) :
  mapM (get_data self) fs = Ok datas ->
  Forall2 (fun f ds => importFile f = Ok ds) fs dss ->
  fs <> [] ->
  NoDup fs ->
  aggregate self fs
  = Ok (("meta"%string, MetaTable (meta_frame (combine fs dss)))
          :: map (fun j =>
                    (kind_name (nth j (_metrics_queue self) psd),
                     aggregated fs (combine fs dss) (kind_column j datas)))
                 (seq 0 (length (_metrics_queue self)))).
Proof.
  intros Hdatas Hdss Hne Hnd.
  rewrite (aggregate_data_unfold self Hdatas Hdss Hne).
  assert (Hfst : map fst (combine fs dss) = fs)
    by (eapply Forall2_combine_fst; exact Hdss).
  assert (Hdup : has_dup (map fst (flat_map meta_entries (combine fs dss)))
                 = false).
  { apply has_dup_false_NoDup, NoDup_meta_keys. rewrite Hfst. exact Hnd. }
  rewrite Hdup. simpl bind.
  rewrite (mapM_total _
             (fun p => (kind_name (fst p),
                        DataTable (option_map (joined (combine fs dss)) (snd p))))).
  - simpl bind. rewrite map_map. reflexivity.
  - intros [k df] Hin. apply in_map_iff in Hin as (j & E & _).
    injection E as <- <-. unfold aggregated.
    destruct (concat_or_none fs (kind_column j datas)) as [s|] eqn:Es.
    + rewrite reformat_joined; [reflexivity|].
      intros r Hr. unfold concat_or_none in Es.
      destruct (first_present (kind_column j datas)); [|discriminate Es].
      injection Es as <-.
      apply pd_concat_rows in Hr as (f & s' & idx & Hin & _ & E).
      exists f. rewrite Hfst, E. split; [|reflexivity].
      eapply in_combine_l. exact Hin.
    + reflexivity.
Qed.

(** When [aggregate_data] returns, every recording was extracted, there
    was at least one, and no name was given twice. *)
Lemma aggregate_data_inv (self : GetDataBuilder) (fs : list string)
    (out : OutputStruct) :
  aggregate self fs = Ok out ->
  exists datas dss,
    mapM (get_data self) fs = Ok datas
    /\ Forall2 (fun f ds => importFile f = Ok ds) fs dss
    /\ fs <> [] /\ NoDup fs.
Proof.
  intro H.
  destruct (mapM (get_data self) fs) as [datas|e] eqn:Hdatas.
  2:{ unfold aggregate_data in H. rewrite Hdatas in H. discriminate H. }
  destruct (datas_shape self fs Hdatas) as (dss & Hdss & _).
  assert (Hne : fs <> []).
  { intros ->. discriminate H. }
  exists datas, dss. repeat split; try assumption.
  rewrite (aggregate_data_unfold self Hdatas Hdss Hne) in H.
  destruct (has_dup _) eqn:Hdup; [discriminate H|].
  apply has_dup_false_NoDup, NoDup_meta_keys in Hdup.
  rewrite (Forall2_combine_fst Hdss) in Hdup. exact Hdup.
Qed.

(** C10. [aggregate_data] on an empty list of recordings raises: the
    generator of aggregated tables is empty, and unpacking it into
    [meta, *dfs] needs at least one item. *)
Theorem aggregate_data_empty_raises (self : GetDataBuilder) :
  aggregate self [] = Raise ValueError
  /\ zip_star (values []) = []
  /\ forall out, aggregate self [] <> Ok out.
Proof.
  repeat split. discriminate.
Qed.

Lemma nth_error_map_seq (A : Type) (g : nat -> A) (n j : nat) :
  (j < n)%nat -> nth_error (map g (seq 0 n)) j = Some (g j).
Proof.
  intro Hj. rewrite nth_error_map, nth_error_seq.
  apply Nat.ltb_lt in Hj. rewrite Hj. reflexivity.
Qed.

Lemma queue_position (q : queue) (j : nat) (k : kind) :
  nth_error q j = Some k -> (j < length q)%nat /\ nth j q psd = k.
Proof.
  intro H. split.
  - apply nth_error_Some. rewrite H. discriminate.
  - apply nth_error_nth. exact H.
Qed.

Lemma first_present_None (col : list (option Series)) :
  first_present col = None <-> Forall (fun s => s = None) col.
Proof.
  unfold first_present. induction col as [|[s|] t IH]; simpl.
  - split; [constructor | reflexivity].
  - split; [discriminate|]. intro H. inversion H. discriminate.
  - rewrite IH. split.
    + intro H. constructor; [reflexivity | exact H].
    + intro H. inversion H. assumption.
Qed.

(** C6. For every queued kind the aggregated table is the concatenation of
    the per-recording tables, each entry under the name of its recording,
    in the order of the recordings and without those whose result is
    [None]; it is [None] exactly when every recording has [None], and the
    aggregation returns all the same. *)
Theorem concat_skips_absent (self : GetDataBuilder) (fs : list string)
    (datas : list (list (string * option Series))) :
  mapM (get_data self) fs = Ok datas ->
  fs <> [] ->
  NoDup fs ->
  exists out,
    aggregate self fs = Ok out
    /\ forall j k,
         nth_error (_metrics_queue self) j = Some k ->
         exists t,
           nth_error out (S j) = Some (kind_name k, DataTable t)
           /\ (t = None <-> Forall (fun s => s = None) (kind_column j datas))
           /\ forall df,
                t = Some df ->
                map (fun r => (labels r, value r)) (records df)
                = flat_map
                    (fun '(f, s) =>
                       match s with
                       | Some s =>
                           map (fun '(idx, v) => (SStr f :: idx, v)) (rows s)
                       | None => []
                       end)
                    (combine fs (kind_column j datas)).
Proof.
  intros Hdatas Hne Hnd.
  destruct (datas_shape self fs Hdatas) as (dss & Hdss & _).
  eexists. split; [apply (aggregate_data_ok self Hdatas Hdss Hne Hnd)|].
  intros j k Hjk. apply queue_position in Hjk as [Hj Hk].
  eexists. split.
  { simpl nth_error. rewrite nth_error_map_seq by exact Hj.
    rewrite Hk. unfold aggregated. reflexivity. }
  unfold concat_or_none.
  destruct (first_present (kind_column j datas)) as [s0|] eqn:E; simpl.
  - split.
    + split; [discriminate|]. intro H.
      apply first_present_None in H. rewrite H in E. discriminate E.
    + intros df Hdf. injection Hdf as <-. simpl.
      rewrite map_map. simpl. rewrite map_ext with (g := fun r => r).
      * apply map_id.
      * intros [idx v]. reflexivity.
  - split.
    + split; [intros _; apply first_present_None; exact E | reflexivity].
    + intros df Hdf. discriminate Hdf.
Qed.

Lemma pd_concat_length (col : list (option Series)) (fs names : list string) :
  length fs = length col ->
  length (rows (pd_concat col fs names)) = row_count col.
Proof.
  unfold pd_concat, row_count. simpl. revert col.
  induction fs as [|f t IH]; intros [|s col] Hlen; try discriminate Hlen;
    simpl; [reflexivity|].
  rewrite length_app, IH by (injection Hlen as Hlen; exact Hlen).
  f_equal. destruct s as [s|]; [apply length_map | reflexivity].
Qed.

Lemma in_combine_nth_error (A B : Type) (l : list A) (l' : list B) (x : A) (y : B) :
  In (x, y) (combine l l') ->
  exists i, nth_error l i = Some x /\ nth_error l' i = Some y.
Proof.
  revert l'. induction l as [|a t IH]; intros [|b t'] H; try destruct H.
  - injection H as -> ->. exists O. split; reflexivity.
  - destruct (IH t' H) as (i & Hx & Hy). exists (S i). split; assumption.
Qed.

Lemma Forall2_in_combine (A B : Type) (P : A -> B -> Prop) (l : list A) (l' : list B)
    (x : A) (y : B) :
  Forall2 P l l' -> In (x, y) (combine l l') -> P x y.
Proof.
  induction 1 as [|a b t t' Hab _ IH]; simpl; intro H; [destruct H|].
  destruct H as [E|H]; [injection E as <- <-; exact Hab | exact (IH H)].
Qed.

(** C2. In every aggregated table of a queued kind, each row comes from the
    table of one recording, names that recording first, and carries the
    serial number and the start time of that very recording; the table has
    as many rows as the per-recording tables of the kind have together. *)
Theorem rows_joined_to_own_recording (self : GetDataBuilder)
    (fs : list string) (out : OutputStruct) :
  aggregate self fs = Ok out ->
  exists datas,
    mapM (get_data self) fs = Ok datas
    /\ NoDup fs
    /\ forall j k,
         nth_error (_metrics_queue self) j = Some k ->
         exists t,
           nth_error out (S j) = Some (kind_name k, DataTable t)
           /\ forall df,
                t = Some df ->
                length (records df) = row_count (kind_column j datas)
                /\ forall r,
                     In r (records df) ->
                     exists i f ds s,
                       nth_error fs i = Some f
                       /\ importFile f = Ok ds
                       /\ nth_error (kind_column j datas) i = Some (Some s)
                       /\ In (tl (labels r), value r) (rows s)
                       /\ hd SNaN (labels r) = SStr f
                       /\ serial_number r = SInt (RecorderSerial ds)
                       /\ start_time r =
                            SDatetimeUs (utcStartTime ds * 1000000
                                         + session_firstTime ds).
Proof.
  intro Hout.
  destruct (aggregate_data_inv self fs Hout)
    as (datas & dss & Hdatas & Hdss & Hne & Hnd).
  exists datas. split; [exact Hdatas|]. split; [exact Hnd|].
  rewrite (aggregate_data_ok self Hdatas Hdss Hne Hnd) in Hout.
  injection Hout as <-.
  intros j k Hjk. apply queue_position in Hjk as [Hj Hk].
  eexists. split.
  { simpl nth_error. rewrite nth_error_map_seq by exact Hj.
    rewrite Hk. unfold aggregated. reflexivity. }
  intros df Hdf. unfold concat_or_none in Hdf.
  destruct (first_present (kind_column j datas)) as [s0|]; [|discriminate Hdf].
  injection Hdf as <-. unfold joined. cbn [records]. split.
  - rewrite length_map. apply pd_concat_length.
    destruct (datas_shape self fs Hdatas) as (_ & _ & _ & _ & Hn).
    unfold kind_column, column, values. rewrite !length_map. symmetry. exact Hn.
  - intros r Hr. apply in_map_iff in Hr as (row & <- & Hrow).
    apply pd_concat_rows in Hrow as (f & s & idx & Hin & Hidx & E).
    destruct (in_combine_nth_error _ _ _ _ Hin) as (i & Hfi & Hsi).
    assert (Hf : In f (map fst (combine fs dss))).
    { rewrite (Forall2_combine_fst Hdss). eapply nth_error_In. exact Hfi. }
    destruct (opened_In _ _ Hf) as (ds & Hopen & Hds).
    exists i, f, ds, s. simpl. rewrite E. simpl.
    rewrite Hopen. repeat split; try assumption.
    exact (Forall2_in_combine _ _ Hdss Hds).
Qed.

(** The result lists the metadata first and then the queued kinds in the
    order of the queue. *)
Lemma aggregate_output_order (self : GetDataBuilder) (fs : list string)
    (out : OutputStruct) :
  aggregate self fs = Ok out ->
  map fst out = "meta"%string :: map kind_name (_metrics_queue self)
  /\ exists m rest, out = ("meta"%string, MetaTable m) :: rest.
Proof.
  intro Hout.
  destruct (aggregate_data_inv self fs Hout)
    as (datas & dss & Hdatas & Hdss & Hne & Hnd).
  rewrite (aggregate_data_ok self Hdatas Hdss Hne Hnd) in Hout.
  injection Hout as <-. split.
  - simpl. f_equal. rewrite map_map. simpl.
    symmetry. apply (map_nth_seq psd kind_name).
  - eexists. eexists. reflexivity.
Qed.

End AggregateProps.

(** ** Sequences of configuration calls *)

Lemma add_psd_queue (self self' : GetDataBuilder) (w f0 b : option R) (win : string) :
  add_psd self w f0 b win = Ok self' ->
  _metrics_queue self' = queue_set psd (_metrics_queue self)
  /\ call_params_stored (CallPsd w f0 b win) self'.
Proof.
  unfold add_psd. destruct w as [x|].
  - intro H. injection H as <-. simpl.
    split; [reflexivity|]. split; [reflexivity|]. split; [reflexivity|].
    intros y E. injection E as <-. split; reflexivity.
  - destruct b as [d|]; [|discriminate].
    intro H.
    apply bind_ok_inv in H as (br & _ & H).
    apply bind_ok_inv in H as (ratio & _ & H).
    apply bind_ok_inv in H as (wd & _ & H).
    injection H as <-. simpl.
    split; [reflexivity|]. split; [reflexivity|]. split; [reflexivity|].
    intros y E. discriminate E.
Qed.

Lemma apply_call_queue (self self' : GetDataBuilder) (c : call) :
  apply_call self c = Ok self' ->
  _metrics_queue self' = queue_set (call_kind c) (_metrics_queue self)
  /\ call_params_stored c self'.
Proof.
  destruct c; simpl; intro H.
  - apply add_psd_queue in H. exact H.
  - injection H as <-. simpl. auto.
  - injection H as <-. simpl. auto.
  - injection H as <-. simpl. auto.
  - injection H as <-. simpl. auto.
Qed.

Lemma queue_set_keep_first (ks : list kind) (q seen : list kind) :
  (forall k, queue_mem k seen = queue_mem k q) ->
  fold_left (fun q k => queue_set k q) ks q = q ++ keep_first seen ks.
Proof.
  revert q seen. induction ks as [|k t IH]; intros q seen Hmem; simpl.
  - rewrite app_nil_r. reflexivity.
  - unfold queue_set at 2. rewrite Hmem.
    destruct (queue_mem k q) eqn:E.
    + apply IH. exact Hmem.
    + rewrite (IH (q ++ [k]) (k :: seen)).
      * rewrite <- app_assoc. reflexivity.
      * intro x. unfold queue_mem in *. rewrite existsb_app. simpl.
        rewrite Hmem, orb_false_r. apply orb_comm.
Qed.

Lemma run_calls_queue (cs : list call) (b0 b : GetDataBuilder) :
  run_calls b0 cs = Ok b ->
  _metrics_queue b
  = fold_left (fun q k => queue_set k q) (map call_kind cs) (_metrics_queue b0).
Proof.
  revert b0. induction cs as [|c t IH]; simpl; intros b0 H.
  - injection H as <-. reflexivity.
  - bind_inv H b1 H1.
    apply apply_call_queue in H1 as [H1 _]. rewrite <- H1. apply IH. exact H.
Qed.

Lemma keep_first_NoDup (ks seen : list kind) :
  NoDup (keep_first seen ks)
  /\ forall k, In k (keep_first seen ks) -> ~ In k seen.
Proof.
  revert seen. induction ks as [|k t IH]; intro seen; simpl.
  - split; [constructor | intros k []].
  - destruct (queue_mem k seen) eqn:E; [apply IH|].
    destruct (IH (k :: seen)) as [Hnd Hnot]. split.
    + constructor; [|exact Hnd]. intro Hin.
      apply (Hnot k Hin). left. reflexivity.
    + intros x [<- | Hx].
      * intro Hin. apply queue_mem_In in Hin. rewrite Hin in E. discriminate E.
      * intro Hin. apply (Hnot x Hx). right. exact Hin.
Qed.

(** A builder starts with an empty queue. *)
Lemma init_queue_empty (chs : list string) (cutoff st et sm em : option R)
    (b0 : GetDataBuilder) :
  __init__ chs cutoff st et sm em = Ok b0 -> _metrics_queue b0 = [].
Proof.
  unfold __init__.
  destruct st, sm, et, em; intro H; try discriminate H;
    injection H as <-; reflexivity.
Qed.

(** C5. After any chain of [add_*] calls on a fresh builder the queue holds
    every kind at most once, in the order in which the kinds were first
    added; a further call stores its parameters and leaves the queue as it
    is when its kind is already there (and appends the kind otherwise);
    the result of [aggregate_data] lists ["meta"] first and then the
    kinds in the order of the queue. *)
Theorem queue_keeps_first_insertion_order
    (to_octave : list Q -> list (list Q) -> R -> R -> list Q * list (list Q))
    (L2_norm : list Q -> Q)
    (importFile : string -> result Dataset)
    (new_Analyzer : Dataset -> AnalyzerArgs -> result Analyzer)
    (chs : list string) (cutoff st et sm em : option R)
    (b0 b : GetDataBuilder) (cs : list call) :
  __init__ chs cutoff st et sm em = Ok b0 ->
  run_calls b0 cs = Ok b ->
  NoDup (_metrics_queue b)
  /\ _metrics_queue b = keep_first [] (map call_kind cs)
  /\ (forall c b',
        apply_call b c = Ok b' ->
        call_params_stored c b'
        /\ _metrics_queue b' =
             if queue_mem (call_kind c) (_metrics_queue b)
             then _metrics_queue b
             else _metrics_queue b ++ [call_kind c])
  /\ (forall fs out,
        aggregate_data to_octave L2_norm importFile new_Analyzer b fs = Ok out ->
        map fst out = "meta"%string :: map kind_name (_metrics_queue b)
        /\ exists m rest, out = ("meta"%string, MetaTable m) :: rest).
Proof.
  intros Hinit Hrun.
  assert (H0 : _metrics_queue b0 = [])
    by (eapply init_queue_empty; exact Hinit).
  assert (Hq : _metrics_queue b = keep_first [] (map call_kind cs)).
  { rewrite (run_calls_queue _ _ Hrun), H0.
    rewrite (queue_set_keep_first _ [] []); reflexivity. }
  split; [|split; [|split]].
  - rewrite Hq. apply keep_first_NoDup.
  - exact Hq.
  - intros c b' Hc. apply apply_call_queue in Hc as [Hc Hp].
    split; [exact Hp|]. rewrite Hc. reflexivity.
  - intros fs out Hout. eapply aggregate_output_order. exact Hout.
Qed.

(** ** The peak-window buffer *)

Lemma nth_error_repeat_gen (A : Type) (a : A) (n k : nat) :
  nth_error (repeat a n) k = if (k <? n)%nat then Some a else None.
Proof.
  destruct (Nat.ltb_spec k n) as [H|H].
  - apply nth_error_repeat. exact H.
  - apply nth_error_None. rewrite repeat_length. exact H.
Qed.

Lemma nth_error_padded (A : Type) (a : A) (p q k : nat) (l : list A) :
  nth_error (repeat a p ++ l ++ repeat a q) k
  = if (k <? p)%nat then Some a
    else if (k <? p + length l)%nat then nth_error l (k - p)
    else if (k <? p + length l + q)%nat then Some a
    else None.
Proof.
  destruct (Nat.ltb_spec k p) as [H1|H1].
  - rewrite nth_error_app1 by (rewrite repeat_length; exact H1).
    rewrite nth_error_repeat_gen.
    apply Nat.ltb_lt in H1. rewrite H1. reflexivity.
  - rewrite nth_error_app2 by (rewrite repeat_length; exact H1).
    rewrite repeat_length.
    destruct (Nat.ltb_spec k (p + length l)) as [H2|H2].
    + apply nth_error_app1. lia.
    + rewrite nth_error_app2 by lia.
      rewrite nth_error_repeat_gen.
      destruct (Nat.ltb_spec (k - p - length l) q);
        destruct (Nat.ltb_spec k (p + length l + q)); try reflexivity; lia.
Qed.

Lemma firstn_repeat (A : Type) (a : A) (k n : nat) :
  firstn k (repeat a n) = repeat a (min k n).
Proof.
  revert n. induction k as [|k IH]; intros [|n]; simpl; try reflexivity.
  rewrite IH. reflexivity.
Qed.

Lemma skipn_repeat (A : Type) (a : A) (k n : nat) :
  skipn k (repeat a n) = repeat a (n - k).
Proof.
  revert n. induction k as [|k IH]; intros [|n]; simpl; try reflexivity.
  apply IH.
Qed.

Lemma bounds_source (m i n : Z) :
  0 <= m -> 0 <= i < n ->
  PySlice.bounds (i - n - m) (i + m + 1) n
  = ((Z.to_nat i - Z.to_nat m)%nat,
     Nat.min (Z.to_nat i + Z.to_nat m + 1) (Z.to_nat n)).
Proof.
  intros Hm Hi. unfold PySlice.bounds, PySlice.clamp.
  destruct (Z.ltb_spec (i - n - m) 0); [|lia].
  destruct (Z.ltb_spec (i + m + 1) 0); [lia|].
  f_equal; lia.
Qed.

Lemma bounds_target (m i n : Z) :
  0 <= m -> 0 <= i < n ->
  PySlice.bounds (- m - 1 - i) (m - (i - n)) (2 * m + 1)
  = ((Z.to_nat m - Z.to_nat i)%nat,
     Nat.min (Z.to_nat m + Z.to_nat n - Z.to_nat i) (2 * Z.to_nat m + 1)).
Proof.
  intros Hm Hi. unfold PySlice.bounds, PySlice.clamp.
  destruct (Z.ltb_spec (- m - 1 - i) 0); [|lia].
  destruct (Z.ltb_spec (m - (i - n)) 0); [lia|].
  f_equal; lia.
Qed.

Lemma nth_error_zrange (lo hi : Z) (k : nat) :
  nth_error (zrange lo hi) k
  = if (k <? Z.to_nat (hi - lo))%nat then Some (lo + Z.of_nat k) else None.
Proof.
  unfold zrange. rewrite nth_error_map, nth_error_seq.
  destruct (k <? Z.to_nat (hi - lo))%nat; reflexivity.
Qed.

Lemma nth_error_window (m : Z) (row : list Q) (i : Z) (k : nat) :
  0 <= m ->
  nth_error (window m row i) k
  = if (k <? 2 * Z.to_nat m + 1)%nat
    then Some (sample_at row (i - m + Z.of_nat k))
    else None.
Proof.
  intro Hm. unfold window. rewrite nth_error_map, nth_error_zrange.
  replace (Z.to_nat (m + 1 - - m)) with (2 * Z.to_nat m + 1)%nat by lia.
  destruct (k <? 2 * Z.to_nat m + 1)%nat; simpl; [|reflexivity].
  do 2 f_equal. lia.
Qed.

(** The slice assignment of the loop writes exactly the window: the part
    of the row within [m] samples of the peak lands so that the peak is at
    position [m], and the rest of the column stays NaN. *)
Lemma slice_assignment_is_window (m i : Z) (row : list Q) :
  0 <= m ->
  0 <= i < Z.of_nat (length row) ->
  let n := Z.of_nat (length row) in
  PySlice.set (repeat NaN (Z.to_nat (2 * m + 1)))
    (- m - 1 - i) (m - (i - n))
    (map Some (PySlice.get row (i - n - m) (i + m + 1)))
  = Ok (window m row i).
Proof.
  intros Hm Hi. cbv zeta. unfold PySlice.set, PySlice.get.
  rewrite repeat_length.
  replace (Z.of_nat (Z.to_nat (2 * m + 1))) with (2 * m + 1) by lia.
  rewrite (bounds_source Hm Hi), (bounds_target Hm Hi).
  set (M := Z.to_nat m). set (I := Z.to_nat i).
  rewrite Nat2Z.id.
  set (N := length row).
  assert (HI : (I < N)%nat) by (unfold I, N; lia).
  set (v := firstn (Nat.min (I + M + 1) N - (I - M)) (skipn (I - M) row)).
  assert (Hv : length v = (Nat.min (I + M + 1) N - (I - M))%nat).
  { unfold v. rewrite length_firstn, length_skipn. fold N. lia. }
  rewrite length_map, Hv.
  replace (Nat.min (I + M + 1) N - (I - M) =?
           Nat.min (M + N - I) (2 * M + 1) - (M - I))%nat with true
    by (symmetry; apply Nat.eqb_eq; lia).
  f_equal. rewrite firstn_repeat, skipn_repeat.
  apply nth_error_ext. intro k.
  rewrite nth_error_padded, (nth_error_window row i k Hm), length_map, Hv.
  fold M. unfold sample_at.
  replace (Z.to_nat (2 * m + 1)) with (2 * M + 1)%nat by (unfold M; lia).
  destruct (Nat.ltb_spec k (Nat.min (M - I) (2 * M + 1))) as [H1|H1].
  { destruct (Nat.ltb_spec k (2 * M + 1)); [|lia].
    destruct (Z.ltb_spec (i - m + Z.of_nat k) 0); [reflexivity|].
    unfold M, I in H1. lia. }
  destruct (Nat.ltb_spec k
              (Nat.min (M - I) (2 * M + 1)
               + (Nat.min (I + M + 1) N - (I - M)))) as [H2|H2].
  { destruct (Nat.ltb_spec k (2 * M + 1)); [|lia].
    destruct (Z.ltb_spec (i - m + Z.of_nat k) 0);
      [unfold M, I in H1; lia|].
    rewrite nth_error_map. unfold v.
    rewrite nth_error_firstn, nth_error_skipn.
    destruct (Nat.ltb_spec (k - Nat.min (M - I) (2 * M + 1))
                (Nat.min (I + M + 1) N - (I - M))); [|lia].
    replace (I - M + (k - Nat.min (M - I) (2 * M + 1)))%nat
      with (Z.to_nat (i - m + Z.of_nat k)) by (unfold M, I in *; lia).
    destruct (nth_error row (Z.to_nat (i - m + Z.of_nat k))) eqn:E;
      [reflexivity|].
    apply nth_error_None in E. fold N in E. unfold M, I in *. lia. }
  destruct (Nat.ltb_spec k
              (Nat.min (M - I) (2 * M + 1)
               + (Nat.min (I + M + 1) N - (I - M))
               + (2 * M + 1 - Nat.min (M + N - I) (2 * M + 1)))) as [H3|H3].
  { destruct (Nat.ltb_spec k (2 * M + 1)); [|lia].
    destruct (Z.ltb_spec (i - m + Z.of_nat k) 0);
      [reflexivity|].
    f_equal. symmetry. apply nth_error_None. fold N. unfold M, I in *. lia. }
  destruct (Nat.ltb_spec k (2 * M + 1)); [lia | reflexivity].
Qed.

Lemma argmax_from_max (suf pre : list Q) (best : Q) (ibest : Z) :
  0 <= ibest < Z.of_nat (length pre) ->
  nth_error pre (Z.to_nat ibest) = Some best ->
  (forall x, In x pre -> (x <= best)%Q) ->
  let r := argmax_from best ibest (Z.of_nat (length pre)) suf in
  0 <= r < Z.of_nat (length (pre ++ suf))
  /\ exists v, nth_error (pre ++ suf) (Z.to_nat r) = Some v
               /\ forall x, In x (pre ++ suf) -> (x <= v)%Q.
Proof.
  revert pre best ibest. induction suf as [|x t IH]; intros pre best ibest Hi Hb Hmax.
  - simpl. rewrite app_nil_r. split; [exact Hi|].
    exists best. split; [exact Hb | exact Hmax].
  - simpl argmax_from.
    replace (pre ++ x :: t) with ((pre ++ [x]) ++ t)
      by (rewrite <- app_assoc; reflexivity).
    replace (Z.of_nat (length pre) + 1) with (Z.of_nat (length (pre ++ [x])))
      by (rewrite length_app; simpl; lia).
    destruct (Qle_bool x best) eqn:E.
    + apply IH.
      * rewrite length_app. simpl. lia.
      * rewrite nth_error_app1 by lia. exact Hb.
      * intros y Hy. apply in_app_or in Hy as [Hy | [<- | []]].
        -- apply Hmax. exact Hy.
        -- apply Qle_bool_iff. exact E.
    + apply IH.
      * rewrite length_app. simpl. lia.
      * rewrite Nat2Z.id, nth_error_app2 by lia.
        rewrite Nat.sub_diag. reflexivity.
      * assert (Hlt : (best < x)%Q).
        { apply Qnot_le_lt. intro H. apply Qle_bool_iff in H.
          rewrite H in E. discriminate E. }
        intros y Hy. apply in_app_or in Hy as [Hy | [<- | []]].
        -- apply Qle_trans with best; [apply Hmax; exact Hy|].
           apply Qlt_le_weak. exact Hlt.
        -- apply Qle_refl.
Qed.

(** [np.argmax] of a row that is not empty: an index into the row, at
    which the row is largest. *)
Lemma argmax_spec (row : list Q) :
  row <> [] ->
  exists i v,
    argmax row = Ok i
    /\ 0 <= i < Z.of_nat (length row)
    /\ nth_error row (Z.to_nat i) = Some v
    /\ forall x, In x row -> (x <= v)%Q.
Proof.
  destruct row as [|x t]; [contradiction|]. intros _.
  destruct (@argmax_from_max t [x] x 0) as (Hr & v & Hv & Hmax).
  - simpl. lia.
  - reflexivity.
  - intros y [<- | []]. apply Qle_refl.
  - simpl in *. exists (argmax_from x 0 1 t), v. auto.
Qed.

(** The peak of a row: an index into the row whose sample has the largest
    absolute value. *)
Lemma peak_index_spec (row : list Q) :
  row <> [] ->
  argmax (map Qabs row) = Ok (peak_index row)
  /\ 0 <= peak_index row < Z.of_nat (length row)
  /\ exists v, nth_error row (Z.to_nat (peak_index row)) = Some v
               /\ forall x, In x row -> (Qabs x <= Qabs v)%Q.
Proof.
  intro Hne.
  destruct (@argmax_spec (map Qabs row)) as (i & a & Hi & Hr & Ha & Hmax).
  { destruct row; [contradiction | discriminate]. }
  unfold peak_index. rewrite Hi. rewrite length_map in Hr.
  split; [reflexivity|]. split; [exact Hr|].
  rewrite nth_error_map in Ha.
  destruct (nth_error row (Z.to_nat i)) as [v|]; [|discriminate Ha].
  injection Ha as <-. exists v. split; [reflexivity|].
  intros x Hx. apply Hmax. apply in_map. exact Hx.
Qed.

Lemma update_nth_app (A : Type) (l1 l2 : list A) (x y : A) :
  update_nth (length l1) x (l1 ++ y :: l2) = l1 ++ x :: l2.
Proof.
  induction l1 as [|a t IH]; simpl; [reflexivity | rewrite IH; reflexivity].
Qed.

Lemma firstn_S_nth (A : Type) (d : A) (l : list A) (j : nat) :
  (j < length l)%nat -> firstn (S j) l = firstn j l ++ [nth j l d].
Proof.
  revert j. induction l as [|a t IH]; intros j Hj; simpl in Hj; [lia|].
  destruct j as [|j]; simpl; [reflexivity|].
  f_equal. apply IH. lia.
Qed.

Lemma nth_map_in (A B : Type) (f : A -> B) (l : list A) (d : A) (d' : B) (j : nat) :
  (j < length l)%nat -> nth j (map f l) d' = f (nth j l d).
Proof.
  intro Hj. rewrite (nth_indep _ d' (f d)) by (rewrite length_map; exact Hj).
  apply map_nth.
Qed.

(** After [j] rounds of the loop the first [j] columns hold their windows
    and the others are still blank. *)
Lemma loop_invariant (m : Z) (data : list (list Q)) (n : Z) (j : nat) :
  0 <= m ->
  Forall (fun row => Z.of_nat (length row) = n /\ row <> []) data ->
  (j <= length data)%nat ->
  fold_left
    (fun r j =>
       rd <- r ;;
       PeakWindows.loop_body m data (map peak_index data)
         (map (fun i => i - n) (map peak_index data)) rd j)
    (seq 0 j)
    (Ok (repeat (repeat NaN (Z.to_nat (2 * m + 1))) (length data)))
  = Ok (map (fun row => window m row (peak_index row)) (firstn j data)
          ++ repeat (repeat NaN (Z.to_nat (2 * m + 1))) (length data - j)).
Proof.
  intros Hm Hdata. induction j as [|j IH]; intro Hj.
  - simpl. rewrite Nat.sub_0_r. reflexivity.
  - rewrite seq_S, fold_left_app, IH by lia. cbn [fold_left bind Nat.add].
    unfold PeakWindows.loop_body.
    assert (Hlen : length (map (fun row => window m row (peak_index row))
                              (firstn j data)) = j).
    { rewrite length_map, length_firstn. lia. }
    rewrite app_nth2 by lia. rewrite Hlen, Nat.sub_diag.
    replace (length data - j)%nat with (S (length data - S j)) by lia.
    cbn [nth repeat].
    rewrite !(nth_map_in (fun i => i - n) _ 0) by (rewrite length_map; lia).
    rewrite (nth_map_in peak_index _ []) by lia.
    set (row := nth j data []).
    assert (Hrow : Z.of_nat (length row) = n /\ row <> []).
    { rewrite Forall_forall in Hdata. apply Hdata. apply nth_In. lia. }
    destruct Hrow as [Hn Hne].
    destruct (peak_index_spec Hne) as (_ & Hi & _).
    rewrite <- Hn.
    rewrite (slice_assignment_is_window row Hm Hi). cbn [bind].
    f_equal. rewrite <- Hlen at 1. rewrite update_nth_app.
    rewrite (firstn_S_nth [] data) by lia.
    rewrite map_app, <- app_assoc. reflexivity.
Qed.

(** The buffer of a rectangular signal with at least one sample: the peak
    indices of the channels and, per channel, the window about its peak. *)
Lemma buffer_spec (m : Z) (data : list (list Q)) (n : Z) :
  0 <= m ->
  data <> [] ->
  Forall (fun row => Z.of_nat (length row) = n /\ row <> []) data ->
  PeakWindows.buffer data m
  = Ok (map peak_index data,
        map (fun row => window m row (peak_index row)) data).
Proof.
  intros Hm Hne Hdata. unfold PeakWindows.buffer, np_full_nan.
  destruct (Z.ltb_spec (2 * m + 1) 0); [lia|]. cbn [bind].
  rewrite (mapM_total _ (fun r => match argmax r with
                                   | Ok i => i
                                   | Raise _ => 0
                                   end)).
  2:{ intros r Hr. apply in_map_iff in Hr as (row & <- & Hrow).
      rewrite Forall_forall in Hdata.
      destruct (@peak_index_spec row) as (E & _); [apply Hdata; exact Hrow|].
      rewrite E. reflexivity. }
  cbn [bind]. rewrite map_map.
  change (map (fun x => match argmax (map Qabs x) with
                        | Ok i => i
                        | Raise _ => 0
                        end) data) with (map peak_index data).
  assert (Hshape : Z.of_nat (length (hd [] data)) = n).
  { destruct data as [|row t]; [contradiction|].
    inversion Hdata as [|? ? [Hrow _] _]. exact Hrow. }
  rewrite Hshape. unfold PeakWindows.loop.
  rewrite (loop_invariant (j := length data) Hm Hdata) by lia.
  cbn [bind]. rewrite firstn_all, Nat.sub_diag, app_nil_r. reflexivity.
Qed.

(** ** The table of peak windows *)

Lemma signal_rows (a : Analyzer) (ch : AccelChannel) (n : nat) :
  usable a ch n ->
  signal a <> []
  /\ length (signal a) = S (length (axis_names ch))
  /\ Forall (fun row => Z.of_nat (length row) = Z.of_nat n /\ row <> [])
            (signal a).
Proof.
  intros [_ Hres Hrows Hn Hax _ _ _]. unfold signal. repeat split.
  - destruct (_accelerationData a); discriminate.
  - rewrite length_map, length_app, Hax. simpl. lia.
  - apply Forall_forall. intros row Hrow.
    apply in_map_iff in Hrow as (r & <- & Hr).
    rewrite length_map.
    assert (Hlen : length r = n).
    { apply in_app_or in Hr as [Hr | [<- | []]]; [|exact Hres].
      rewrite Forall_forall in Hrows. apply Hrows. exact Hr. }
    split; [rewrite Hlen; reflexivity|].
    destruct r; [simpl in Hlen; congruence | discriminate].
Qed.

Lemma item_in_range (A : Type) (d : A) (t : list A) (i : Z) :
  0 <= i < Z.of_nat (length t) -> item t i = Ok (nth (Z.to_nat i) t d).
Proof.
  intro Hi. unfold item.
  destruct (Z.ltb_spec i 0); [lia|].
  destruct (Z.ltb_spec i 0); [lia|].
  rewrite (nth_error_nth' t d) by lia. reflexivity.
Qed.

(** What [_make_peak_windows] returns for a usable channel. *)
Lemma make_peak_windows_spec (a : Analyzer) (ch : AccelChannel) (n : nat) (m : Z) :
  usable a ch n ->
  0 <= m ->
  _make_peak_windows a m
  = Ok (Some
          {| index_names := ["axis"; "peak time"; "peak offset"]%string;
             rows :=
               PeakWindows.stack
                 (map (offset_label a) (zrange (- m) (m + 1)))
                 (combine (axis_names ch ++ ["Resultant"%string])
                          (map (peak_time_of ch) (signal a)))
                 (map (fun row => window m row (peak_index row)) (signal a)) |}).
Proof.
  intros Hu Hm. destruct (signal_rows Hu) as (Hne & Hlen & Hrows).
  destruct Hu as [Hch Hres Hdata Hn Hax _ Ht Hfs].
  unfold _make_peak_windows. rewrite Hch.
  unfold concatenate_rows.
  replace (forallb _ (_accelerationData a)) with true.
  2:{ symmetry. apply forallb_forall. intros r Hr.
      rewrite Forall_forall in Hdata. rewrite (Hdata r Hr), Hres.
      apply Nat.eqb_refl. }
  cbn [bind].
  destruct (Qeq_bool (_accelerationFs a) 0) eqn:E.
  { exfalso. apply Hfs. apply Qeq_bool_iff. exact E. }
  cbn [bind]. fold (signal a).
  rewrite (buffer_spec Hm Hne Hrows). cbn [bind].
  unfold take.
  rewrite (mapM_total _
             (fun i => nth (Z.to_nat i)
                         (map (fun x => x - firstTime ch) (arraySlice_0 ch))
                         (0 - firstTime ch))).
  2:{ intros i Hi. apply in_map_iff in Hi as (row & <- & Hrow).
      apply item_in_range. rewrite length_map, Ht.
      rewrite Forall_forall in Hrows. destruct (Hrows row Hrow) as [Hl Hr].
      rewrite <- Hl. apply peak_index_spec. exact Hr. }
  cbn [bind]. rewrite !length_map, length_app, Hlen. simpl length.
  replace (length (axis_names ch) + 1)%nat with (S (length (axis_names ch)))
    by lia.
  rewrite Nat.eqb_refl. do 3 f_equal.
  rewrite map_map. f_equal. f_equal. apply map_ext. intro row.
  unfold peak_time_of. apply (map_nth (fun x => x - firstTime ch)).
Qed.

Lemma nth_error_combine (A B : Type) (l : list A) (l' : list B) (j : nat) (x : A) (y : B) :
  nth_error (combine l l') j = Some (x, y)
  <-> nth_error l j = Some x /\ nth_error l' j = Some y.
Proof.
  revert l' j. induction l as [|a t IH]; intros [|b t'] [|j]; simpl;
    try (split; [discriminate | intros [H1 H2]; discriminate]).
  - split.
    + intro H. injection H as -> ->. split; reflexivity.
    + intros [H1 H2]. injection H1 as ->. injection H2 as ->. reflexivity.
  - apply IH.
Qed.

Lemma in_combine_seq (A : Type) (l : list A) (s : nat) (x : A) (k : nat) :
  In (x, k) (combine l (seq s (length l)))
  <-> (s <= k)%nat /\ nth_error l (k - s) = Some x.
Proof.
  revert s. induction l as [|a t IH]; intro s; simpl.
  - split; [intros [] | intros [_ H]].
    destruct (k - s)%nat; discriminate H.
  - rewrite IH. split.
    + intros [E | [Hs H]].
      * injection E as -> ->. rewrite Nat.sub_diag. split; [lia | reflexivity].
      * split; [lia|]. replace (k - s)%nat with (S (k - S s)) by lia. exact H.
    + intros [Hs H]. destruct (Nat.eq_dec k s) as [->|Hne].
      * rewrite Nat.sub_diag in H. injection H as ->. left. reflexivity.
      * right. split; [lia|].
        replace (k - s)%nat with (S (k - S s)) in H by lia. exact H.
Qed.

Lemma find_column_nth (cols : list ((string * Z) * list cell)) (j : nat)
    (ax : string) (pt : Z) (col : list cell) :
  NoDup (map (fun c => fst (fst c)) cols) ->
  nth_error cols j = Some ((ax, pt), col) ->
  PeakWindows.find_column cols ax pt = Some col.
Proof.
  unfold PeakWindows.find_column.
  revert j. induction cols as [|c t IH]; intros j Hnd Hj.
  - destruct j; discriminate Hj.
  - inversion Hnd as [|x l Hx Ht]; subst. destruct j as [|j]; simpl in Hj.
    + injection Hj as ->. simpl. rewrite String.eqb_refl, Z.eqb_refl.
      reflexivity.
    + simpl. destruct (String.eqb_spec (fst (fst c)) ax) as [E|_].
      * exfalso. apply Hx. rewrite E.
        apply (in_map (fun c => fst (fst c)) t ((ax, pt), col)).
        eapply nth_error_In. exact Hj.
      * simpl. apply (IH j Ht Hj).
Qed.

Lemma find_column_Some (cols : list ((string * Z) * list cell))
    (ax : string) (pt : Z) (col : list cell) :
  PeakWindows.find_column cols ax pt = Some col ->
  exists j, nth_error cols j = Some ((ax, pt), col).
Proof.
  unfold PeakWindows.find_column.
  destruct (find _ cols) as [[[ax' pt'] col']|] eqn:E; [|discriminate].
  intro H. injection H as <-.
  apply find_some in E as [Hin Hp]. simpl in Hp.
  apply andb_true_iff in Hp as [Ha Hp].
  apply String.eqb_eq in Ha. apply Z.eqb_eq in Hp. subst ax' pt'.
  apply In_nth_error. exact Hin.
Qed.

Lemma NoDup_combine_names (A B C : Type) (cols : list (A * B)) (rd : list C) :
  NoDup (map fst cols) ->
  NoDup (map (fun c => fst (fst c)) (combine cols rd)).
Proof.
  revert rd. induction cols as [|c t IH]; intros [|x rd] Hnd; simpl;
    try constructor.
  - inversion Hnd as [|a l Ha Ht]; subst. intro Hin. apply Ha.
    apply in_map_iff in Hin as ([c' x'] & E & Hin). simpl in E. rewrite <- E.
    apply in_map. eapply in_combine_l. exact Hin.
  - apply IH. inversion Hnd. assumption.
Qed.

(** The entries of the stacked frame are its cells that are not NaN, each
    under the labels of its own column. *)
Lemma in_stack (index : list scalar) (cols : list (string * Z))
    (rd : list (list cell)) (r : list scalar * scalar) :
  NoDup (map fst cols) ->
  In r (PeakWindows.stack index cols rd)
  <-> exists k off j ax pt col v,
        nth_error index k = Some off
        /\ nth_error cols j = Some (ax, pt)
        /\ nth_error rd j = Some col
        /\ nth k col NaN = Some v
        /\ r = ([SStr ax; STimedeltaUs pt; off], SNum v).
Proof.
  intro Hnd. apply (@NoDup_combine_names _ _ _ cols rd) in Hnd.
  unfold PeakWindows.stack, PeakWindows.stack_time, PeakWindows.stack_axis.
  set (cs := combine cols rd) in *.
  rewrite in_map_iff. split.
  - intros ([[[off ax] pt] c] & <- & Hx).
    apply in_flat_map in Hx as ([[off' ax'] cells] & Hrow & Hcell).
    apply in_flat_map in Hcell as ([pt' c'] & Hc & Hx).
    destruct c' as [v|]; simpl in Hx; [|destruct Hx].
    destruct Hx as [E | []]. injection E as -> -> -> <-.
    apply filter_In in Hrow as [Hrow _].
    apply in_flat_map in Hrow as ([off' k] & Hk & Hrow).
    apply in_map_iff in Hrow as (ax' & E & _). injection E as -> -> <-.
    apply in_combine_seq in Hk as [_ Hk]. rewrite Nat.sub_0_r in Hk.
    apply in_map_iff in Hc as (pt' & E & _). injection E as -> Hv.
    destruct (PeakWindows.find_column cs ax pt) as [col|] eqn:Ecol;
      [|discriminate Hv].
    apply find_column_Some in Ecol as (j & Hj).
    apply nth_error_combine in Hj as [Hj1 Hj2].
    exists k, off, j, ax, pt, col, v. auto.
  - intros (k & off & j & ax & pt & col & v & Hk & Hj1 & Hj2 & Hv & ->).
    assert (Hj : nth_error cs j = Some ((ax, pt), col))
      by (apply nth_error_combine; split; assumption).
    assert (Hfind := @find_column_nth cs j ax pt col Hnd Hj).
    assert (Hin := nth_error_In _ _ Hj).
    set (times := nodup Z.eq_dec (map (fun c => snd (fst c)) cs)).
    set (cell_at := fun pt0 : Z =>
                      (pt0, match PeakWindows.find_column cs ax pt0 with
                            | Some col0 => nth k col0 NaN
                            | None => NaN
                            end)).
    assert (Hcell : In (pt, Some v) (map cell_at times)).
    { apply in_map_iff. exists pt. split.
      - unfold cell_at. rewrite Hfind, Hv. reflexivity.
      - apply nodup_In.
        apply (in_map (fun c => snd (fst c)) cs ((ax, pt), col) Hin). }
    exists ((off, ax, pt), Some v). split; [reflexivity|].
    apply in_flat_map. exists ((off, ax), map cell_at times). split.
    + apply filter_In. split.
      * apply in_flat_map. exists (off, k). split.
        -- apply in_combine_seq. rewrite Nat.sub_0_r. split; [lia | exact Hk].
        -- apply in_map_iff. exists ax. split; [reflexivity|].
           apply nodup_In.
           apply (in_map (fun c => fst (fst c)) cs ((ax, pt), col) Hin).
      * apply existsb_exists. exists (pt, Some v). split; [exact Hcell|].
        reflexivity.
    + apply in_flat_map. exists (pt, Some v). split; [exact Hcell|].
      left. reflexivity.
Qed.

Lemma peak_windows_rows (a : Analyzer) (ch : AccelChannel) (n : nat) (m : Z) :
  usable a ch n ->
  0 <= m ->
  exists tbl,
    _make_peak_windows a m = Ok (Some tbl)
    /\ index_names tbl = ["axis"; "peak time"; "peak offset"]%string
    /\ forall r, In r (rows tbl) <-> window_row a ch m r.
Proof.
  intros Hu Hm. eexists. split; [apply (make_peak_windows_spec Hu Hm)|].
  split; [reflexivity|]. cbn [rows]. intro r. rewrite in_stack.
  2:{ assert (Hnd := usable_names Hu). clear - Hnd.
      revert Hnd. generalize (axis_names ch ++ ["Resultant"%string]).
      generalize (map (peak_time_of ch) (signal a)).
      intros ts axes. revert ts.
      induction axes as [|x t IH]; intros [|y ts] Hnd; simpl;
        try constructor.
      - inversion Hnd as [|? ? Hx _]; subst. intro Hin. apply Hx.
        apply in_map_iff in Hin as ([x' y'] & E & Hin). simpl in E.
        subst x'. eapply in_combine_l. exact Hin.
      - apply IH. inversion Hnd. assumption. }
  unfold window_row. split.
  - intros (kk & off & j & ax & pt & col & v & Hk & Hj & Hcol & Hv & ->).
    rewrite nth_error_map, nth_error_zrange in Hk.
    destruct (Nat.ltb_spec kk (Z.to_nat (m + 1 - - m))) as [Hkk|]; [|discriminate Hk].
    injection Hk as <-.
    apply nth_error_combine in Hj as [Hax Hpt].
    rewrite nth_error_map in Hcol, Hpt.
    destruct (nth_error (signal a) j) as [row|] eqn:Hrow; [|discriminate Hcol].
    injection Hcol as <-. injection Hpt as <-.
    assert (Hw := nth_error_window row (peak_index row) kk Hm).
    destruct (Nat.ltb_spec kk (2 * Z.to_nat m + 1)); [|lia].
    apply (nth_error_nth _ _ NaN) in Hw. rewrite Hw in Hv.
    unfold sample_at in Hv.
    destruct (Z.ltb_spec (peak_index row - m + Z.of_nat kk) 0);
      [discriminate Hv|].
    exists j, row, ax, (- m + Z.of_nat kk), v.
    replace (peak_index row + (- m + Z.of_nat kk))
      with (peak_index row - m + Z.of_nat kk) by lia.
    repeat split; try assumption; try lia.
  - intros (j & row & ax & k & x & Hrow & Hax & Hk & Hpos & Hx & ->).
    exists (Z.to_nat (k + m)), (offset_label a k), j, ax,
      (peak_time_of ch row), (window m row (peak_index row)), x.
    repeat split.
    + rewrite nth_error_map, nth_error_zrange.
      destruct (Nat.ltb_spec (Z.to_nat (k + m)) (Z.to_nat (m + 1 - - m))); [|lia].
      simpl. do 2 f_equal. lia.
    + apply nth_error_combine. split; [exact Hax|].
      rewrite nth_error_map, Hrow. reflexivity.
    + rewrite nth_error_map, Hrow. reflexivity.
    + apply nth_error_nth. rewrite (nth_error_window _ _ _ Hm).
      destruct (Nat.ltb_spec (Z.to_nat (k + m)) (2 * Z.to_nat m + 1)); [|lia].
      f_equal. unfold sample_at.
      replace (peak_index row - m + Z.of_nat (Z.to_nat (k + m)))
        with (peak_index row + k) by lia.
      destruct (Z.ltb_spec (peak_index row + k) 0); [lia | exact Hx].
Qed.

Lemma sample_at_NaN (row : list Q) (p : Z) :
  sample_at row p = NaN <-> p < 0 \/ Z.of_nat (length row) <= p.
Proof.
  unfold sample_at, NaN. destruct (Z.ltb_spec p 0) as [H|H].
  - split; [left; exact H | reflexivity].
  - split; intro H'.
    + apply nth_error_None in H'. lia.
    + apply nth_error_None. lia.
Qed.

Lemma length_window (m : Z) (row : list Q) (i : Z) :
  length (window m row i) = Z.to_nat (2 * m + 1).
Proof.
  unfold window, zrange. rewrite !length_map, length_seq. f_equal. lia.
Qed.

Lemma NoDup_nth_error_eq (A : Type) (l : list A) (i j : nat) (x : A) :
  NoDup l -> nth_error l i = Some x -> nth_error l j = Some x -> i = j.
Proof.
  intros Hnd Hi Hj. apply (proj1 (NoDup_nth_error l) Hnd).
  - apply nth_error_Some. rewrite Hi. discriminate.
  - rewrite Hi, Hj. reflexivity.
Qed.

(** Offsets of different numbers of samples have different labels. *)
Lemma offset_label_inj (a : Analyzer) (k k' : Z) :
  ~ (_accelerationFs a == 0)%Q ->
  offset_label a k = offset_label a k' -> k = k'.
Proof.
  unfold offset_label. intros Hfs H.
  assert (Hnum : Qnum (1 / _accelerationFs a) <> 0).
  { destruct (_accelerationFs a) as [[|p|p] d].
    - exfalso. apply Hfs. reflexivity.
    - discriminate.
    - discriminate. }
  assert (E : ((1 / _accelerationFs a) * inject_Z k)%Q
              = ((1 / _accelerationFs a) * inject_Z k')%Q) by congruence.
  apply (f_equal Qnum) in E. cbn [Qmult Qnum inject_Z] in E.
  apply Z.mul_reg_l in E; assumption.
Qed.

(** C1 (amended). For a half-width [m >= 0] and a signal of any number of
    channels with at least one sample each, [_make_peak_windows] raises
    nothing; the buffer it fills has [2m+1] offset rows per channel, the
    sample of largest absolute value of a channel sits at offset 0 and is
    not NaN, and a cell is NaN exactly when its offset from the peak lies
    outside the signal. The table it returns is the stacked buffer, which
    has no row for a NaN cell: its rows are exactly the samples within [m]
    of the peak of their channel, and a channel has no row at an offset
    that lies outside the signal. *)
Theorem peak_window_buffer_and_table
    (a : Analyzer) (ch : AccelChannel) (n : nat) (m : Z) :
  usable a ch n ->
  0 <= m ->
  exists rd tbl,
    PeakWindows.buffer (signal a) m = Ok (map peak_index (signal a), rd)
    /\ _make_peak_windows a m = Ok (Some tbl)
    /\ length rd = length (signal a)
    /\ (forall j row,
          nth_error (signal a) j = Some row ->
          exists col peak,
            nth_error rd j = Some col
            /\ length col = Z.to_nat (2 * m + 1)
            /\ 0 <= peak_index row < Z.of_nat n
            /\ nth_error row (Z.to_nat (peak_index row)) = Some peak
            /\ (forall x, In x row -> (Qabs x <= Qabs peak)%Q)
            /\ nth_error col (Z.to_nat m) = Some (Some peak)
            /\ forall k,
                 - m <= k <= m ->
                 exists c,
                   nth_error col (Z.to_nat (k + m)) = Some c
                   /\ (c = NaN <->
                       peak_index row + k < 0 \/ Z.of_nat n <= peak_index row + k)
                   /\ forall x,
                        c = Some x ->
                        nth_error row (Z.to_nat (peak_index row + k)) = Some x)
    /\ (forall r, In r (rows tbl) <-> window_row a ch m r)
    /\ (forall j row ax k v,
          nth_error (signal a) j = Some row ->
          nth_error (axis_names ch ++ ["Resultant"%string]) j = Some ax ->
          peak_index row + k < 0 \/ Z.of_nat n <= peak_index row + k ->
          ~ In ([SStr ax; STimedeltaUs (peak_time_of ch row);
                 offset_label a k], v) (rows tbl)).
Proof.
  intros Hu Hm.
  destruct (signal_rows Hu) as (Hne & Hlen & Hrows).
  destruct (peak_windows_rows Hu Hm) as (tbl & Htbl & _ & Hin).
  exists (map (fun row => window m row (peak_index row)) (signal a)), tbl.
  split; [apply (buffer_spec Hm Hne Hrows)|].
  split; [exact Htbl|]. split; [apply length_map|].
  split; [|split; [exact Hin|]].
  2:{ intros j row ax k v Hrow Hax Hout Hr.
      apply Hin in Hr
        as (j' & row' & ax' & k' & x & Hrow' & Hax' & _ & Hpos & Hx & E).
      assert (Eax : ax' = ax) by congruence.
      assert (Hk : offset_label a k = offset_label a k') by congruence.
      subst ax'. clear E.
      assert (j' = j) as ->.
      { eapply NoDup_nth_error_eq; [exact (usable_names Hu) | |];
          eassumption. }
      rewrite Hrow in Hrow'. injection Hrow' as <-.
      apply (offset_label_inj (usable_rate Hu)) in Hk. subst k'.
      assert (Hl : Z.of_nat (length row) = Z.of_nat n).
      { rewrite Forall_forall in Hrows. apply Hrows.
        eapply nth_error_In. exact Hrow. }
      assert (Hlt : (Z.to_nat (peak_index row + k) < length row)%nat).
      { apply nth_error_Some. rewrite Hx. discriminate. }
      lia. }
  intros j row Hrow.
  assert (Hr : Z.of_nat (length row) = Z.of_nat n /\ row <> []).
  { rewrite Forall_forall in Hrows. apply Hrows.
    eapply nth_error_In. exact Hrow. }
  destruct Hr as [Hl Hr].
  destruct (peak_index_spec Hr) as (_ & Hi & peak & Hpeak & Hmax).
  exists (window m row (peak_index row)), peak.
  split; [rewrite nth_error_map, Hrow; reflexivity|].
  split; [apply length_window|].
  split; [rewrite <- Hl; exact Hi|].
  split; [exact Hpeak|]. split; [exact Hmax|]. split.
  - rewrite (nth_error_window _ _ _ Hm).
    destruct (Nat.ltb_spec (Z.to_nat m) (2 * Z.to_nat m + 1)); [|lia].
    f_equal. unfold sample_at.
    replace (peak_index row - m + Z.of_nat (Z.to_nat m))
      with (peak_index row) by lia.
    destruct (Z.ltb_spec (peak_index row) 0); [lia | exact Hpeak].
  - intros k Hk. exists (sample_at row (peak_index row + k)). split.
    + rewrite (nth_error_window _ _ _ Hm).
      destruct (Nat.ltb_spec (Z.to_nat (k + m)) (2 * Z.to_nat m + 1)); [|lia].
      do 2 f_equal. lia.
    + split; [rewrite <- Hl; apply sample_at_NaN|].
      intros x Hx. unfold sample_at in Hx.
      destruct (Z.ltb_spec (peak_index row + k) 0); [discriminate Hx|].
      exact Hx.
Qed.


(** ** Recordings without an acceleration channel *)

(** C8 (amended). Without an acceleration channel the formatters of the
    spectrum, the shock spectrum, the peak windows and the VC curves return
    [None] and raise nothing. [_make_metrics] does not look at the channel:
    it returns a table in every case, the stacked metrics that the analyzer
    provides. *)
Theorem no_acceleration_channel
    (to_octave : list Q -> list (list Q) -> R -> R -> list Q * list (list Q))
    (L2_norm : list Q -> Q)
    (analyzer : Analyzer) (fstart bins_per_octave : option R) (margin_len : Z) :
  _channels_acc analyzer = None ->
  _make_psd to_octave analyzer fstart bins_per_octave = Ok None
  /\ _make_pvss L2_norm analyzer = Ok None
  /\ _make_peak_windows analyzer margin_len = Ok None
  /\ _make_vc_curves L2_norm analyzer = Ok None
  /\ exists series,
       _make_metrics analyzer = Ok (Some series)
       /\ index_names series = ["calculation"; "axis"]%string
       /\ forall calc ax v,
            In ([SStr calc; SStr ax], SNum v) (rows series) <->
            exists mt,
              In (Some mt)
                 [ accRMSFull analyzer; velRMSFull analyzer;
                   disRMSFull analyzer; accPeakFull analyzer;
                   pseudoVelPeakFull analyzer; gpsLocFull analyzer;
                   gpsSpeedFull analyzer; gyroRMSFull analyzer;
                   micRMSFull analyzer; tempFull analyzer;
                   pressFull analyzer ]
              /\ metric_name mt = calc
              /\ In (ax, v) (metric_values mt).
Proof.
  intro Hacc.
  unfold _make_psd, _make_pvss, _make_peak_windows, _make_vc_curves.
  rewrite Hacc. repeat (split; [reflexivity|]).
  eexists. split; [reflexivity|]. split; [reflexivity|].
  intros calc ax v. cbn [rows]. rewrite in_flat_map. split.
  - intros ([mt|] & Hmt & Hin); [|destruct Hin].
    apply in_map_iff in Hin as ([ax' v'] & E & Hin).
    injection E as <- <- <-. exists mt. auto.
  - intros (mt & Hmt & <- & Hin). exists (Some mt). split; [exact Hmt|].
    apply in_map_iff. exists (ax, v). split; [reflexivity | exact Hin].
Qed.

(** ** The properties on the examples *)

Lemma ex_analyzer_usable : usable ex_analyzer ex_channel 5.
Proof.
  constructor; try reflexivity.
  - repeat constructor.
  - discriminate.
  - repeat constructor; simpl; intuition discriminate.
  - intro H. discriminate H.
Qed.

Lemma ex_files_NoDup : NoDup ex_files.
Proof.
  unfold ex_files. repeat constructor; simpl; intuition discriminate.
Qed.

(** With a half-width of 1 the buffer of the example holds NaN before the
    peak of X and after the peak of Z. *)
Lemma peak_window_buffer_and_table_witness :
  exists rd tbl,
    PeakWindows.buffer (signal ex_analyzer) 1 = Ok ([0; 2; 4; 2], rd)
    /\ rd = [ [None; Some 7; Some 1]; [Some 1; Some (-9); Some 2];
              [Some 3; Some (-8); None]; [Some 2; Some 9; Some 4] ]%Q
    /\ _make_peak_windows ex_analyzer 1 = Ok (Some tbl)
    /\ length rd = 4%nat.
Proof.
  destruct (peak_window_buffer_and_table (m := 1) ex_analyzer_usable)
    as (rd & tbl & Hbuf & Htbl & Hlen & _); [lia|].
  exists rd, tbl. split; [exact Hbuf|]. split; [|split; assumption].
  assert (E : PeakWindows.buffer (signal ex_analyzer) 1
              = Ok ([0; 2; 4; 2],
                    [ [None; Some 7; Some 1]; [Some 1; Some (-9); Some 2];
                      [Some 3; Some (-8); None]; [Some 2; Some 9; Some 4] ]%Q))
    by (vm_compute; reflexivity).
  rewrite E in Hbuf. injection Hbuf as <-. reflexivity.
Defined.

(** C1 as stated fails on the example: the peak of X is its first sample,
    and with a half-width of 1 the returned table has two rows for X, not
    [2 * 1 + 1]; Y, whose peak is in the middle, has all three. *)
Lemma boundary_peak_has_fewer_rows :
  usable ex_analyzer ex_channel 5
  /\ exists tbl,
       _make_peak_windows ex_analyzer 1 = Ok (Some tbl)
       /\ map snd (rows_of_axis "X" tbl) = [SNum 7; SNum 1]%Q
       /\ length (rows_of_axis "X" tbl) = 2%nat
       /\ length (rows_of_axis "Y" tbl) = 3%nat
       /\ Z.to_nat (2 * 1 + 1) = 3%nat.
Proof.
  split; [exact ex_analyzer_usable|].
  eexists. split; [vm_compute; reflexivity|].
  repeat split.
Qed.


(** The recording without an accelerometer: four formatters return
    [None], and the metrics are a table. *)
Lemma no_acceleration_channel_witness :
  _make_psd ex_to_octave ex_gps_analyzer None None = Ok None
  /\ _make_peak_windows ex_gps_analyzer 1 = Ok None
  /\ _make_vc_curves ex_L2_norm ex_gps_analyzer = Ok None
  /\ exists series, _make_metrics ex_gps_analyzer = Ok (Some series).
Proof.
  destruct (no_acceleration_channel ex_to_octave ex_L2_norm ex_gps_analyzer
              None None 1 eq_refl)
    as (Hpsd & _ & Hpeaks & Hvc & series & Hm & _).
  repeat split; try assumption. exists series. exact Hm.
Defined.

(** C8 as stated fails on the example: [_make_metrics] returns a table,
    not [None], for the recording without an accelerometer. *)
Lemma metrics_without_accelerometer_is_a_table :
  _channels_acc ex_gps_analyzer = None
  /\ _make_metrics ex_gps_analyzer
     = Ok (Some {| index_names := ["calculation"; "axis"]%string;
                   rows :=
                     [ ([SStr "Average GPS Speed"; SStr "Ground"], SNum 12%Q);
                       ([SStr "Average Temperature"; SStr "Control"],
                        SNum 21%Q) ] |}).
Proof.
  split; reflexivity.
Qed.

Lemma ex_datas_extracted :
  mapM (_get_data ex_to_octave ex_L2_norm ex_importFile ex_new_Analyzer
          ex_builder) ex_files = Ok ex_datas.
Proof.
  vm_compute. reflexivity.
Qed.

Lemma ex_out_aggregated :
  aggregate_data ex_to_octave ex_L2_norm ex_importFile ex_new_Analyzer
    ex_builder ex_files = Ok ex_out.
Proof.
  vm_compute. reflexivity.
Qed.

(** The spectrum of the three recordings: the recording without an
    accelerometer is skipped. *)
Lemma concat_skips_absent_witness :
  exists out t,
    aggregate_data ex_to_octave ex_L2_norm ex_importFile ex_new_Analyzer
      ex_builder ex_files = Ok out
    /\ nth_error out 1 = Some ("psd"%string, DataTable (Some t))
    /\ kind_column 0 ex_datas = [nth 0 (kind_column 0 ex_datas) None; None;
                                 nth 2 (kind_column 0 ex_datas) None]
    /\ length (records t) = 16%nat.
Proof.
  destruct (concat_skips_absent ex_to_octave ex_L2_norm ex_importFile
              ex_new_Analyzer ex_builder ex_datas_extracted
              ltac:(discriminate) ex_files_NoDup)
    as (out & Hout & Hkinds).
  destruct (Hkinds 0%nat psd eq_refl) as (t & Ht & _ & Hrows).
  rewrite ex_out_aggregated in Hout. injection Hout as <-.
  destruct t as [t|]; [|vm_compute in Ht; discriminate Ht].
  exists ex_out, t. split; [exact ex_out_aggregated|].
  split; [exact Ht|]. split; [reflexivity|].
  rewrite <- (length_map (fun r => (labels r, value r))).
  rewrite (Hrows t eq_refl). reflexivity.
Defined.

(** The metrics of the three recordings: 16 rows, 7 + 2 + 7, and the rows
    of the recording without an accelerometer carry its serial number. *)
Lemma rows_joined_to_own_recording_witness :
  exists df,
    nth_error ex_out 2 = Some ("metrics"%string, DataTable (Some df))
    /\ length (records df) = 16%nat
    /\ Forall (fun r => hd SNaN (labels r) = SStr "gps.IDE" ->
                        serial_number r = SInt 9680)
              (records df).
Proof.
  destruct (rows_joined_to_own_recording ex_to_octave ex_L2_norm ex_importFile
              ex_new_Analyzer ex_builder ex_files ex_out_aggregated)
    as (datas & Hdatas & _ & Hkinds).
  rewrite ex_datas_extracted in Hdatas. injection Hdatas as <-.
  destruct (Hkinds 1%nat metrics eq_refl) as (t & Ht & Hdf).
  destruct t as [df|]; [|vm_compute in Ht; discriminate Ht].
  exists df. split; [exact Ht|].
  destruct (Hdf df eq_refl) as (Hlen & Hrows).
  split; [rewrite Hlen; reflexivity|].
  apply Forall_forall. intros r Hr Hlab.
  destruct (Hrows r Hr) as (i & f & ds & s & _ & Hds & _ & _ & Hf & Hsn & _).
  rewrite Hlab in Hf. injection Hf as <-.
  vm_compute in Hds. injection Hds as <-. exact Hsn.
Defined.

(** The chain of the example: [psd] and [metrics] are added twice and keep
    their first places, and the result lists the tables in that order. *)
Lemma queue_keeps_first_insertion_order_witness :
  run_calls ex_fresh ex_calls = Ok ex_builder
  /\ _metrics_queue ex_builder = [psd; metrics; peaks]
  /\ _psd_freq_bin_width ex_builder = Some 2%R
  /\ map fst ex_out = ["meta"; "psd"; "metrics"; "peaks"]%string.
Proof.
  assert (Hrun : run_calls ex_fresh ex_calls = Ok ex_builder) by reflexivity.
  destruct (@queue_keeps_first_insertion_order ex_to_octave ex_L2_norm
              ex_importFile ex_new_Analyzer [] (Some 1%R) None None None None
              ex_fresh ex_builder ex_calls eq_refl Hrun)
    as (_ & Hq & _ & Hagg).
  split; [exact Hrun|]. split; [rewrite Hq; reflexivity|].
  split; [reflexivity|].
  apply (Hagg ex_files ex_out ex_out_aggregated).
Defined.

(** * Further properties *)

(** ** The builder across a chain of calls *)

Lemma queue_set_In (k k' : kind) (q : queue) :
  In k (queue_set k' q) <-> k = k' \/ In k q.
Proof.
  unfold queue_set. destruct (queue_mem k' q) eqn:E.
  - apply queue_mem_In in E. split; [intro H; right; exact H|].
    intros [-> | H]; assumption.
  - rewrite in_app_iff. simpl. split.
    + intros [H | [<- | []]]; [right; exact H | left; reflexivity].
    + intros [-> | H]; [right; left; reflexivity | left; exact H].
Qed.

Lemma queue_set_idem (k : kind) (q : queue) :
  queue_set k (queue_set k q) = queue_set k q.
Proof.
  unfold queue_set at 1.
  assert (H : queue_mem k (queue_set k q) = true).
  { apply queue_mem_In, queue_set_In. left. reflexivity. }
  rewrite H. reflexivity.
Qed.

Lemma run_calls_app (b0 b : GetDataBuilder) (cs1 cs2 : list call) :
  run_calls b0 (cs1 ++ cs2) = Ok b ->
  exists b1, run_calls b0 cs1 = Ok b1 /\ run_calls b1 cs2 = Ok b.
Proof.
  revert b0. induction cs1 as [|c t IH]; simpl; intros b0 H.
  - exists b0. split; [reflexivity | exact H].
  - bind_inv H b' Hb'. destruct (IH b' H) as (b1 & H1 & H2).
    exists b1. rewrite Hb'. split; assumption.
Qed.

Lemma add_psd_inv (self self' : GetDataBuilder) (w f0 b : option R) (win : string) :
  add_psd self w f0 b win = Ok self' ->
  exists w' f0', self' = set_psd self w' f0' b win.
Proof.
  unfold add_psd. destruct w as [w|], b as [b|]; intro H.
  - injection H as <-. eexists. eexists. reflexivity.
  - injection H as <-. eexists. eexists. reflexivity.
  - bind_inv H br Hbr. bind_inv H ra Hra. bind_inv H w' Hw'.
    injection H as <-. eexists. eexists. reflexivity.
  - discriminate H.
Qed.

Lemma apply_call_configured (b b' : GetDataBuilder) (c : call) :
  apply_call b c = Ok b' ->
  (forall k, In k (_metrics_queue b) -> configured b k) ->
  (forall k, In k (_metrics_queue b') -> configured b' k)
  /\ _analyzer_kwargs b' = _analyzer_kwargs b.
Proof.
  intros H Inv.
  assert (P : forall k, In k (_metrics_queue b) -> configured b k) by exact Inv.
  destruct c as [w f0 d win | f d | | m | f d]; simpl in H.
  - apply add_psd_inv in H as (w' & f0' & ->). split; [|reflexivity].
    intros k Hk. simpl in Hk. apply queue_set_In in Hk.
    destruct k; simpl;
      try (split; eexists; reflexivity);
      destruct Hk as [E | Hk]; try discriminate E;
      specialize (Inv _ Hk); simpl in Inv; try exact Inv.
    destruct Inv as (Hf & Hd & _).
    repeat split; try assumption; eexists; reflexivity.
  - injection H as <-. split; [|reflexivity].
    intros k Hk. simpl in Hk. apply queue_set_In in Hk.
    destruct k; simpl;
      try (split; eexists; reflexivity);
      destruct Hk as [E | Hk]; try discriminate E;
      specialize (Inv _ Hk); simpl in Inv; exact Inv.
  - injection H as <-. split; [|reflexivity].
    intros k Hk. simpl in Hk. apply queue_set_In in Hk.
    assert (Hpv : (exists f, (if negb (queue_mem pvss (queue_set metrics (_metrics_queue b)))
                              then Some 1%R else _pvss_init_freq b) = Some f)
                  /\ (exists d, (if negb (queue_mem pvss (queue_set metrics (_metrics_queue b)))
                                 then Some 12%R else _pvss_bins_per_octave b) = Some d)).
    { rewrite queue_mem_set_other by discriminate.
      destruct (queue_mem pvss (_metrics_queue b)) eqn:E; simpl.
      - apply queue_mem_In in E. exact (Inv pvss E).
      - split; eexists; reflexivity. }
    destruct k; simpl; try exact Hpv;
      destruct Hk as [E | Hk]; try discriminate E;
      specialize (Inv _ Hk); simpl in Inv; exact Inv.
  - injection H as <-. split; [|reflexivity].
    intros k Hk. simpl in Hk. apply queue_set_In in Hk.
    destruct k; simpl;
      try (eexists; reflexivity);
      destruct Hk as [E | Hk]; try discriminate E;
      specialize (Inv _ Hk); simpl in Inv; exact Inv.
  - injection H as <-. split; [|reflexivity].
    intros k Hk. simpl in Hk. apply queue_set_In in Hk.
    assert (Hps : (exists w, (if negb (queue_mem psd (queue_set vc_curves (_metrics_queue b)))
                              then Some 0.2%R else _psd_freq_bin_width b) = Some w)
                  /\ (exists win, (if negb (queue_mem psd (queue_set vc_curves (_metrics_queue b)))
                                   then Some "hanning"%string else _psd_window b) = Some win)).
    { rewrite queue_mem_set_other by discriminate.
      destruct (queue_mem psd (_metrics_queue b)) eqn:E; simpl.
      - apply queue_mem_In in E. exact (Inv psd E).
      - split; eexists; reflexivity. }
    destruct k; simpl; try exact Hps.
    + destruct Hk as [E | Hk]; [discriminate E|]. exact (Inv _ Hk).
    + destruct Hk as [E | Hk]; [discriminate E|]. exact (Inv _ Hk).
    + destruct Hk as [E | Hk]; [discriminate E|]. exact (Inv _ Hk).
    + destruct Hps as [Hw Hwin].
      repeat split; try assumption; eexists; reflexivity.
Qed.

Lemma run_calls_configured (cs : list call) (b0 b : GetDataBuilder) :
  run_calls b0 cs = Ok b ->
  (forall k, In k (_metrics_queue b0) -> configured b0 k) ->
  (forall k, In k (_metrics_queue b) -> configured b k)
  /\ _analyzer_kwargs b = _analyzer_kwargs b0.
Proof.
  revert b0. induction cs as [|c t IH]; simpl; intros b0 H Inv.
  - injection H as <-. split; [exact Inv | reflexivity].
  - bind_inv H b1 Hb1.
    destruct (@apply_call_configured b0 b1 c Hb1 Inv) as [Inv1 Hk1].
    destruct (IH b1 H Inv1) as [Inv2 Hk2].
    split; [exact Inv2 | congruence].
Qed.

Section BuilderProps.

Variable to_octave :
  list Q -> list (list Q) -> R -> R -> list Q * list (list Q).
Variable L2_norm : list Q -> Q.

(** X1. Whatever chain of [add_*] calls follows the constructor, every
    kind in the queue has the parameters its extraction reads: the seeded
    defaults fill in what the caller never set. The arguments kept for the
    analyzer are those of the constructor, and a queued [peaks] always has
    its margin, so looking up its function never fails on a missing
    margin. *)
Theorem queued_kinds_are_configured
    (chs : list string) (cutoff st et sm em : option R)
    (b0 b : GetDataBuilder) (cs : list call) :
  __init__ chs cutoff st et sm em = Ok b0 ->
  run_calls b0 cs = Ok b ->
  (forall k, In k (_metrics_queue b) -> configured b k)
  /\ _analyzer_kwargs b = _analyzer_kwargs b0
  /\ (In peaks (_metrics_queue b) ->
      exists m,
        forall analyzer,
          funcs to_octave L2_norm b peaks analyzer
          = _make_peak_windows analyzer m).
Proof.
  intros H0 Hrun.
  assert (Inv0 : forall k, In k (_metrics_queue b0) -> configured b0 k).
  { rewrite (init_queue_empty _ _ _ _ _ _ H0). intros k []. }
  destruct (@run_calls_configured cs b0 b Hrun Inv0) as [Inv Hkw].
  split; [exact Inv|]. split; [exact Hkw|].
  intro Hp. destruct (Inv peaks Hp) as (m & Hm).
  exists m. intro an. unfold funcs. rewrite Hm. reflexivity.
Qed.

End BuilderProps.

Lemma set_psd_idem (b : GetDataBuilder) (w : R) (f0 d : option R) (win : string) :
  set_psd (set_psd b w f0 d win) w f0 d win = set_psd b w f0 d win.
Proof.
  unfold set_psd. simpl. rewrite queue_set_idem. reflexivity.
Qed.

(** X2. Every [add_*] call is idempotent: repeating a call that went
    through, with the same arguments, goes through again and leaves the
    builder exactly as it was, the queue, the stored parameters and the
    seeded defaults included. *)
Theorem repeated_call_changes_nothing (b b' : GetDataBuilder) (c : call) :
  apply_call b c = Ok b' -> apply_call b' c = Ok b'.
Proof.
  destruct c as [w f0 d win | f d | | m | f d]; simpl; intro H.
  - unfold add_psd in *. destruct w as [w|], d as [d|].
    + injection H as <-. rewrite set_psd_idem. reflexivity.
    + injection H as <-. rewrite set_psd_idem. reflexivity.
    + bind_inv H br Hbr. bind_inv H ra Hra. bind_inv H w' Hw'.
      injection H as <-. rewrite Hbr. cbn [bind]. rewrite Hra. cbn [bind].
      rewrite Hw'. cbn [bind]. rewrite set_psd_idem. reflexivity.
    + discriminate H.
  - injection H as <-. unfold add_pvss. simpl.
    rewrite queue_set_idem. reflexivity.
  - injection H as <-. unfold add_metrics. simpl.
    rewrite queue_set_idem.
    destruct (queue_mem pvss (queue_set metrics (_metrics_queue b)));
      reflexivity.
  - injection H as <-. unfold add_peaks. simpl.
    rewrite queue_set_idem. reflexivity.
  - injection H as <-. unfold add_vc_curves. simpl.
    rewrite queue_set_idem.
    destruct (queue_mem psd (queue_set vc_curves (_metrics_queue b)));
      reflexivity.
Qed.

Lemma other_call_keeps_params (b b' : GetDataBuilder) (c c' : call) :
  apply_call b c' = Ok b' ->
  call_kind c' <> call_kind c ->
  In (call_kind c) (_metrics_queue b) ->
  call_params_stored c b ->
  call_params_stored c b' /\ In (call_kind c) (_metrics_queue b').
Proof.
  intros H Hne Hin Hp.
  assert (Hq : In (call_kind c) (_metrics_queue b')).
  { apply apply_call_queue in H as [-> _]. apply queue_set_In. right. exact Hin. }
  split; [|exact Hq]. clear Hq.
  apply queue_mem_In in Hin.
  destruct c' as [w' f0' d' win' | f' d' | | m' | f' d']; simpl in H.
  - apply add_psd_inv in H as (w'' & f0'' & ->).
    destruct c; simpl in *; try exact Hp. contradiction Hne. reflexivity.
  - injection H as <-.
    destruct c; simpl in *; try exact Hp. contradiction Hne. reflexivity.
  - injection H as <-.
    destruct c; simpl in *; try exact Hp.
    rewrite queue_mem_set_other by discriminate. rewrite Hin. exact Hp.
  - injection H as <-.
    destruct c; simpl in *; try exact Hp. contradiction Hne. reflexivity.
  - injection H as <-.
    destruct c; simpl in *; try exact Hp.
    + rewrite queue_mem_set_other by discriminate. rewrite Hin. exact Hp.
    + contradiction Hne. reflexivity.
Qed.

(** X3. In a chain of calls the parameters of the last call of a kind are
    the ones the builder holds at the end: calls of other kinds that follow
    it leave them alone, and the defaults that [add_metrics] and
    [add_vc_curves] seed never replace parameters set by [add_pvss] or
    [add_psd] earlier in the chain. *)
Theorem last_call_of_a_kind_decides (b0 b : GetDataBuilder)
    (cs1 cs2 : list call) (c : call) :
  run_calls b0 (cs1 ++ c :: cs2) = Ok b ->
  (forall c', In c' cs2 -> call_kind c' <> call_kind c) ->
  call_params_stored c b /\ In (call_kind c) (_metrics_queue b).
Proof.
  intros Hrun Hlast.
  apply run_calls_app in Hrun as (b1 & _ & Hrun). simpl in Hrun.
  bind_inv Hrun b2 Hb2.
  assert (H2 : call_params_stored c b2 /\ In (call_kind c) (_metrics_queue b2)).
  { apply apply_call_queue in Hb2 as [Hq Hp]. split; [exact Hp|].
    rewrite Hq. apply queue_set_In. left. reflexivity. }
  clear Hb2 b1. revert b2 Hrun H2.
  induction cs2 as [|c' t IH]; simpl; intros b2 Hrun [Hp Hin].
  - injection Hrun as <-. split; assumption.
  - bind_inv Hrun b3 Hb3.
    apply (IH (fun x Hx => Hlast x (or_intror Hx)) b3 Hrun).
    exact (@other_call_keeps_params b2 b3 c c' Hb3 (Hlast c' (or_introl eq_refl)) Hin Hp).
Qed.

Lemma apply_call_seeded (b b' : GetDataBuilder) (c : call) :
  apply_call b c = Ok b' ->
  ((In metrics (_metrics_queue b) -> ~ In pvss (_metrics_queue b) ->
    _pvss_init_freq b = Some 1%R /\ _pvss_bins_per_octave b = Some 12%R)
   /\ (In vc_curves (_metrics_queue b) -> ~ In psd (_metrics_queue b) ->
       _psd_freq_bin_width b = Some 0.2%R
       /\ _psd_window b = Some "hanning"%string)) ->
  (In metrics (_metrics_queue b') -> ~ In pvss (_metrics_queue b') ->
   _pvss_init_freq b' = Some 1%R /\ _pvss_bins_per_octave b' = Some 12%R)
  /\ (In vc_curves (_metrics_queue b') -> ~ In psd (_metrics_queue b') ->
      _psd_freq_bin_width b' = Some 0.2%R
      /\ _psd_window b' = Some "hanning"%string).
Proof.
  intros H [J1 J2].
  destruct c as [w f0 d win | f d | | m | f d]; simpl in H.
  - apply add_psd_inv in H as (w' & f0' & ->). simpl. split.
    + intros Hm Hn. apply queue_set_In in Hm as [E | Hm]; [discriminate E|].
      apply J1; [exact Hm|]. intro Hp. apply Hn, queue_set_In. right. exact Hp.
    + intros _ Hn. exfalso. apply Hn, queue_set_In. left. reflexivity.
  - injection H as <-. simpl. split.
    + intros _ Hn. exfalso. apply Hn, queue_set_In. left. reflexivity.
    + intros Hv Hn. apply queue_set_In in Hv as [E | Hv]; [discriminate E|].
      apply J2; [exact Hv|]. intro Hp. apply Hn, queue_set_In. right. exact Hp.
  - injection H as <-. simpl. split.
    + intros _ Hn.
      assert (E : queue_mem pvss (queue_set metrics (_metrics_queue b)) = false).
      { destruct (queue_mem pvss _) eqn:E; [|reflexivity].
        apply queue_mem_In in E. contradiction. }
      rewrite E. simpl. split; reflexivity.
    + intros Hv Hn. apply queue_set_In in Hv as [E | Hv]; [discriminate E|].
      apply J2; [exact Hv|]. intro Hp. apply Hn, queue_set_In. right. exact Hp.
  - injection H as <-. simpl. split.
    + intros Hm Hn. apply queue_set_In in Hm as [E | Hm]; [discriminate E|].
      apply J1; [exact Hm|]. intro Hp. apply Hn, queue_set_In. right. exact Hp.
    + intros Hv Hn. apply queue_set_In in Hv as [E | Hv]; [discriminate E|].
      apply J2; [exact Hv|]. intro Hp. apply Hn, queue_set_In. right. exact Hp.
  - injection H as <-. simpl. split.
    + intros Hm Hn. apply queue_set_In in Hm as [E | Hm]; [discriminate E|].
      apply J1; [exact Hm|]. intro Hp. apply Hn, queue_set_In. right. exact Hp.
    + intros _ Hn.
      assert (E : queue_mem psd (queue_set vc_curves (_metrics_queue b)) = false).
      { destruct (queue_mem psd _) eqn:E; [|reflexivity].
        apply queue_mem_In in E. contradiction. }
      rewrite E. simpl. split; reflexivity.
Qed.

(** X4. A kind whose parameters were only ever seeded has the defaults at
    the end of any chain of calls on a new builder: when [metrics] is
    queued and [pvss] is not, the shock spectrum starts at 1 with 12 bins
    per octave; when [vc_curves] is queued and [psd] is not, the spectrum
    has bins 0.2 wide and a Hanning window. *)
Theorem implicit_kinds_have_the_defaults
    (chs : list string) (cutoff st et sm em : option R)
    (b0 b : GetDataBuilder) (cs : list call) :
  __init__ chs cutoff st et sm em = Ok b0 ->
  run_calls b0 cs = Ok b ->
  (In metrics (_metrics_queue b) -> ~ In pvss (_metrics_queue b) ->
   _pvss_init_freq b = Some 1%R /\ _pvss_bins_per_octave b = Some 12%R)
  /\ (In vc_curves (_metrics_queue b) -> ~ In psd (_metrics_queue b) ->
      _psd_freq_bin_width b = Some 0.2%R
      /\ _psd_window b = Some "hanning"%string).
Proof.
  intros H0 Hrun.
  assert (J0 : (In metrics (_metrics_queue b0) -> ~ In pvss (_metrics_queue b0) ->
                _pvss_init_freq b0 = Some 1%R
                /\ _pvss_bins_per_octave b0 = Some 12%R)
               /\ (In vc_curves (_metrics_queue b0) ->
                   ~ In psd (_metrics_queue b0) ->
                   _psd_freq_bin_width b0 = Some 0.2%R
                   /\ _psd_window b0 = Some "hanning"%string)).
  { rewrite (init_queue_empty _ _ _ _ _ _ H0). split; intros []. }
  clear H0. revert b0 Hrun J0.
  induction cs as [|c t IH]; simpl; intros b0 Hrun J0.
  - injection Hrun as <-. exact J0.
  - bind_inv Hrun b1 Hb1. apply (IH b1 Hrun).
    exact (@apply_call_seeded b0 b1 c Hb1 J0).
Qed.

(** ** Aggregation: failures, the metadata and the columns *)

Lemma mapM_raise (A B : Type) (f : A -> result B) (l1 l2 : list A) (x : A) (e : exn) :
  (forall y, In y l1 -> exists z, f y = Ok z) ->
  f x = Raise e ->
  mapM f (l1 ++ x :: l2) = Raise e.
Proof.
  intros Hok Hx. induction l1 as [|y t IH]; simpl.
  - rewrite Hx. reflexivity.
  - destruct (Hok y (or_introl eq_refl)) as [z Hz]. rewrite Hz. cbn [bind].
    rewrite IH by (intros y' Hy'; apply Hok; right; exact Hy').
    reflexivity.
Qed.

Lemma funcs_index
    (to_octave : list Q -> list (list Q) -> R -> R -> list Q * list (list Q))
    (L2_norm : list Q -> Q)
    (self : GetDataBuilder) (k : kind) (an : Analyzer) (s : Series) :
  funcs to_octave L2_norm self k an = Ok (Some s) ->
  index_names s = kind_index k
  /\ forall r, In r (rows s) -> length (fst r) = length (kind_index k).
Proof.
  assert (St : forall comb axes df,
             index_names (stack_with_resultant comb axes df)
             = ["axis"; "frequency"]%string
             /\ forall r, In r (rows (stack_with_resultant comb axes df)) ->
                          length (fst r) = 2%nat).
  { intros comb axes df. split; [reflexivity|].
    intros r Hr. unfold stack_with_resultant in Hr. simpl in Hr.
    apply in_flat_map in Hr as ([x vs] & _ & Hr).
    apply in_map_iff in Hr as ([ax v] & <- & _). reflexivity. }
  destruct k; cbn [funcs]; intro H.
  - unfold _make_psd in H. destruct (_channels_acc an); [|discriminate H].
    destruct (_PSDData an) as [f p].
    destruct (match _psd_bins_per_octave self with
              | Some b => _
              | None => (f, p)
              end) as [f' p'].
    bind_inv H df Hdf. injection H as <-. apply St.
  - unfold _make_pvss in H. destruct (_channels_acc an); [|discriminate H].
    destruct (_PVSSData an) as [f p].
    bind_inv H df Hdf. injection H as <-. apply St.
  - unfold _make_metrics in H. injection H as <-. split; [reflexivity|].
    intros r Hr. cbn [rows flat_map] in Hr.
    repeat (apply in_app_or in Hr; destruct Hr as [Hr | Hr]);
      try (match type of Hr with
           | In _ (match ?m with _ => _ end) => destruct m as [mt|]
           end);
      try (destruct Hr; fail);
      apply in_map_iff in Hr as ([ax v] & <- & _); reflexivity.
  - destruct (_peak_window_margin_len self) as [m|]; [|discriminate H].
    unfold _make_peak_windows in H.
    destruct (_channels_acc an); [|discriminate H].
    bind_inv H rws Hrws. bind_inv H dt Hdt. bind_inv H buf Hbuf.
    destruct buf as [i_max rd]. bind_inv H pt Hpt.
    destruct (Nat.eqb _ _); [|discriminate H].
    injection H as <-. split; [reflexivity|].
    intros r Hr. simpl in Hr. unfold PeakWindows.stack in Hr.
    apply in_map_iff in Hr as ([[[off ax] t] c] & <- & _). reflexivity.
  - unfold _make_vc_curves in H. destruct (_channels_acc an); [|discriminate H].
    destruct (_VCCurveData an) as [f p].
    bind_inv H df Hdf. injection H as <-. apply St.
Qed.

Section AggregateMore.

Variable to_octave :
  list Q -> list (list Q) -> R -> R -> list Q * list (list Q).
Variable L2_norm : list Q -> Q.
Variable importFile : string -> result Dataset.
Variable new_Analyzer : Dataset -> AnalyzerArgs -> result Analyzer.

Local Abbreviation get_data :=
  (_get_data to_octave L2_norm importFile new_Analyzer).
Local Abbreviation aggregate :=
  (aggregate_data to_octave L2_norm importFile new_Analyzer).

(** X5. A recording named twice makes the aggregation fail, even when
    every recording can be read: the metadata then has two rows under one
    name and cannot be reshaped, which raises [ValueError]. *)
Theorem repeated_name_raises (self : GetDataBuilder) (fs : list string)
    (datas : list (list (string * option Series))) :
  mapM (get_data self) fs = Ok datas ->
  ~ NoDup fs ->
  aggregate self fs = Raise ValueError.
Proof.
  intros Hdatas Hdup.
  destruct (datas_shape to_octave L2_norm importFile new_Analyzer self fs Hdatas)
    as (dss & Hdss & _).
  assert (Hne : fs <> []).
  { intros ->. apply Hdup. constructor. }
  rewrite (aggregate_data_unfold to_octave L2_norm importFile new_Analyzer
             self Hdatas Hdss Hne).
  destruct (has_dup _) eqn:E; [reflexivity|].
  exfalso. apply Hdup.
  apply has_dup_false_NoDup, NoDup_meta_keys in E.
  rewrite (Forall2_combine_fst Hdss) in E. exact E.
Qed.

(** X6. One recording that fails fails the whole batch: when the
    recordings before it are extracted and its own extraction raises, be
    it that the file cannot be opened, the aggregation raises that very
    exception, whatever recordings follow, and returns no table at all. *)
Theorem failing_recording_fails_the_batch (self : GetDataBuilder)
    (fs1 fs2 : list string) (f : string) (e : exn) :
  (forall f', In f' fs1 -> exists d, get_data self f' = Ok d) ->
  (get_data self f = Raise e ->
   aggregate self (fs1 ++ f :: fs2) = Raise e)
  /\ (importFile f = Raise e ->
      aggregate self (fs1 ++ f :: fs2) = Raise e).
Proof.
  intro Hok.
  assert (H : get_data self f = Raise e ->
              aggregate self (fs1 ++ f :: fs2) = Raise e).
  { intro Hf. unfold aggregate_data.
    rewrite (mapM_raise (get_data self) fs1 fs2 f (e := e)).
    - reflexivity.
    - exact Hok.
    - exact Hf. }
  split; [exact H|].
  intro Hf. apply H. unfold _get_data. rewrite Hf. reflexivity.
Qed.

Lemma get_data_funcs (self : GetDataBuilder) (f : string)
    (d : list (string * option Series)) :
  get_data self f = Ok d ->
  exists an,
    Forall2 (fun k s => funcs to_octave L2_norm self k an = Ok s)
            (_metrics_queue self) (tl (map snd d)).
Proof.
  unfold _get_data. intro H.
  bind_inv H ds Hds. bind_inv H an Han. bind_inv H rest Hrest.
  injection H as <-. exists an. simpl.
  apply mapM_ok_Forall2 in Hrest.
  induction Hrest as [|k e q t Hke _ IH]; simpl; constructor.
  - apply bind_ok_inv in Hke as (s & Hs & Hke). injection Hke as <-. exact Hs.
  - exact IH.
Qed.

Lemma Forall2_nth_error (A B : Type) (P : A -> B -> Prop) (l : list A) (l' : list B)
    (j : nat) (x : A) :
  Forall2 P l l' -> nth_error l j = Some x ->
  exists y, nth_error l' j = Some y /\ P x y.
Proof.
  intro H. revert j. induction H as [|a b t t' Hab _ IH]; intros [|j] Hj;
    try discriminate Hj.
  - injection Hj as <-. exists b. split; [reflexivity | exact Hab].
  - apply IH. exact Hj.
Qed.

(** Every result in the column of a queued kind was made by the function
    of that kind. *)
Lemma kind_column_funcs (self : GetDataBuilder) (fs : list string)
    (datas : list (list (string * option Series))) (j : nat) (k : kind) :
  mapM (get_data self) fs = Ok datas ->
  nth_error (_metrics_queue self) j = Some k ->
  Forall (fun x => exists an, funcs to_octave L2_norm self k an = Ok x)
         (kind_column j datas).
Proof.
  intros Hdatas Hjk. apply mapM_ok_Forall2 in Hdatas.
  unfold kind_column, column, values. rewrite map_map.
  apply Forall_forall. intros x Hx.
  apply in_map_iff in Hx as (d & <- & Hd).
  assert (Hf : exists f, get_data self f = Ok d).
  { clear - Hdatas Hd. induction Hdatas as [|f d' t t' Hfd _ IH];
      [destruct Hd|].
    destruct Hd as [<- | Hd]; [exists f; exact Hfd | exact (IH Hd)]. }
  destruct Hf as [f Hf].
  destruct (get_data_funcs self f Hf) as (an & Hall).
  destruct (Forall2_nth_error j Hall Hjk) as (s & Hs & Hfun).
  exists an. rewrite Hfun. f_equal.
  destruct (map snd d) as [|m rest]; simpl in *.
  - destruct j; discriminate Hs.
  - symmetry. apply nth_error_nth. exact Hs.
Qed.

Lemma first_present_In (col : list (option Series)) (s : Series) :
  first_present col = Some s -> In (Some s) col.
Proof.
  unfold first_present.
  destruct (find _ col) as [x|] eqn:E; [|discriminate].
  intros ->. apply find_some in E. apply E.
Qed.

(** X7. The table of every kind has the columns that the kind's index
    levels give it: the recording's name first, then the index levels of
    the kind, then the value, the serial number and the start time; and
    every row has one label for each of the name and the index levels. *)
Theorem aggregated_table_columns (self : GetDataBuilder) (fs : list string)
    (out : OutputStruct) :
  aggregate self fs = Ok out ->
  forall j k df,
    nth_error (_metrics_queue self) j = Some k ->
    nth_error out (S j) = Some (kind_name k, DataTable (Some df)) ->
    columns df
    = ("filename" :: kind_index k
         ++ ["value"; "serial number"; "start time"])%string
    /\ forall r, In r (records df) ->
                 length (labels r) = S (length (kind_index k)).
Proof.
  intros Hout j k df Hjk Hdf.
  destruct (aggregate_data_inv to_octave L2_norm importFile new_Analyzer
              self fs Hout)
    as (datas & dss & Hdatas & Hdss & Hne & Hnd).
  rewrite (aggregate_data_ok to_octave L2_norm importFile new_Analyzer
             self Hdatas Hdss Hne Hnd) in Hout.
  injection Hout as <-.
  pose proof (kind_column_funcs self fs j Hdatas Hjk) as Hcol.
  rewrite Forall_forall in Hcol.
  apply queue_position in Hjk as [Hj Hk].
  simpl nth_error in Hdf. rewrite nth_error_map_seq in Hdf by exact Hj.
  rewrite Hk in Hdf. unfold aggregated in Hdf.
  assert (Hdf' : option_map (joined (combine fs dss))
                   (concat_or_none fs (kind_column j datas)) = Some df)
    by congruence.
  clear Hdf. unfold concat_or_none in Hdf'.
  destruct (first_present (kind_column j datas)) as [s0|] eqn:E;
    [|discriminate Hdf'].
  cbn [option_map] in Hdf'. injection Hdf' as <-.
  apply first_present_In in E.
  destruct (Hcol _ E) as (an0 & Han0).
  apply funcs_index in Han0 as [Hin0 _].
  split.
  - simpl. rewrite Hin0. reflexivity.
  - intros r Hr. unfold joined in Hr. cbn [records] in Hr.
    apply in_map_iff in Hr as (row & <- & Hrow). cbn [labels].
    apply pd_concat_rows in Hrow as (f & s & idx & Hin & Hidx & ->).
    apply in_combine_r in Hin.
    destruct (Hcol _ Hin) as (an & Han).
    apply funcs_index in Han as [_ Hlen].
    simpl. f_equal. exact (Hlen _ Hidx).
Qed.

(** X8. The metadata of the result has one row for each recording and the
    two columns "serial number" and "start time"; looking a recording up by
    its name gives its own serial number and start time, and a name that
    was not aggregated raises [KeyError]. *)
Theorem meta_table_has_a_row_per_recording (self : GetDataBuilder)
    (fs : list string) (out : OutputStruct) :
  aggregate self fs = Ok out ->
  exists m,
    nth_error out 0 = Some ("meta"%string, MetaTable m)
    /\ length (frame_index m) = length fs
    /\ (forall x, In x (frame_index m) <-> exists f, In f fs /\ x = SStr f)
    /\ (forall c, In c (frame_columns m)
                  <-> c = SStr "serial number" \/ c = SStr "start time")
    /\ (forall f,
          In f fs ->
          exists ds,
            importFile f = Ok ds
            /\ loc m (SStr f) (SStr "serial number")
               = Ok (SInt (RecorderSerial ds))
            /\ loc m (SStr f) (SStr "start time")
               = Ok (SDatetimeUs (utcStartTime ds * 1000000
                                  + session_firstTime ds)))
    /\ (forall f c, ~ In f fs -> loc m (SStr f) c = Raise KeyError).
Proof.
  intro Hout.
  destruct (aggregate_data_inv to_octave L2_norm importFile new_Analyzer
              self fs Hout)
    as (datas & dss & Hdatas & Hdss & Hne & Hnd).
  rewrite (aggregate_data_ok to_octave L2_norm importFile new_Analyzer
             self Hdatas Hdss Hne Hnd) in Hout.
  injection Hout as <-.
  set (l := combine fs dss).
  assert (Hfst : map fst l = fs) by (eapply Forall2_combine_fst; exact Hdss).
  assert (Hidx : forall x, In x (frame_index (meta_frame l))
                           <-> exists f, In f fs /\ x = SStr f).
  { intro x. unfold meta_frame. cbn [frame_index]. rewrite nodup_In.
    rewrite <- Hfst. split.
    - intro H. apply in_map_iff in H as (r & <- & Hr).
      assert (Hk : In (fst r) (map fst (flat_map meta_entries l)))
        by (apply in_map; exact Hr).
      apply in_meta_keys in Hk as (f & Hf & [E | E]);
        exists f; rewrite E; split; try exact Hf; reflexivity.
    - intros (f & Hf & ->).
      destruct (in_meta_entries l f Hf) as (ds & H1 & _).
      apply in_map_iff. eexists. split; [|exact H1]. reflexivity. }
  assert (Hcols : forall c, In c (frame_columns (meta_frame l))
                            <-> c = SStr "serial number" \/ c = SStr "start time").
  { intro c. unfold meta_frame. cbn [frame_columns]. rewrite nodup_In. split.
    - intro H. apply in_map_iff in H as (r & <- & Hr).
      assert (Hk : In (fst r) (map fst (flat_map meta_entries l)))
        by (apply in_map; exact Hr).
      apply in_meta_keys in Hk as (f & Hf & [E | E]); rewrite E;
        [left | right]; reflexivity.
    - destruct fs as [|f0 t]; [contradiction|].
      assert (Hf0 : In f0 (map fst l)) by (rewrite Hfst; left; reflexivity).
      destruct (in_meta_entries l f0 Hf0) as (ds & H1 & H2).
      intros [-> | ->]; apply in_map_iff.
      + eexists. split; [|exact H1]. reflexivity.
      + eexists. split; [|exact H2]. reflexivity. }
  exists (meta_frame l). split; [reflexivity|]. split; [|split; [exact Hidx|]].
  - assert (Hnd1 : NoDup (frame_index (meta_frame l))) by apply NoDup_nodup.
    assert (Hnd2 : NoDup (map SStr fs)).
    { clear - Hnd. induction Hnd as [|f t Hf _ IH]; simpl; constructor;
        [|exact IH].
      intro H. apply in_map_iff in H as (y & E & Hy).
      injection E as ->. exact (Hf Hy). }
    rewrite <- (length_map SStr fs).
    apply Nat.le_antisymm; apply NoDup_incl_length; try assumption.
    + intros x Hx. apply Hidx in Hx as (f & Hf & ->). apply in_map. exact Hf.
    + intros x Hx. apply in_map_iff in Hx as (f & <- & Hf).
      apply Hidx. exists f. split; [exact Hf | reflexivity].
  - split; [exact Hcols|]. split.
    + intros f Hf. rewrite <- Hfst in Hf.
      destruct (opened_In l f Hf) as (ds & Hopen & Hds).
      exists ds. split; [exact (Forall2_in_combine _ _ Hdss Hds)|].
      destruct (loc_meta_frame l f Hf) as [H1 H2].
      rewrite H1, H2. simpl. rewrite Hopen. split; reflexivity.
    + intros f c Hf. unfold loc.
      destruct (in_dec scalar_eq_dec (SStr f) (frame_index (meta_frame l)))
        as [Hin | _]; [|reflexivity].
      exfalso. apply Hidx in Hin as (f' & Hf' & E). injection E as ->.
      exact (Hf Hf').
Qed.

End AggregateMore.

(** ** The tables of the spectra *)

Lemma frame_of_fits (f : list Q) (axes : list string) (vals : list (list Q)) (c : Q) :
  fits f axes vals ->
  frame_of f axes vals c
  = Ok (map (fun '(x, k) => (x, map (fun r => (nth k r 0 * c)%Q) vals))
          (combine f (seq 0 (length f)))).
Proof.
  intros [Hlen Hall]. unfold frame_of.
  rewrite Hlen, Nat.eqb_refl.
  replace (forallb _ vals) with true; [reflexivity|].
  symmetry. apply forallb_forall. intros r Hr.
  rewrite Forall_forall in Hall. rewrite (Hall r Hr). apply Nat.eqb_refl.
Qed.

Lemma frame_of_misfit (f : list Q) (axes : list string) (vals : list (list Q)) (c : Q) :
  ~ fits f axes vals -> frame_of f axes vals c = Raise ValueError.
Proof.
  intro Hn. unfold frame_of.
  destruct (Nat.eqb (length vals) (length axes)) eqn:E1; [|reflexivity].
  destruct (forallb _ vals) eqn:E2; [|reflexivity].
  exfalso. apply Hn. split.
  - apply Nat.eqb_eq. exact E1.
  - apply Forall_forall. intros r Hr.
    rewrite forallb_forall in E2. apply Nat.eqb_eq. exact (E2 r Hr).
Qed.

Lemma spectrum_table_of_frame (comb : list Q -> Q) (c : Q) (f : list Q)
    (axes : list string) (vals : list (list Q)) :
  length vals = length axes ->
  spectrum_table comb c f axes vals
    (stack_with_resultant comb axes
       (map (fun '(x, k) => (x, map (fun r => (nth k r 0 * c)%Q) vals))
          (combine f (seq 0 (length f))))).
Proof.
  intro Hlen. unfold spectrum_table, stack_with_resultant. cbn [index_names rows].
  split; [reflexivity|]. split.
  - rewrite flat_map_concat_map, map_map.
    assert (G : forall (l : list (Q * nat)),
               length (concat
                         (map (fun p : Q * nat =>
                                 (let '(x, vs) :=
                                    (let '(x, k) := p in
                                     (x, map (fun r => (nth k r 0 * c)%Q) vals)) in
                                  map (fun '(ax, v) => ([SStr ax; SNum x], SNum v))
                                    (combine (axes ++ ["Resultant"%string])
                                       (vs ++ [comb vs])))) l))
               = (length l * S (length axes))%nat).
    { induction l as [|[x k] t IH]; [reflexivity|].
      cbn [map concat]. rewrite length_app, IH, length_map, length_combine.
      rewrite !length_app, length_map, Hlen. simpl. lia. }
    rewrite G, length_combine, length_seq, Nat.min_id. reflexivity.
  - intros k x Hk.
    assert (Hin : In (x, k) (combine f (seq 0 (length f)))).
    { apply in_combine_seq. split; [lia|]. rewrite Nat.sub_0_r. exact Hk. }
    split.
    + intros i ax r Hax Hr. apply in_flat_map.
      exists (x, map (fun r0 => (nth k r0 0 * c)%Q) vals). split.
      * apply in_map_iff. exists (x, k). split; [reflexivity | exact Hin].
      * apply in_map_iff. exists (ax, (nth k r 0 * c)%Q).
        split; [reflexivity|].
        apply (@nth_error_In _ _ i). apply nth_error_combine. split.
        -- rewrite nth_error_app1; [exact Hax|].
           apply nth_error_Some. rewrite Hax. discriminate.
        -- rewrite nth_error_app1.
           ++ rewrite nth_error_map, Hr. reflexivity.
           ++ rewrite length_map. apply nth_error_Some. rewrite Hr. discriminate.
    + apply in_flat_map.
      exists (x, map (fun r0 => (nth k r0 0 * c)%Q) vals). split.
      * apply in_map_iff. exists (x, k). split; [reflexivity | exact Hin].
      * apply in_map_iff.
        exists ("Resultant"%string,
                comb (map (fun r0 => (nth k r0 0 * c)%Q) vals)).
        split; [reflexivity|].
        apply (@nth_error_In _ _ (length axes)). apply nth_error_combine. split.
        -- rewrite nth_error_app2, Nat.sub_diag by lia. reflexivity.
        -- rewrite nth_error_app2; rewrite length_map, Hlen; [|lia].
           rewrite Nat.sub_diag. reflexivity.
Qed.

Section SpectrumProps.

Variable to_octave :
  list Q -> list (list Q) -> R -> R -> list Q * list (list Q).
Variable L2_norm : list Q -> Q.

(** X9. With an acceleration channel, [_make_psd] tabulates the spectrum
    (rebinned to octaves when a number of bins per octave is given, from a
    start frequency that defaults to 1, also when 0 is given) scaled by the
    square of the factor to g: one entry per frequency and axis, and per
    frequency a "Resultant" that is the sum of the scaled values of the
    axes. A spectrum whose shape does not fit the axes and the frequencies
    raises [ValueError]. *)
Theorem psd_table_holds_the_scaled_spectrum
    (a : Analyzer) (ch : AccelChannel) (fstart bins_per_octave : option R)
    (f : list Q) (vals : list (list Q)) :
  _channels_acc a = Some ch ->
  psd_spectrum to_octave a fstart bins_per_octave = (f, vals) ->
  (fits f (axis_names ch) vals ->
   exists tbl,
     _make_psd to_octave a fstart bins_per_octave = Ok (Some tbl)
     /\ spectrum_table np_sum (MPS2_TO_G a ^ 2)%Q f (axis_names ch) vals tbl)
  /\ (~ fits f (axis_names ch) vals ->
      _make_psd to_octave a fstart bins_per_octave = Raise ValueError).
Proof.
  intros Hch Hsp.
  assert (E : _make_psd to_octave a fstart bins_per_octave
              = (df_psd <- frame_of f (axis_names ch) vals (MPS2_TO_G a ^ 2)%Q ;;
                 Ok (Some (stack_with_resultant np_sum (axis_names ch) df_psd)))).
  { unfold _make_psd, psd_spectrum in *. rewrite Hch.
    destruct (_PSDData a) as [f0 p0]. cbn [fst snd] in Hsp.
    destruct bins_per_octave as [b|].
    - rewrite Hsp. reflexivity.
    - injection Hsp as -> ->. reflexivity. }
  rewrite E. split.
  - intro Hfit. rewrite (frame_of_fits _ Hfit). cbn [bind].
    eexists. split; [reflexivity|].
    apply spectrum_table_of_frame. apply Hfit.
  - intro Hn. rewrite (frame_of_misfit _ Hn). reflexivity.
Qed.

(** X10. With an acceleration channel, [_make_pvss] and [_make_vc_curves]
    tabulate the shock spectrum in mm/s and the VC curves in micrometres
    per second: one entry per frequency and axis, and per frequency a
    "Resultant" that is the Euclidean norm, as [L2_norm] computes it, of
    the scaled values of the axes. Data whose shape does not fit raises
    [ValueError]. *)
Theorem pvss_and_vc_tables_hold_the_scaled_data
    (a : Analyzer) (ch : AccelChannel) :
  _channels_acc a = Some ch ->
  (fits (fst (_PVSSData a)) (axis_names ch) (snd (_PVSSData a)) ->
   exists tbl,
     _make_pvss L2_norm a = Ok (Some tbl)
     /\ spectrum_table L2_norm (MPS_TO_MMPS a) (fst (_PVSSData a))
          (axis_names ch) (snd (_PVSSData a)) tbl)
  /\ (~ fits (fst (_PVSSData a)) (axis_names ch) (snd (_PVSSData a)) ->
      _make_pvss L2_norm a = Raise ValueError)
  /\ (fits (fst (_VCCurveData a)) (axis_names ch) (snd (_VCCurveData a)) ->
      exists tbl,
        _make_vc_curves L2_norm a = Ok (Some tbl)
        /\ spectrum_table L2_norm (MPS_TO_UMPS a) (fst (_VCCurveData a))
             (axis_names ch) (snd (_VCCurveData a)) tbl)
  /\ (~ fits (fst (_VCCurveData a)) (axis_names ch) (snd (_VCCurveData a)) ->
      _make_vc_curves L2_norm a = Raise ValueError).
Proof.
  intro Hch. unfold _make_pvss, _make_vc_curves. rewrite Hch.
  destruct (_PVSSData a) as [f p]. destruct (_VCCurveData a) as [g v].
  cbn [fst snd]. repeat split.
  - intro Hfit. rewrite (frame_of_fits _ Hfit). cbn [bind].
    eexists. split; [reflexivity|].
    apply spectrum_table_of_frame. apply Hfit.
  - intro Hn. rewrite (frame_of_misfit _ Hn). reflexivity.
  - intro Hfit. rewrite (frame_of_fits _ Hfit). cbn [bind].
    eexists. split; [reflexivity|].
    apply spectrum_table_of_frame. apply Hfit.
  - intro Hn. rewrite (frame_of_misfit _ Hn). reflexivity.
Qed.

End SpectrumProps.

(** ** Peak windows: ties and degenerate input *)

Lemma argmax_from_first (suf pre : list Q) (best : Q) (ibest : Z) :
  0 <= ibest < Z.of_nat (length pre) ->
  nth_error pre (Z.to_nat ibest) = Some best ->
  (forall x, In x pre -> (x <= best)%Q) ->
  (forall p x, (p < Z.to_nat ibest)%nat -> nth_error pre p = Some x ->
               (x < best)%Q) ->
  let r := argmax_from best ibest (Z.of_nat (length pre)) suf in
  exists v,
    nth_error (pre ++ suf) (Z.to_nat r) = Some v
    /\ forall p x, (p < Z.to_nat r)%nat -> nth_error (pre ++ suf) p = Some x ->
                   (x < v)%Q.
Proof.
  revert pre best ibest.
  induction suf as [|x t IH]; intros pre best ibest Hi Hb Hmax Hfirst.
  - simpl. rewrite app_nil_r. exists best. split; [exact Hb | exact Hfirst].
  - simpl argmax_from.
    replace (pre ++ x :: t) with ((pre ++ [x]) ++ t)
      by (rewrite <- app_assoc; reflexivity).
    replace (Z.of_nat (length pre) + 1) with (Z.of_nat (length (pre ++ [x])))
      by (rewrite length_app; simpl; lia).
    destruct (Qle_bool x best) eqn:E.
    + apply IH.
      * rewrite length_app. simpl. lia.
      * rewrite nth_error_app1 by lia. exact Hb.
      * intros y Hy. apply in_app_or in Hy as [Hy | [<- | []]].
        -- apply Hmax. exact Hy.
        -- apply Qle_bool_iff. exact E.
      * intros p y Hp Hy. rewrite nth_error_app1 in Hy by lia.
        exact (Hfirst p y Hp Hy).
    + assert (Hlt : (best < x)%Q).
      { apply Qnot_le_lt. intro H. apply Qle_bool_iff in H.
        rewrite H in E. discriminate E. }
      apply IH.
      * rewrite length_app. simpl. lia.
      * rewrite Nat2Z.id, nth_error_app2 by lia.
        rewrite Nat.sub_diag. reflexivity.
      * intros y Hy. apply in_app_or in Hy as [Hy | [<- | []]].
        -- apply Qle_trans with best; [apply Hmax; exact Hy|].
           apply Qlt_le_weak. exact Hlt.
        -- apply Qle_refl.
      * intros p y Hp Hy. rewrite Nat2Z.id in Hp.
        rewrite nth_error_app1 in Hy by exact Hp.
        apply Qle_lt_trans with best; [|exact Hlt].
        apply Hmax. eapply nth_error_In. exact Hy.
Qed.

(** The peak of a row is the first of its samples of largest magnitude. *)
Lemma peak_index_first (row : list Q) :
  row <> [] -> first_largest row (Z.to_nat (peak_index row)).
Proof.
  intro Hne.
  destruct (peak_index_spec Hne) as (Harg & Hr & v & Hv & Hmax).
  exists v. split; [exact Hv|]. split; [exact Hmax|].
  destruct row as [|x t]; [contradiction|].
  destruct (@argmax_from_first (map Qabs t) [Qabs x] (Qabs x) 0)
    as (w & Hw & Hfirst).
  - simpl. lia.
  - reflexivity.
  - intros y [<- | []]. apply Qle_refl.
  - intros p y Hp. simpl in Hp. lia.
  - change (argmax_from (Qabs x) 0 (Z.of_nat (length [Qabs x])) (map Qabs t))
      with (peak_index (x :: t)) in Hw, Hfirst.
    change ([Qabs x] ++ map Qabs t) with (map Qabs (x :: t)) in Hw, Hfirst.
    rewrite nth_error_map, Hv in Hw. injection Hw as <-.
    intros p y Hp Hy. apply (Hfirst p (Qabs y) Hp).
    rewrite nth_error_map, Hy. reflexivity.
Qed.

(** X11. The peak time that labels the rows of an axis is the time of the
    first sample at which the magnitude of that axis is largest: of
    several samples of equal largest magnitude the earliest is the peak. *)
Theorem peak_is_the_first_largest_sample
    (a : Analyzer) (ch : AccelChannel) (n : nat) (m : Z) :
  usable a ch n ->
  0 <= m ->
  exists tbl,
    _make_peak_windows a m = Ok (Some tbl)
    /\ forall r,
         In r (rows tbl) ->
         exists j row ax i,
           nth_error (signal a) j = Some row
           /\ nth_error (axis_names ch ++ ["Resultant"%string]) j = Some ax
           /\ first_largest row i
           /\ nth 0 (fst r) SNaN = SStr ax
           /\ nth 1 (fst r) SNaN
              = STimedeltaUs (nth i (arraySlice_0 ch) 0 - firstTime ch).
Proof.
  intros Hu Hm.
  destruct (peak_windows_rows Hu Hm) as (tbl & Htbl & _ & Hrows).
  destruct (signal_rows Hu) as (_ & _ & Hall).
  exists tbl. split; [exact Htbl|].
  intros r Hr. apply Hrows in Hr.
  destruct Hr as (j & row & ax & k & x & Hrow & Hax & _ & _ & _ & ->).
  exists j, row, ax, (Z.to_nat (peak_index row)).
  split; [exact Hrow|]. split; [exact Hax|]. split; [|split; reflexivity].
  apply peak_index_first.
  rewrite Forall_forall in Hall. apply (Hall row).
  eapply nth_error_In. exact Hrow.
Qed.

Lemma concatenate_rows_same (rows : list (list Q)) (last : list Q) :
  Forall (fun r => length r = length last) rows ->
  concatenate_rows rows last = Ok (rows ++ [last]).
Proof.
  intro H. unfold concatenate_rows.
  replace (forallb _ rows) with true; [reflexivity|].
  symmetry. apply forallb_forall. intros r Hr.
  rewrite Forall_forall in H. rewrite (H r Hr). apply Nat.eqb_refl.
Qed.

Section PeakEdges.

Variable to_octave :
  list Q -> list (list Q) -> R -> R -> list Q * list (list Q).
Variable L2_norm : list Q -> Q.

(** X12. A negative margin is not checked by [add_peaks]; it fails when
    the windows are extracted: the buffer would have a negative number of
    rows, and making it raises [ValueError]. *)
Theorem negative_margin_raises
    (a : Analyzer) (ch : AccelChannel) (n : nat) (m : Z) :
  usable a ch n ->
  m < 0 ->
  _make_peak_windows a m = Raise ValueError
  /\ forall b : GetDataBuilder,
       funcs to_octave L2_norm (add_peaks b m) peaks a = Raise ValueError.
Proof.
  intros Hu Hm.
  assert (E : _make_peak_windows a m = Raise ValueError).
  { destruct Hu as [Hch Hres Hdata Hn Hax _ Ht Hfs].
    unfold _make_peak_windows. rewrite Hch.
    rewrite concatenate_rows_same.
    2:{ rewrite Hres. exact Hdata. }
    cbn [bind].
    destruct (Qeq_bool (_accelerationFs a) 0) eqn:E.
    { exfalso. apply Hfs. apply Qeq_bool_iff. exact E. }
    cbn [bind]. unfold PeakWindows.buffer, np_full_nan.
    destruct (Z.ltb_spec (2 * m + 1) 0); [reflexivity | lia]. }
  split; [exact E|]. intro b. exact E.
Qed.

End PeakEdges.

(** X13. An acceleration channel without a single sample has no peak:
    looking for the largest magnitude of an empty row raises
    [ValueError]. *)
Theorem no_samples_raises (a : Analyzer) (ch : AccelChannel) (m : Z) :
  _channels_acc a = Some ch ->
  Forall (fun r => r = []) (_accelerationData a) ->
  _accelerationResultant a = [] ->
  ~ (_accelerationFs a == 0)%Q ->
  _make_peak_windows a m = Raise ValueError.
Proof.
  intros Hch Hdata Hres Hfs.
  unfold _make_peak_windows. rewrite Hch, Hres.
  rewrite concatenate_rows_same.
  2:{ eapply Forall_impl; [|exact Hdata]. intros r ->. reflexivity. }
  cbn [bind].
  destruct (Qeq_bool (_accelerationFs a) 0) eqn:E.
  { exfalso. apply Hfs. apply Qeq_bool_iff. exact E. }
  cbn [bind]. unfold PeakWindows.buffer.
  destruct (np_full_nan _ _) as [rd|e] eqn:Efull.
  2:{ unfold np_full_nan in Efull.
      destruct (2 * m + 1 <? 0); [|discriminate Efull].
      injection Efull as <-. reflexivity. }
  cbn [bind].
  assert (Harg : mapM argmax
                   (map (map Qabs)
                      (map (map (Qmult (MPS2_TO_G a)))
                         (_accelerationData a ++ [[]])))
                 = Raise ValueError).
  { destruct (_accelerationData a) as [|r t]; [reflexivity|].
    inversion Hdata as [|r' t' Hr Ht]; subst. reflexivity. }
  rewrite Harg. reflexivity.
Qed.

(** ** Export to CSV files and HTML pages *)

Lemma io_for_app (A : Type) (body : A -> io unit) (l1 l2 : list A) :
  io_for body (l1 ++ l2)
  = match io_for body l1 with
    | (done, Returns _) =>
        (done ++ fst (io_for body l2), snd (io_for body l2))
    | (done, Raises e) => (done, Raises e)
    end.
Proof.
  induction l1 as [|x t IH]; simpl.
  - destruct (io_for body l2). reflexivity.
  - unfold io_bind. destruct (body x) as [d [[]|e]]; [|reflexivity].
    cbn [fst snd]. rewrite IH.
    destruct (io_for body t) as [d' [[]|e']]; cbn [fst snd].
    + rewrite app_assoc. reflexivity.
    + reflexivity.
Qed.

Lemma io_for_In (A : Type) (body : A -> io unit) (l : list A) (a : action) :
  In a (fst (io_for body l)) -> exists x, In x l /\ In a (fst (body x)).
Proof.
  induction l as [|x t IH]; simpl; [intros []|].
  unfold io_bind. destruct (body x) as [d [[]|e]] eqn:E; cbn [fst snd].
  - intro H. apply in_app_or in H as [H | H].
    + exists x. split; [left; reflexivity|]. rewrite E. exact H.
    + destruct (IH H) as (y & Hy & Ha). exists y. split; [right|]; assumption.
  - intro H. exists x. split; [left; reflexivity|]. rewrite E. exact H.
Qed.

Lemma io_for_raises (A : Type) (body : A -> io unit) (l : list A) (e : raised) :
  snd (io_for body l) = Raises e -> exists x, In x l /\ snd (body x) = Raises e.
Proof.
  induction l as [|x t IH]; simpl; [discriminate|].
  unfold io_bind. destruct (body x) as [d [[]|e']] eqn:E; cbn [fst snd].
  - intro H. destruct (IH H) as (y & Hy & Ha).
    exists y. split; [right|]; assumption.
  - intro H. exists x. split; [left; reflexivity|]. rewrite E. exact H.
Qed.

Lemma csv_loop_present (folder : string) (l : OutputStruct) :
  Forall (fun e => is_absent (snd e) = false) l ->
  io_for
    (fun '(k, df) =>
       match df with
       | DataTable None => io_raise (Exn AttributeError)
       | _ => io_do (ToCsv folder (csv_name k) df (String.eqb k "meta"))
       end) l
  = (map (csv_file folder) l, Returns tt).
Proof.
  induction 1 as [|[k df] t Hx _ IH]; [reflexivity|].
  cbn [io_for]. rewrite IH.
  destruct df as [m | [d|]]; try discriminate Hx; reflexivity.
Qed.

Lemma makedirs_named (folder : string) :
  folder <> ""%string -> makedirs folder = io_do (MakeDirs folder).
Proof.
  intro H. unfold makedirs.
  destruct (String.eqb_spec folder ""); [contradiction | reflexivity].
Qed.

Lemma to_csv_folder_unnamed (self : OutputStruct) :
  to_csv_folder self "" = ([], Raises (Exn FileNotFoundError)).
Proof.
  reflexivity.
Qed.

Lemma csv_all_present (folder : string) (l : OutputStruct) :
  folder <> ""%string ->
  Forall (fun e => is_absent (snd e) = false) l ->
  to_csv_folder l folder
  = (MakeDirs folder :: map (csv_file folder) l, Returns tt).
Proof.
  intros Hf H. unfold to_csv_folder.
  rewrite (makedirs_named Hf), (csv_loop_present folder H). reflexivity.
Qed.

Lemma csv_loop_absent (folder : string) (pre post : OutputStruct) (k : string) :
  folder <> ""%string ->
  Forall (fun e => is_absent (snd e) = false) pre ->
  to_csv_folder (pre ++ (k, DataTable None) :: post) folder
  = (MakeDirs folder :: map (csv_file folder) pre, Raises (Exn AttributeError)).
Proof.
  intros Hf H. unfold to_csv_folder.
  rewrite (makedirs_named Hf), io_for_app, (csv_loop_present folder H). cbn.
  rewrite app_nil_r. reflexivity.
Qed.

(** X14. In a folder with a name, [to_csv_folder] makes the folder and
    writes the tables in the order of the result, each into the file named
    after its key, with the index column only for the metadata. An entry
    without a table has nothing to write: it raises [AttributeError], the
    files of the entries before it are already written, and those after it
    never are. With the empty string for the folder nothing is made or
    written: making the folder raises [FileNotFoundError]. *)
Theorem to_csv_folder_stops_at_an_absent_table
    (pre post : OutputStruct) (k folder : string) :
  Forall (fun e => is_absent (snd e) = false) pre ->
  (folder <> ""%string ->
   to_csv_folder pre folder
   = (MakeDirs folder :: map (csv_file folder) pre, Returns tt)
   /\ to_csv_folder (pre ++ (k, DataTable None) :: post) folder
      = (MakeDirs folder :: map (csv_file folder) pre,
         Raises (Exn AttributeError)))
  /\ to_csv_folder pre "" = ([], Raises (Exn FileNotFoundError))
  /\ to_csv_folder (pre ++ (k, DataTable None) :: post) ""
     = ([], Raises (Exn FileNotFoundError)).
Proof.
  intro H. split; [|split; apply to_csv_folder_unnamed].
  intro Hf. split.
  - apply csv_all_present; assumption.
  - apply csv_loop_absent; assumption.
Qed.

Lemma firstn_skipn_nth (A : Type) (l : list A) (j : nat) (x : A) :
  nth_error l j = Some x -> l = firstn j l ++ x :: skipn (S j) l.
Proof.
  revert j. induction l as [|y t IH]; intros [|j] H; try discriminate H.
  - injection H as <-. reflexivity.
  - simpl. f_equal. apply IH. exact H.
Qed.

Lemma in_firstn_seq (i j s n : nat) :
  In i (firstn j (seq s n)) -> (i < s + j)%nat.
Proof.
  revert s n. induction j as [|j IH]; intros s [|n]; simpl; try tauto.
  intros [<- | H]; [lia|]. apply IH in H. lia.
Qed.

Lemma peak_rows_labels (an : Analyzer) (m : Z) (s : Series) :
  _make_peak_windows an m = Ok (Some s) ->
  forall r, In r (rows s) ->
            exists ax pt q, fst r = [SStr ax; STimedeltaUs pt; STimedeltaSec q].
Proof.
  unfold _make_peak_windows. intro H.
  destruct (_channels_acc an); [|discriminate H].
  bind_inv H rws Hrws. bind_inv H dt Hdt. bind_inv H buf Hbuf.
  destruct buf as [i_max rd]. bind_inv H pt Hpt.
  destruct (Nat.eqb _ _); [|discriminate H].
  injection H as <-. cbn [rows]. intros r Hr.
  unfold PeakWindows.stack, PeakWindows.stack_time, PeakWindows.stack_axis in Hr.
  apply in_map_iff in Hr as ([[[off ax] t] c] & <- & Hx).
  apply in_flat_map in Hx as ([[off' ax'] cells] & Hrow & Hcell).
  apply in_flat_map in Hcell as ([pt' c'] & Hc & Hx).
  destruct (true && negb (PeakWindows.is_present c')); [destruct Hx|].
  destruct Hx as [E | []]. injection E as -> -> -> <-.
  apply filter_In in Hrow as [Hrow _].
  apply in_flat_map in Hrow as ([off' k] & Hk & Hrow).
  apply in_map_iff in Hrow as (ax' & E & _). injection E as -> ->.
  apply in_combine_l in Hk.
  apply in_map_iff in Hk as (z & <- & _).
  eexists. eexists. eexists. reflexivity.
Qed.

Lemma known_key_kind_name (k : kind) : known_key (kind_name k) = true.
Proof.
  destruct k; reflexivity.
Qed.

Lemma truthy_named (fo : string) :
  truthy (Some fo) = true <-> fo <> ""%string.
Proof.
  unfold truthy. destruct (String.eqb_spec fo ""); simpl; split;
    congruence.
Qed.

Section PlotProps.

Variable px_line : string -> table -> result unit.

Lemma io_lift_bind (A B : Type) (r : result A) (k : A -> io B) :
  io_bind (io_lift r) k
  = match r with
    | Ok a => k a
    | Raise e => ([], Raises (Exn e))
    end.
Proof.
  destruct r as [a|e]; simpl; [|reflexivity].
  destruct (k a). reflexivity.
Qed.

(** What one round of the loop of [to_html_plots] does, once the method
    is past its early return. *)
Lemma plot_item_acts (folder_path : option string) (show : bool)
    (k : string) (df : table) (a : action) :
  truthy folder_path = true \/ show = true ->
  In a (fst (plot_item px_line folder_path show (k, df))) ->
  k <> "meta"%string
  /\ match a with
     | MakeDirs _ | ToCsv _ _ _ _ => False
     | LogWarning _ => k = "metrics"%string
     | FigShow k' _ =>
         k' = k /\ truthy folder_path = false /\ show = true
         /\ k <> "metrics"%string
     | WriteHtml k' _ fo file ao =>
         k' = k /\ folder_path = Some fo /\ truthy folder_path = true
         /\ file = html_name k /\ ao = show /\ k <> "metrics"%string
     end.
Proof.
  intros Hpast. unfold plot_item.
  destruct (String.eqb_spec k "meta") as [->|Hmeta]; [intros []|].
  intro Hin. split; [exact Hmeta|].
  assert (Hfig : forall l (Hk : k <> "metrics"%string),
             In a (fst (if negb (truthy folder_path) && show
                        then io_do (FigShow k l)
                        else match folder_path with
                             | Some folder =>
                                 io_do (WriteHtml k l folder (html_name k) show)
                             | None => io_raise (Exn TypeError)
                             end)) ->
             match a with
             | MakeDirs _ | ToCsv _ _ _ _ => False
             | LogWarning _ => k = "metrics"%string
             | FigShow k' _ =>
                 k' = k /\ truthy folder_path = false /\ show = true
                 /\ k <> "metrics"%string
             | WriteHtml k' _ fo file ao =>
                 k' = k /\ folder_path = Some fo /\ truthy folder_path = true
                 /\ file = html_name k /\ ao = show /\ k <> "metrics"%string
             end).
  { intros l Hk H.
    destruct (truthy folder_path) eqn:Et, show eqn:Es; cbn [negb andb] in H.
    - destruct folder_path as [fo|]; [|discriminate Et].
      destruct H as [<- | []]. repeat split; assumption.
    - destruct folder_path as [fo|]; [|discriminate Et].
      destruct H as [<- | []]. repeat split; assumption.
    - destruct H as [<- | []]. repeat split; assumption.
    - destruct Hpast; discriminate. }
  unfold make_figure in Hin.
  destruct (String.eqb_spec k "psd") as [Ek|_].
  { rewrite io_lift_bind in Hin. destruct (px_line k df); [|destruct Hin].
    cbn in Hin. apply Hfig in Hin; [exact Hin|]. rewrite Ek. discriminate. }
  destruct (String.eqb_spec k "pvss") as [Ek|_].
  { rewrite io_lift_bind in Hin. destruct (px_line k df); [|destruct Hin].
    cbn in Hin. apply Hfig in Hin; [exact Hin|]. rewrite Ek. discriminate. }
  destruct (String.eqb_spec k "metrics") as [Ek|Hmetrics].
  { cbn in Hin. destruct Hin as [<- | []]. exact Ek. }
  destruct (String.eqb_spec k "peaks") as [Ek|_].
  { rewrite io_lift_bind in Hin.
    destruct (peak_offset_seconds df); [|destruct Hin].
    rewrite io_lift_bind in Hin. destruct (px_line k df); [|destruct Hin].
    cbn in Hin. apply Hfig in Hin; [exact Hin | exact Hmetrics]. }
  destruct (String.eqb_spec k "vc_curves") as [Ek|_].
  { rewrite io_lift_bind in Hin. destruct (px_line k df); [|destruct Hin].
    cbn in Hin. apply Hfig in Hin; [exact Hin | exact Hmetrics]. }
  destruct Hin.
Qed.

Lemma plot_item_runtime_error (folder_path : option string) (show : bool)
    (k : string) (df : table) (msg : string) :
  snd (plot_item px_line folder_path show (k, df)) = Raises (RuntimeError msg) ->
  known_key k = false.
Proof.
  unfold plot_item, known_key. cbn [existsb].
  destruct (String.eqb k "meta"); [discriminate|].
  assert (Hfig : forall l,
             snd (if negb (truthy folder_path) && show
                  then io_do (FigShow k l)
                  else match folder_path with
                       | Some folder =>
                           io_do (WriteHtml k l folder (html_name k) show)
                       | None => io_raise (Exn TypeError)
                       end) <> Raises (RuntimeError msg)).
  { intro l. destruct (negb (truthy folder_path) && show); [discriminate|].
    destruct folder_path; discriminate. }
  unfold make_figure.
  destruct (String.eqb k "psd").
  { rewrite io_lift_bind. destruct (px_line k df); [|discriminate].
    cbn. intro H. destruct (Hfig _ H). }
  destruct (String.eqb k "pvss").
  { rewrite io_lift_bind. destruct (px_line k df); [|discriminate].
    cbn. intro H. destruct (Hfig _ H). }
  destruct (String.eqb k "metrics"); [discriminate|].
  destruct (String.eqb k "peaks").
  { rewrite io_lift_bind. destruct (peak_offset_seconds df); [|discriminate].
    rewrite io_lift_bind. destruct (px_line k df); [|discriminate].
    cbn. intro H. destruct (Hfig _ H). }
  destruct (String.eqb k "vc_curves").
  { rewrite io_lift_bind. destruct (px_line k df); [|discriminate].
    cbn. intro H. destruct (Hfig _ H). }
  reflexivity.
Qed.

Lemma to_html_plots_runtime_error (self : OutputStruct)
    (folder_path : option string) (show : bool) (msg : string) :
  snd (to_html_plots px_line self folder_path show) = Raises (RuntimeError msg) ->
  exists k, In k (map fst self) /\ known_key k = false.
Proof.
  unfold to_html_plots.
  destruct (negb (truthy folder_path || show)); [discriminate|].
  assert (E : forall (pre : io unit) (post : io unit),
             (exists d, pre = (d, Returns tt)) ->
             snd (_ <~ pre ;; post) = snd post).
  { intros pre post [d ->]. reflexivity. }
  rewrite E.
  2:{ destruct folder_path as [fo|]; [|eexists; reflexivity].
      destruct (truthy (Some fo)) eqn:Et; [|eexists; reflexivity].
      rewrite makedirs_named by (apply truthy_named; exact Et).
      eexists. reflexivity. }
  intro H. apply io_for_raises in H as ([k df] & Hin & H).
  apply plot_item_runtime_error in H.
  exists k. split; [|exact H].
  apply in_map_iff. exists (k, df). split; [reflexivity | exact Hin].
Qed.

(** One round of the loop for an entry that can be drawn. *)
Lemma plot_item_step (folder_path : option string) (show : bool)
    (target : string -> layout -> action) (e : string * table) :
  (forall k l,
     (if negb (truthy folder_path) && show
      then io_do (FigShow k l)
      else match folder_path with
           | Some folder => io_do (WriteHtml k l folder (html_name k) show)
           | None => io_raise (Exn TypeError)
           end)
     = io_do (target k l)) ->
  drawable px_line e ->
  exists acts,
    plot_item px_line folder_path show e = (acts, Returns tt)
    /\ figure_step target e acts.
Proof.
  intros Hmode Hd. destruct e as [k df]. unfold drawable in Hd.
  cbn [fst snd] in Hd. unfold plot_item, make_figure, figure_step.
  cbn [fst snd].
  destruct Hd as [-> | [-> | [[Hk Hpx] | (-> & Hsec & Hpx)]]].
  - eexists. split; reflexivity.
  - eexists. split; reflexivity.
  - destruct Hk as [-> | [-> | ->]];
      cbn -[truthy html_name]; rewrite io_lift_bind, Hpx;
      cbn -[truthy html_name]; rewrite Hmode;
      eexists; (split; [reflexivity|]);
      eexists; repeat split.
  - cbn -[truthy html_name peak_offset_seconds].
    rewrite io_lift_bind, Hsec, io_lift_bind, Hpx.
    cbn -[truthy html_name]. rewrite Hmode.
    eexists. split; [reflexivity|]. eexists. repeat split.
Qed.

Lemma plot_loop_steps (folder_path : option string) (show : bool)
    (target : string -> layout -> action) (self : OutputStruct) :
  (forall k l,
     (if negb (truthy folder_path) && show
      then io_do (FigShow k l)
      else match folder_path with
           | Some folder => io_do (WriteHtml k l folder (html_name k) show)
           | None => io_raise (Exn TypeError)
           end)
     = io_do (target k l)) ->
  Forall (drawable px_line) self ->
  exists steps,
    io_for (plot_item px_line folder_path show) self
    = (concat steps, Returns tt)
    /\ Forall2 (figure_step target) self steps.
Proof.
  intros Hmode H. induction H as [|e rest He _ IH].
  - exists []. split; [reflexivity | constructor].
  - destruct IH as (steps & Hsteps & Hall).
    destruct (@plot_item_step folder_path show target e Hmode He)
      as (acts & Hacts & Hstep).
    exists (acts :: steps). split.
    + cbn [io_for]. rewrite Hacts, Hsteps. reflexivity.
    + constructor; assumption.
Qed.

(** X16. [to_html_plots] does nothing at all without a folder and without
    [show]. With a folder that has a name, and every entry such that its
    figure can be drawn, the method makes the folder first and then goes
    through the entries in their order: nothing for the metadata, a
    warning for the metrics, and for every other entry the page named
    after its key, written into the folder and opened automatically
    exactly when [show] is set. Without a folder and with [show], it makes
    no folder and shows every figure instead of writing it. In general a
    figure is either shown or written, never both, no figure is made for
    the metadata or the metrics, nothing else is written, and
    [RuntimeError] is raised only for a key the method has no branch
    for. *)
Theorem to_html_plots_shows_or_writes (self : OutputStruct)
    (folder_path : option string) (show : bool) :
  (truthy folder_path = false -> show = false ->
   to_html_plots px_line self folder_path show = ([], Returns tt))
  /\ (forall folder,
        folder_path = Some folder ->
        folder <> ""%string ->
        Forall (drawable px_line) self ->
        exists steps,
          to_html_plots px_line self folder_path show
          = (MakeDirs folder :: concat steps, Returns tt)
          /\ Forall2
               (figure_step
                  (fun k l => WriteHtml k l folder (html_name k) show))
               self steps)
  /\ (truthy folder_path = false ->
      show = true ->
      Forall (drawable px_line) self ->
      exists steps,
        to_html_plots px_line self folder_path show
        = (concat steps, Returns tt)
        /\ Forall2 (figure_step FigShow) self steps)
  /\ (forall a,
        In a (fst (to_html_plots px_line self folder_path show)) ->
        match a with
        | MakeDirs fo => folder_path = Some fo /\ truthy folder_path = true
        | ToCsv _ _ _ _ => False
        | LogWarning _ => In "metrics"%string (map fst self)
        | FigShow k _ =>
            truthy folder_path = false /\ show = true
            /\ In k (map fst self)
            /\ k <> "meta"%string /\ k <> "metrics"%string
        | WriteHtml k _ fo file ao =>
            folder_path = Some fo /\ truthy folder_path = true
            /\ file = html_name k /\ ao = show
            /\ In k (map fst self)
            /\ k <> "meta"%string /\ k <> "metrics"%string
        end)
  /\ (forall msg,
        snd (to_html_plots px_line self folder_path show)
        = Raises (RuntimeError msg) ->
        exists k, In k (map fst self) /\ known_key k = false).
Proof.
  split; [|split; [|split; [|split]]].
  - intros Ht Hs. unfold to_html_plots. rewrite Ht, Hs. reflexivity.
  - intros folder -> Hfolder Hd.
    assert (Ht : truthy (Some folder) = true)
      by (apply truthy_named; exact Hfolder).
    destruct (@plot_loop_steps (Some folder) show
                (fun k l => WriteHtml k l folder (html_name k) show) self)
      as (steps & Hsteps & Hall).
    { intros k l. rewrite Ht. reflexivity. }
    { exact Hd. }
    exists steps. split; [|exact Hall].
    unfold to_html_plots. rewrite Ht, (makedirs_named Hfolder).
    cbn [orb negb]. unfold io_bind, io_do. rewrite Hsteps. reflexivity.
  - intros Ht -> Hd.
    destruct (@plot_loop_steps folder_path true FigShow self)
      as (steps & Hsteps & Hall).
    { intros k l. rewrite Ht. reflexivity. }
    { exact Hd. }
    exists steps. split; [|exact Hall].
    unfold to_html_plots. rewrite Ht. cbn [orb negb].
    assert (E : match folder_path with
                | Some folder => if false then makedirs folder else io_ret tt
                | None => io_ret tt
                end = io_ret tt)
      by (destruct folder_path; reflexivity).
    rewrite E. unfold io_bind, io_ret. rewrite Hsteps. reflexivity.
  - intros a Hin. unfold to_html_plots in Hin.
    destruct (truthy folder_path || show) eqn:Epast; cbn [negb] in Hin;
      [|destruct Hin].
    apply orb_true_iff in Epast.
    assert (Hloop : In a (fst (io_for (plot_item px_line folder_path show) self)) ->
                    match a with
                    | MakeDirs fo =>
                        folder_path = Some fo /\ truthy folder_path = true
                    | ToCsv _ _ _ _ => False
                    | LogWarning _ => In "metrics"%string (map fst self)
                    | FigShow k _ =>
                        truthy folder_path = false /\ show = true
                        /\ In k (map fst self)
                        /\ k <> "meta"%string /\ k <> "metrics"%string
                    | WriteHtml k _ fo file ao =>
                        folder_path = Some fo /\ truthy folder_path = true
                        /\ file = html_name k /\ ao = show
                        /\ In k (map fst self)
                        /\ k <> "meta"%string /\ k <> "metrics"%string
                    end).
    { intro H. apply io_for_In in H as ([k df] & Hk & H).
      assert (Hkey : In k (map fst self)).
      { apply in_map_iff. exists (k, df). split; [reflexivity | exact Hk]. }
      destruct (@plot_item_acts folder_path show k df a Epast H) as [Hmeta Ha].
      destruct a as [fo | fo file t idx | m | k' l | k' l fo file ao].
      - destruct Ha.
      - destruct Ha.
      - rewrite <- Ha. exact Hkey.
      - destruct Ha as (-> & Ht & Hs & Hm). repeat split; assumption.
      - destruct Ha as (-> & Hf & Ht & Hfile & Hao & Hm).
        repeat split; assumption. }
    destruct folder_path as [fo|].
    + destruct (truthy (Some fo)) eqn:Et.
      * rewrite makedirs_named in Hin by (apply truthy_named; exact Et).
        cbn in Hin. destruct Hin as [<- | Hin]; [split; reflexivity|].
        apply Hloop. exact Hin.
      * cbn in Hin. apply Hloop. exact Hin.
    + cbn in Hin. apply Hloop. exact Hin.
  - intro msg. apply to_html_plots_runtime_error.
Qed.

End PlotProps.

Section ExportProps.

Variable to_octave :
  list Q -> list (list Q) -> R -> R -> list Q * list (list Q).
Variable L2_norm : list Q -> Q.
Variable importFile : string -> result Dataset.
Variable new_Analyzer : Dataset -> AnalyzerArgs -> result Analyzer.
Variable px_line : string -> table -> result unit.

Local Abbreviation get_data :=
  (_get_data to_octave L2_norm importFile new_Analyzer).
Local Abbreviation aggregate :=
  (aggregate_data to_octave L2_norm importFile new_Analyzer).

(** X15. Exporting an aggregation to CSV files, into a folder with a name,
    succeeds exactly as far as its kinds have tables. When every queued
    kind has a result from at least one recording, all files are written:
    "meta.csv" and one file per kind, in the order of the queue. When the
    kind at position [j] has no result from any recording, as the spectrum
    has when no recording has an accelerometer, and the kinds before it
    have one, the export raises [AttributeError] after writing the metadata
    and the tables of those [j] kinds. With the empty string for the folder
    the export raises [FileNotFoundError] and writes nothing. *)
Theorem csv_export_of_an_aggregation (self : GetDataBuilder)
    (fs : list string) (datas : list (list (string * option Series)))
    (folder : string) :
  mapM (get_data self) fs = Ok datas ->
  fs <> [] ->
  NoDup fs ->
  folder <> ""%string ->
  exists out,
    aggregate self fs = Ok out
    /\ ((forall j, (j < length (_metrics_queue self))%nat ->
                   Exists (fun s => s <> None) (kind_column j datas)) ->
        to_csv_folder out folder
        = (MakeDirs folder :: map (csv_file folder) out, Returns tt)
        /\ map fst out = "meta"%string :: map kind_name (_metrics_queue self))
    /\ (forall j,
          (j < length (_metrics_queue self))%nat ->
          (forall i, (i < j)%nat ->
                     Exists (fun s => s <> None) (kind_column i datas)) ->
          Forall (fun s => s = None) (kind_column j datas) ->
          to_csv_folder out folder
          = (MakeDirs folder :: map (csv_file folder) (firstn (S j) out),
             Raises (Exn AttributeError)))
    /\ to_csv_folder out "" = ([], Raises (Exn FileNotFoundError)).
Proof.
  intros Hdatas Hne Hnd Hfolder.
  destruct (datas_shape to_octave L2_norm importFile new_Analyzer self fs Hdatas)
    as (dss & Hdss & _).
  pose proof (aggregate_data_ok to_octave L2_norm importFile new_Analyzer
                self Hdatas Hdss Hne Hnd) as Hout.
  set (q := _metrics_queue self) in *.
  set (l := combine fs dss) in *.
  set (entry := fun j => (kind_name (nth j q psd),
                          aggregated fs l (kind_column j datas))) in *.
  set (out := ("meta"%string, MetaTable (meta_frame l))
                :: map entry (seq 0 (length q))) in *.
  exists out. split; [exact Hout|].
  assert (Hpresent : forall j, Exists (fun s => s <> None) (kind_column j datas)
                               -> is_absent (snd (entry j)) = false).
  { intros j Hex. unfold entry, aggregated, concat_or_none. cbn [snd].
    destruct (first_present (kind_column j datas)) eqn:E; [reflexivity|].
    exfalso. apply first_present_None in E.
    apply Exists_exists in Hex as (s & Hs & Hn).
    rewrite Forall_forall in E. exact (Hn (E s Hs)). }
  assert (Habsent : forall j, Forall (fun s => s = None) (kind_column j datas)
                              -> entry j = (fst (entry j), DataTable None)).
  { intros j Hall. unfold entry, aggregated, concat_or_none. cbn [fst].
    apply first_present_None in Hall. rewrite Hall. reflexivity. }
  split; [|split; [|apply to_csv_folder_unnamed]].
  - intro Hall. split.
    + apply (csv_all_present Hfolder).
      unfold out. constructor; [reflexivity|].
      apply Forall_forall. intros e He.
      apply in_map_iff in He as (j & <- & Hj). apply in_seq in Hj.
      apply Hpresent, Hall. lia.
    + unfold out. simpl. f_equal. rewrite map_map. unfold entry. cbn [fst].
      symmetry. apply (map_nth_seq psd kind_name).
  - intros j Hj Hbefore Hnone.
    assert (Hnth : nth_error out (S j) = Some (fst (entry j), DataTable None)).
    { unfold out. simpl nth_error. rewrite nth_error_map_seq by exact Hj.
      f_equal. apply Habsent. exact Hnone. }
    rewrite (firstn_skipn_nth out (S j) Hnth) at 1.
    apply (csv_loop_absent _ _ Hfolder).
    unfold out. rewrite firstn_cons. constructor; [reflexivity|].
    rewrite firstn_map.
    apply Forall_forall. intros e He.
    apply in_map_iff in He as (i & <- & Hi). apply in_firstn_seq in Hi.
    apply Hpresent, Hbefore. lia.
Qed.

Lemma plot_items_ok (folder : string) (show : bool)
    (entries : list (kind * table)) :
  Forall (fun e => fst e <> metrics ->
                   px_line (kind_name (fst e)) (snd e) = Ok tt) entries ->
  truthy (Some folder) = true ->
  Forall (fun e => fst e = peaks -> peak_offset_seconds (snd e) = Ok tt)
         entries ->
  exists acts,
    io_for (plot_item px_line (Some folder) show)
      (map (fun e => (kind_name (fst e), snd e)) entries)
    = (acts, Returns tt)
    /\ Forall2 (plotted folder show) (map fst entries) acts.
Proof.
  intros Hpx Ht H. induction H as [|[k t] rest Hk _ IH].
  - exists []. split; [reflexivity | constructor].
  - inversion Hpx as [|e rest' Hpx1 Hpx2]; subst. cbn [fst snd] in Hpx1.
    destruct (IH Hpx2) as (acts & Hacts & Hall).
    assert (Hone : exists a,
               plot_item px_line (Some folder) show (kind_name k, t)
               = ([a], Returns tt)
               /\ plotted folder show k a).
    { unfold plot_item, make_figure. cbn [fst snd] in Hk.
      destruct k; cbn -[truthy html_name peak_offset_seconds];
        rewrite ?io_lift_bind; try rewrite (Hk eq_refl);
        cbn [kind_name] in Hpx1;
        rewrite ?io_lift_bind, ?(Hpx1 ltac:(discriminate));
        cbn -[truthy html_name]; rewrite ?Ht; cbn -[html_name];
        eexists; (split; [reflexivity|]); cbn;
        try reflexivity; eexists; repeat split. }
    destruct Hone as (a & Ha & Hp).
    exists (a :: acts). split.
    + cbn [map io_for fst snd]. rewrite Ha, Hacts. reflexivity.
    + constructor; assumption.
Qed.

(** X17. Plotting an aggregation into a folder, when the figure of every
    table in it can be drawn and the peak windows, if queued, have a
    table: the folder is
    made, then the queued kinds are gone through in the order of the
    queue, with a warning for the metrics and for every other kind a page
    named after it, on logarithmic axes except for the peak windows, which
    opens by itself exactly when [show] is set. The method returns, and on
    an aggregation it never raises [RuntimeError], whatever its arguments:
    every key has a branch. *)
Theorem html_export_of_an_aggregation (self : GetDataBuilder)
    (fs : list string) (out : OutputStruct) (folder : string) (show : bool) :
  aggregate self fs = Ok out ->
  (forall k t, In (k, t) out -> k <> "meta"%string -> k <> "metrics"%string ->
               px_line k t = Ok tt) ->
  folder <> ""%string ->
  ~ In ("peaks"%string, DataTable None) out ->
  (exists acts,
     to_html_plots px_line out (Some folder) show
     = (MakeDirs folder :: acts, Returns tt)
     /\ Forall2 (plotted folder show) (_metrics_queue self) acts)
  /\ forall px folder_path show' msg,
       snd (to_html_plots px out folder_path show')
       <> Raises (RuntimeError msg).
Proof.
  intros Hout Hpx Hfolder Hpeaks.
  assert (Hkeys : map fst out = "meta"%string :: map kind_name (_metrics_queue self)).
  { apply (aggregate_output_order to_octave L2_norm importFile new_Analyzer
             self fs Hout). }
  split.
  2:{ intros px fp sh msg H.
      apply to_html_plots_runtime_error in H as (k & Hk & Hn).
      rewrite Hkeys in Hk. destruct Hk as [<- | Hk]; [discriminate Hn|].
      apply in_map_iff in Hk as (k' & <- & _).
      rewrite known_key_kind_name in Hn. discriminate Hn. }
  destruct (aggregate_data_inv to_octave L2_norm importFile new_Analyzer
              self fs Hout)
    as (datas & dss & Hdatas & Hdss & Hne & Hnd).
  rewrite (aggregate_data_ok to_octave L2_norm importFile new_Analyzer
             self Hdatas Hdss Hne Hnd) in Hout.
  injection Hout as Hout.
  set (q := _metrics_queue self) in *.
  set (l := combine fs dss) in *.
  set (entries := map (fun j => (nth j q psd,
                                 aggregated fs l (kind_column j datas)))
                      (seq 0 (length q))).
  assert (Hrest : out = ("meta"%string, MetaTable (meta_frame l))
                          :: map (fun e => (kind_name (fst e), snd e)) entries).
  { rewrite <- Hout. unfold entries. rewrite map_map. reflexivity. }
  assert (Ht : truthy (Some folder) = true).
  { unfold truthy. destruct (String.eqb_spec folder ""); [contradiction|].
    reflexivity. }
  assert (Hfst : map fst entries = q).
  { unfold entries. rewrite map_map. cbn [fst].
    symmetry. etransitivity; [symmetry; apply map_id|].
    apply (map_nth_seq psd (fun k => k)). }
  destruct (@plot_items_ok folder show entries) as (acts & Hacts & Hall).
  { apply Forall_forall. intros e He Hm. apply Hpx.
    - rewrite Hrest. right.
      apply in_map_iff. exists e. split; [reflexivity | exact He].
    - destruct (fst e); discriminate.
    - destruct (fst e); try discriminate. contradiction Hm. reflexivity. }
  { exact Ht. }
  { apply Forall_forall. intros [k t] He Hk. cbn [fst snd] in *. subst k.
    unfold entries in He. apply in_map_iff in He as (j & E & Hj).
    injection E as Ek Et. apply in_seq in Hj.
    assert (Hjk : nth_error q j = Some peaks).
    { rewrite <- Ek. apply nth_error_nth'. lia. }
    pose proof (kind_column_funcs to_octave L2_norm importFile new_Analyzer
                  self fs j Hdatas Hjk) as Hcol.
    rewrite Forall_forall in Hcol.
    unfold aggregated, concat_or_none in Et.
    destruct (first_present (kind_column j datas)) as [s0|] eqn:E0.
    2:{ exfalso. apply Hpeaks. rewrite Hrest. right.
        apply in_map_iff. exists (peaks, t). split.
        - rewrite <- Et. reflexivity.
        - unfold entries. apply in_map_iff. exists j.
          split; [|apply in_seq; lia].
          rewrite Ek. f_equal. unfold aggregated, concat_or_none.
          rewrite E0. exact Et. }
    apply first_present_In in E0.
    destruct (Hcol _ E0) as (an0 & Han0).
    apply funcs_index in Han0 as [Hin0 _].
    rewrite <- Et. cbn [option_map]. unfold peak_offset_seconds, joined.
    cbn [columns records pd_concat index_names]. rewrite Hin0.
    cbn [kind_index app column_position String.eqb Ascii.eqb Bool.eqb].
    replace (forallb _ _) with true; [reflexivity|].
    symmetry. apply forallb_forall. intros r Hr.
    apply in_map_iff in Hr as (row & <- & Hrow). cbn [labels].
    apply in_flat_map in Hrow as ([f [s|]] & Hfs & Hrow); [|destruct Hrow].
    apply in_map_iff in Hrow as ([idx v] & <- & Hidx).
    apply in_combine_r in Hfs.
    destruct (Hcol _ Hfs) as (an & Han). cbn [funcs] in Han.
    destruct (_peak_window_margin_len self) as [m|]; [|discriminate Han].
    destruct (peak_rows_labels _ _ Han _ Hidx) as (ax & pt & x & E).
    cbn [fst] in E. rewrite E. reflexivity. }
  exists acts. split.
  - rewrite Hrest. unfold to_html_plots.
    rewrite Ht, (makedirs_named Hfolder).
    replace (truthy (Some folder) || show) with true by (rewrite Ht; reflexivity).
    cbn [negb io_for plot_item String.eqb Ascii.eqb Bool.eqb io_bind io_do
         io_ret fst snd app].
    rewrite Hacts. reflexivity.
  - rewrite <- Hfst. exact Hall.
Qed.

End ExportProps.

(** ** Which tables an aggregation lacks *)

Lemma funcs_none_iff
    (to_octave : list Q -> list (list Q) -> R -> R -> list Q * list (list Q))
    (L2_norm : list Q -> Q)
    (self : GetDataBuilder) (k : kind) (an : Analyzer) (x : option Series) :
  funcs to_octave L2_norm self k an = Ok x ->
  (k = metrics -> x <> None)
  /\ (k <> metrics -> (x = None <-> _channels_acc an = None)).
Proof.
  intro H. split.
  - intros ->. cbn [funcs] in H. unfold _make_metrics in H.
    injection H as <-. discriminate.
  - intro Hk. destruct k; try contradiction; cbn [funcs] in H.
    + unfold _make_psd in H. destruct (_channels_acc an) as [ch|].
      * destruct (_PSDData an) as [f p].
        destruct (match _psd_bins_per_octave self with
                  | Some b => _
                  | None => (f, p)
                  end) as [f' p'].
        bind_inv H df Hdf. injection H as <-. split; discriminate.
      * injection H as <-. split; reflexivity.
    + unfold _make_pvss in H. destruct (_channels_acc an) as [ch|].
      * destruct (_PVSSData an) as [f p].
        bind_inv H df Hdf. injection H as <-. split; discriminate.
      * injection H as <-. split; reflexivity.
    + destruct (_peak_window_margin_len self) as [m|]; [|discriminate H].
      unfold _make_peak_windows in H. destruct (_channels_acc an) as [ch|].
      * bind_inv H rws Hrws. bind_inv H dt Hdt. bind_inv H buf Hbuf.
        destruct buf as [i_max rd]. bind_inv H pt Hpt.
        destruct (Nat.eqb _ _); [|discriminate H].
        injection H as <-. split; discriminate.
      * injection H as <-. split; reflexivity.
    + unfold _make_vc_curves in H. destruct (_channels_acc an) as [ch|].
      * destruct (_VCCurveData an) as [f p].
        bind_inv H df Hdf. injection H as <-. split; discriminate.
      * injection H as <-. split; reflexivity.
Qed.

Section AbsentTables.

Variable to_octave :
  list Q -> list (list Q) -> R -> R -> list Q * list (list Q).
Variable L2_norm : list Q -> Q.
Variable importFile : string -> result Dataset.
Variable new_Analyzer : Dataset -> AnalyzerArgs -> result Analyzer.

Local Abbreviation get_data :=
  (_get_data to_octave L2_norm importFile new_Analyzer).
Local Abbreviation aggregate :=
  (aggregate_data to_octave L2_norm importFile new_Analyzer).

Lemma get_data_analyzer (self : GetDataBuilder) (f : string)
    (d : list (string * option Series)) :
  get_data self f = Ok d ->
  exists ds an,
    importFile f = Ok ds
    /\ new_Analyzer ds (analyzer_args self) = Ok an
    /\ Forall2 (fun k s => funcs to_octave L2_norm self k an = Ok s)
               (_metrics_queue self) (tl (map snd d)).
Proof.
  unfold _get_data. intro H.
  bind_inv H ds Hds. bind_inv H an Han. bind_inv H rest Hrest.
  injection H as <-. exists ds, an.
  split; [exact Hds|]. split; [exact Han|]. simpl.
  apply mapM_ok_Forall2 in Hrest.
  induction Hrest as [|k e q t Hke _ IH]; simpl; constructor.
  - apply bind_ok_inv in Hke as (s & Hs & Hke). injection Hke as <-. exact Hs.
  - exact IH.
Qed.

(** The result of every recording for a queued kind, with the analyzer
    that gave it. *)
Lemma kind_column_analyzers (self : GetDataBuilder) (fs : list string)
    (datas : list (list (string * option Series))) (j : nat) (k : kind) :
  mapM (get_data self) fs = Ok datas ->
  nth_error (_metrics_queue self) j = Some k ->
  Forall2 (fun f x =>
             exists ds an,
               importFile f = Ok ds
               /\ new_Analyzer ds (analyzer_args self) = Ok an
               /\ funcs to_octave L2_norm self k an = Ok x)
          fs (kind_column j datas).
Proof.
  intros Hdatas Hjk. apply mapM_ok_Forall2 in Hdatas.
  unfold kind_column, column, values. rewrite map_map.
  induction Hdatas as [|f d t t' Hfd _ IH]; simpl; constructor; [|exact IH].
  destruct (get_data_analyzer self f Hfd) as (ds & an & Hds & Han & Hall).
  destruct (Forall2_nth_error j Hall Hjk) as (s & Hs & Hfun).
  exists ds, an. split; [exact Hds|]. split; [exact Han|].
  rewrite Hfun. f_equal.
  destruct (map snd d) as [|m rest]; simpl in *.
  - destruct j; discriminate Hs.
  - symmetry. apply nth_error_nth. exact Hs.
Qed.

(** X18. An aggregation lacks the table of a kind exactly when no
    recording has an acceleration channel: the spectrum, the shock
    spectrum, the peak windows and the VC curves then are [None] in the
    result, and with one recording that has the channel they are tables.
    The metrics always are a table. *)
Theorem absent_tables_are_recordings_without_accelerometer
    (self : GetDataBuilder) (fs : list string) (out : OutputStruct) :
  aggregate self fs = Ok out ->
  forall j k,
    nth_error (_metrics_queue self) j = Some k ->
    exists t,
      nth_error out (S j) = Some (kind_name k, DataTable t)
      /\ (k = metrics -> t <> None)
      /\ (k <> metrics ->
          (t = None <->
           forall f ds an,
             In f fs ->
             importFile f = Ok ds ->
             new_Analyzer ds (analyzer_args self) = Ok an ->
             _channels_acc an = None)).
Proof.
  intros Hout j k Hjk.
  destruct (aggregate_data_inv to_octave L2_norm importFile new_Analyzer
              self fs Hout)
    as (datas & dss & Hdatas & Hdss & Hne & Hnd).
  rewrite (aggregate_data_ok to_octave L2_norm importFile new_Analyzer
             self Hdatas Hdss Hne Hnd) in Hout.
  injection Hout as <-.
  pose proof (kind_column_analyzers self fs j Hdatas Hjk) as Hcol.
  apply queue_position in Hjk as [Hj Hk].
  eexists. split.
  { simpl nth_error. rewrite nth_error_map_seq by exact Hj.
    rewrite Hk. unfold aggregated. reflexivity. }
  set (col := kind_column j datas) in *.
  assert (Hnone : option_map (joined (combine fs dss)) (concat_or_none fs col)
                  = None <-> Forall (fun s => s = None) col).
  { unfold concat_or_none. rewrite <- first_present_None.
    destruct (first_present col); simpl; split; congruence. }
  split.
  - intros -> Hn. apply Hnone in Hn.
    destruct Hcol as [|f x t t' (ds & an & _ & _ & Hfun) _];
      [contradiction|].
    inversion Hn as [|x' t'' Hx _]; subst.
    destruct (funcs_none_iff _ _ _ _ _ Hfun) as [Hm _].
    exact (Hm eq_refl eq_refl).
  - intro Hkm. rewrite Hnone. clear Hnone. split.
    + intros Hall f ds an Hf Hds Han.
      clear - Hcol Hall Hf Hds Han Hkm.
      induction Hcol as [|f' x t t' (ds' & an' & Hds' & Han' & Hfun) _ IH];
        [destruct Hf|].
      inversion Hall as [|x' t'' Hx Ht]; subst.
      destruct Hf as [<- | Hf]; [|exact (IH Ht Hf)].
      rewrite Hds in Hds'. injection Hds' as <-.
      rewrite Han in Han'. injection Han' as <-.
      destruct (funcs_none_iff _ _ _ _ _ Hfun) as [_ Hiff].
      apply (Hiff Hkm). reflexivity.
    + intro Hall. clear - Hcol Hall Hkm.
      induction Hcol as [|f' x t t' (ds' & an' & Hds' & Han' & Hfun) _ IH];
        constructor.
      * destruct (funcs_none_iff _ _ _ _ _ Hfun) as [_ Hiff].
        apply (Hiff Hkm).
        exact (Hall f' ds' an' (or_introl eq_refl) Hds' Han').
      * apply IH. intros f ds an Hf. apply Hall. right. exact Hf.
Qed.

End AbsentTables.

(** ** The further properties on the examples *)

(** The builder of the example: its three kinds have their parameters,
    the pvss parameters of the metrics seeded. *)
Lemma queued_kinds_are_configured_witness :
  run_calls ex_fresh ex_calls = Ok ex_builder
  /\ configured ex_builder psd
  /\ configured ex_builder metrics
  /\ configured ex_builder peaks
  /\ _analyzer_kwargs ex_builder = _analyzer_kwargs ex_fresh.
Proof.
  assert (Hrun : run_calls ex_fresh ex_calls = Ok ex_builder) by reflexivity.
  destruct (@queued_kinds_are_configured ex_to_octave ex_L2_norm
              [] (Some 1%R) None None None None
              ex_fresh ex_builder ex_calls eq_refl Hrun)
    as (Hc & Hk & _).
  split; [exact Hrun|].
  split; [apply Hc; simpl; tauto|].
  split; [apply Hc; simpl; tauto|].
  split; [apply Hc; simpl; tauto | exact Hk].
Defined.

(** Asking twice for the VC curves of a new builder. *)
Lemma repeated_call_changes_nothing_witness :
  apply_call ex_fresh (CallVcCurves 1 3) = Ok (add_vc_curves ex_fresh 1 3)
  /\ apply_call (add_vc_curves ex_fresh 1 3) (CallVcCurves 1 3)
     = Ok (add_vc_curves ex_fresh 1 3).
Proof.
  split; [reflexivity|].
  apply (@repeated_call_changes_nothing ex_fresh _ (CallVcCurves 1 3)).
  reflexivity.
Defined.

(** [add_pvss(init_freq=5, bins_per_octave=6).add_metrics().add_peaks(1)]:
    the metrics do not replace the parameters of the shock spectrum. *)
Lemma last_call_of_a_kind_decides_witness :
  exists b,
    run_calls ex_fresh ([] ++ CallPvss 5 6 :: [CallMetrics; CallPeaks 1]) = Ok b
    /\ _pvss_init_freq b = Some 5%R
    /\ _pvss_bins_per_octave b = Some 6%R.
Proof.
  eexists. split; [reflexivity|].
  refine (proj1 (@last_call_of_a_kind_decides ex_fresh _ []
                   [CallMetrics; CallPeaks 1] (CallPvss 5 6) eq_refl _)).
  intros c' [<- | [<- | []]]; discriminate.
Defined.

(** The example queues the metrics and never the shock spectrum. *)
Lemma implicit_kinds_have_the_defaults_witness :
  run_calls ex_fresh ex_calls = Ok ex_builder
  /\ _pvss_init_freq ex_builder = Some 1%R
  /\ _pvss_bins_per_octave ex_builder = Some 12%R.
Proof.
  assert (Hrun : run_calls ex_fresh ex_calls = Ok ex_builder) by reflexivity.
  destruct (@implicit_kinds_have_the_defaults
              [] (Some 1%R) None None None None
              ex_fresh ex_builder ex_calls eq_refl Hrun)
    as (Hm & _).
  split; [exact Hrun|]. apply Hm.
  - simpl. tauto.
  - simpl. intros [H | [H | [H | []]]]; discriminate H.
Defined.

(** The first recording given twice. *)
Lemma repeated_name_raises_witness :
  aggregate_data ex_to_octave ex_L2_norm ex_importFile ex_new_Analyzer
    ex_builder ["test1.IDE"; "test1.IDE"]%string = Raise ValueError.
Proof.
  assert (Hdatas : exists datas,
             mapM (_get_data ex_to_octave ex_L2_norm ex_importFile
                     ex_new_Analyzer ex_builder)
                  ["test1.IDE"; "test1.IDE"]%string = Ok datas)
    by (vm_compute; eexists; reflexivity).
  destruct Hdatas as [datas Hdatas].
  apply (repeated_name_raises ex_to_octave ex_L2_norm ex_importFile
           ex_new_Analyzer ex_builder Hdatas).
  intro H. inversion H as [|x t Hx _]. apply Hx. left. reflexivity.
Defined.

(** A file that is not there, between two that are. *)
Lemma failing_recording_fails_the_batch_witness :
  aggregate_data ex_to_octave ex_L2_norm ex_importFile ex_new_Analyzer
    ex_builder
    (["test1.IDE"%string] ++ "lost.IDE"%string :: ["test2.IDE"%string])%list
  = Raise FileNotFoundError.
Proof.
  refine (proj2 (@failing_recording_fails_the_batch ex_to_octave ex_L2_norm
                   ex_importFile ex_new_Analyzer ex_builder
                   ["test1.IDE"%string] ["test2.IDE"%string]
                   "lost.IDE"%string FileNotFoundError _) eq_refl).
  intros f' [<- | []]. vm_compute. eexists. reflexivity.
Defined.

(** The columns of the peak windows of the three recordings. *)
Lemma aggregated_table_columns_witness :
  exists df,
    nth_error ex_out 3 = Some ("peaks"%string, DataTable (Some df))
    /\ columns df
       = ["filename"; "axis"; "peak time"; "peak offset"; "value";
          "serial number"; "start time"]%string.
Proof.
  assert (H : exists df,
             nth_error ex_out 3 = Some ("peaks"%string, DataTable (Some df)))
    by (vm_compute; eexists; reflexivity).
  destruct H as [df Hdf]. exists df. split; [exact Hdf|].
  apply (@aggregated_table_columns ex_to_octave ex_L2_norm ex_importFile
           ex_new_Analyzer ex_builder ex_files ex_out ex_out_aggregated
           2%nat peaks df eq_refl Hdf).
Defined.

(** The metadata of the three recordings. *)
Lemma meta_table_has_a_row_per_recording_witness :
  exists m,
    nth_error ex_out 0 = Some ("meta"%string, MetaTable m)
    /\ length (frame_index m) = 3%nat
    /\ loc m (SStr "gps.IDE") (SStr "serial number") = Ok (SInt 9680).
Proof.
  destruct (meta_table_has_a_row_per_recording ex_to_octave ex_L2_norm
              ex_importFile ex_new_Analyzer ex_builder ex_files
              ex_out_aggregated)
    as (m & Hm & Hlen & _ & _ & Hloc & _).
  exists m. split; [exact Hm|]. split; [exact Hlen|].
  destruct (Hloc "gps.IDE"%string) as (ds & Hds & Hsn & _).
  - simpl. tauto.
  - vm_compute in Hds. injection Hds as <-. exact Hsn.
Defined.

(** The spectrum of the example: two frequencies, three axes and the
    resultant. *)
Lemma psd_table_holds_the_scaled_spectrum_witness :
  exists tbl,
    _make_psd ex_to_octave ex_analyzer None None = Ok (Some tbl)
    /\ length (rows tbl) = 8%nat
    /\ In ([SStr "Resultant"; SNum 1%Q],
           SNum (np_sum [4 * 1 ^ 2; 6 * 1 ^ 2; 8 * 1 ^ 2])%Q) (rows tbl).
Proof.
  destruct (@psd_table_holds_the_scaled_spectrum ex_to_octave ex_analyzer
              ex_channel None None [1; 2]%Q [ [4; 5]; [6; 7]; [8; 9] ]%Q
              eq_refl eq_refl)
    as (Hfit & _).
  destruct Hfit as (tbl & Htbl & _ & Hlen & Hrows).
  { split; [reflexivity | repeat constructor]. }
  exists tbl. split; [exact Htbl|]. split; [exact Hlen|].
  apply (Hrows 0%nat 1%Q eq_refl).
Defined.

(** The shock spectrum and the VC curves of the example. *)
Lemma pvss_and_vc_tables_hold_the_scaled_data_witness :
  exists pvss_tbl vc_tbl,
    _make_pvss ex_L2_norm ex_analyzer = Ok (Some pvss_tbl)
    /\ _make_vc_curves ex_L2_norm ex_analyzer = Ok (Some vc_tbl)
    /\ length (rows pvss_tbl) = 8%nat
    /\ In ([SStr "Z"; SNum 2%Q], SNum (6 * 1000)%Q) (rows pvss_tbl)
    /\ In ([SStr "Y"; SNum 1%Q], SNum (2 * 1000000)%Q) (rows vc_tbl).
Proof.
  destruct (@pvss_and_vc_tables_hold_the_scaled_data ex_L2_norm ex_analyzer
              ex_channel eq_refl)
    as (Hp & _ & Hv & _).
  destruct Hp as (pt & Hpt & _ & Hplen & Hprows).
  { split; [reflexivity | repeat constructor]. }
  destruct Hv as (vt & Hvt & _ & _ & Hvrows).
  { split; [reflexivity | repeat constructor]. }
  exists pt, vt. split; [exact Hpt|]. split; [exact Hvt|].
  split; [exact Hplen|]. split.
  - apply (proj1 (Hprows 1%nat 2%Q eq_refl) 2%nat "Z"%string [5; 6]%Q
             eq_refl eq_refl).
  - apply (proj1 (Hvrows 0%nat 1%Q eq_refl) 1%nat "Y"%string [2; 2]%Q
             eq_refl eq_refl).
Defined.

Lemma ex_tie_analyzer_usable : usable ex_tie_analyzer ex_tie_channel 4.
Proof.
  constructor; try reflexivity.
  - repeat constructor.
  - discriminate.
  - repeat constructor; simpl; intuition discriminate.
  - intro H. discriminate H.
Qed.

(** X has -7 at its second and 7 at its third sample: the second is the
    peak, and the rows of X carry its time. *)
Lemma peak_is_the_first_largest_sample_witness :
  PeakWindows.buffer (signal ex_tie_analyzer) 1
  = Ok ([1; 1], [ [Some 3; Some (-7); Some 7]; [Some 3; Some 7; Some 7] ]%Q)
  /\ exists tbl,
       _make_peak_windows ex_tie_analyzer 1 = Ok (Some tbl)
       /\ Forall (fun r => nth 1 (fst r) SNaN = STimedeltaUs 100) (rows tbl).
Proof.
  split; [vm_compute; reflexivity|].
  destruct (peak_is_the_first_largest_sample (m := 1) ex_tie_analyzer_usable)
    as (tbl & Htbl & Hrows); [lia|].
  exists tbl. split; [exact Htbl|].
  apply Forall_forall. intros r Hr.
  destruct (Hrows r Hr) as (j & row & ax & i & _ & _ & _ & _ & _).
  clear Hrows. vm_compute in Htbl. injection Htbl as <-.
  repeat (destruct Hr as [<- | Hr]; [reflexivity|]). destruct Hr.
Defined.

(** A margin of -1 on the example. *)
Lemma negative_margin_raises_witness :
  _make_peak_windows ex_analyzer (-1) = Raise ValueError
  /\ funcs ex_to_octave ex_L2_norm (add_peaks ex_fresh (-1)) peaks ex_analyzer
     = Raise ValueError.
Proof.
  destruct (@negative_margin_raises ex_to_octave ex_L2_norm ex_analyzer
              ex_channel 5 (-1) ex_analyzer_usable)
    as (H1 & H2); [lia|].
  split; [exact H1 | apply H2].
Defined.

(** The accelerometer without samples. *)
Lemma no_samples_raises_witness :
  _make_peak_windows ex_empty_analyzer 1 = Raise ValueError.
Proof.
  apply (@no_samples_raises ex_empty_analyzer _ 1 eq_refl).
  - repeat constructor.
  - reflexivity.
  - intro H. discriminate H.
Defined.

(** The result for the recording without an accelerometer holds no
    spectrum: the metadata is written, the metrics are not; and without a
    name for the folder nothing is written. *)
Lemma to_csv_folder_stops_at_an_absent_table_witness :
  exists m metrics_table,
    to_csv_folder
      ([("meta"%string, MetaTable m)]
         ++ ("psd"%string, DataTable None)
         :: [("metrics"%string, metrics_table)])
      "csv"
    = ([MakeDirs "csv"; ToCsv "csv" "meta.csv" (MetaTable m) true],
       Raises (Exn AttributeError))
    /\ to_csv_folder [("meta"%string, MetaTable m)] ""
       = ([], Raises (Exn FileNotFoundError)).
Proof.
  exists {| frame_index := []; frame_columns := []; frame_entries := [] |}.
  exists (DataTable None).
  destruct (@to_csv_folder_stops_at_an_absent_table
              [("meta"%string,
                MetaTable {| frame_index := []; frame_columns := [];
                             frame_entries := [] |})]
              [("metrics"%string, DataTable None)] "psd" "csv")
    as (Hnamed & Hunnamed & _).
  { repeat constructor. }
  split; [|exact Hunnamed].
  apply Hnamed. discriminate.
Defined.

Lemma ex_gps_datas_extracted :
  mapM (_get_data ex_to_octave ex_L2_norm ex_importFile ex_new_Analyzer
          ex_builder) ["gps.IDE"%string] = Ok ex_gps_datas.
Proof.
  vm_compute. reflexivity.
Qed.

(** Exporting the aggregation of the recording without an accelerometer
    fails at the spectrum, after "meta.csv"; exporting that of the three
    recordings writes four files. *)
Lemma csv_export_of_an_aggregation_witness :
  (exists out,
     aggregate_data ex_to_octave ex_L2_norm ex_importFile ex_new_Analyzer
       ex_builder ["gps.IDE"%string] = Ok out
     /\ to_csv_folder out "csv"
        = (MakeDirs "csv" :: map (csv_file "csv") (firstn 1 out),
           Raises (Exn AttributeError)))
  /\ to_csv_folder ex_out "csv"
     = (MakeDirs "csv" :: map (csv_file "csv") ex_out, Returns tt).
Proof.
  split.
  - destruct (@csv_export_of_an_aggregation ex_to_octave ex_L2_norm
                ex_importFile ex_new_Analyzer ex_builder ["gps.IDE"%string]
                ex_gps_datas "csv" ex_gps_datas_extracted)
      as (out & Hout & _ & Hfail & _).
    + discriminate.
    + repeat constructor. simpl. tauto.
    + discriminate.
    + exists out. split; [exact Hout|].
      apply (Hfail 0%nat).
      * simpl. lia.
      * intros i Hi. lia.
      * vm_compute. repeat constructor.
  - destruct (@csv_export_of_an_aggregation ex_to_octave ex_L2_norm
                ex_importFile ex_new_Analyzer ex_builder ex_files
                ex_datas "csv" ex_datas_extracted)
      as (out & Hout & Hok & _).
    + discriminate.
    + exact ex_files_NoDup.
    + discriminate.
    + rewrite ex_out_aggregated in Hout. injection Hout as <-.
      apply Hok. intros j Hj.
      destruct j as [|[|[|j]]]; [| | |simpl in Hj; lia];
        apply Exists_cons_hd; vm_compute; discriminate.
Defined.

Lemma ex_out_drawable : Forall (drawable ex_px_line) ex_out.
Proof.
  unfold ex_out. constructor; [left; reflexivity|].
  constructor.
  { right. right. left. split; [left; reflexivity | reflexivity]. }
  constructor; [right; left; reflexivity|].
  constructor; [|constructor].
  right. right. right. split; [reflexivity|].
  split; [vm_compute; reflexivity | reflexivity].
Qed.

(** The three recordings: shown without a folder, written with one, and
    neither without both. *)
Lemma to_html_plots_shows_or_writes_witness :
  (exists steps,
     to_html_plots ex_px_line ex_out None true = (concat steps, Returns tt)
     /\ Forall2 (figure_step FigShow) ex_out steps)
  /\ (exists steps,
        to_html_plots ex_px_line ex_out (Some "plots"%string) true
        = (MakeDirs "plots" :: concat steps, Returns tt)
        /\ Forall2
             (figure_step
                (fun k l => WriteHtml k l "plots" (html_name k) true))
             ex_out steps)
  /\ to_html_plots ex_px_line ex_out None false = ([], Returns tt).
Proof.
  split; [|split].
  - destruct (to_html_plots_shows_or_writes ex_px_line ex_out None true)
      as (_ & _ & Hshow & _).
    exact (Hshow eq_refl eq_refl ex_out_drawable).
  - destruct (to_html_plots_shows_or_writes ex_px_line ex_out
                (Some "plots"%string) true)
      as (_ & Hwrite & _).
    apply (Hwrite "plots"%string eq_refl); [discriminate|].
    exact ex_out_drawable.
  - destruct (to_html_plots_shows_or_writes ex_px_line ex_out None false)
      as (Hnone & _).
    exact (Hnone eq_refl eq_refl).
Defined.

(** The three recordings plotted into a folder: a page for the spectrum,
    a warning for the metrics, a page for the peak windows. *)
Lemma html_export_of_an_aggregation_witness :
  exists acts,
    to_html_plots ex_px_line ex_out (Some "plots"%string) false
    = (MakeDirs "plots" :: acts, Returns tt)
    /\ Forall2 (plotted "plots" false) [psd; metrics; peaks] acts.
Proof.
  refine (proj1 (@html_export_of_an_aggregation ex_to_octave ex_L2_norm
                   ex_importFile ex_new_Analyzer ex_px_line ex_builder
                   ex_files ex_out "plots" false ex_out_aggregated _ _ _)).
  - intros k t _ _ _. reflexivity.
  - discriminate.
  - intro H. repeat (destruct H as [H | H]; [discriminate H|]). destruct H.
Defined.

Lemma ex_gps_out_aggregated :
  aggregate_data ex_to_octave ex_L2_norm ex_importFile ex_new_Analyzer
    ex_builder ["gps.IDE"%string] = Ok ex_gps_out.
Proof.
  vm_compute. reflexivity.
Qed.

(** The recording without an accelerometer on its own: no spectrum, and
    the metrics all the same. *)
Lemma absent_tables_are_recordings_without_accelerometer_witness :
  nth_error ex_gps_out 1 = Some ("psd"%string, DataTable None)
  /\ exists df, nth_error ex_gps_out 2
                = Some ("metrics"%string, DataTable (Some df)).
Proof.
  pose proof (absent_tables_are_recordings_without_accelerometer
                ex_to_octave ex_L2_norm ex_importFile ex_new_Analyzer
                ex_builder ["gps.IDE"%string] ex_gps_out_aggregated) as H.
  split.
  - destruct (H 0%nat psd eq_refl) as (t & Ht & _ & Hiff).
    rewrite Ht. do 3 f_equal. apply Hiff; [discriminate|].
    intros f ds an [<- | []] Hds Han.
    vm_compute in Hds. injection Hds as <-.
    vm_compute in Han. injection Han as <-. reflexivity.
  - destruct (H 1%nat metrics eq_refl) as (t & Ht & Hsome & _).
    destruct t as [df|]; [|destruct (Hsome eq_refl eq_refl)].
    exists df. exact Ht.
Defined.
